(** * Promptly: the prompt analyzer (src/core/prompt_analyzer.py)

    A shallow embedding of [AdvancedPromptAnalyzer]: the five lexical
    scorers, the feedback synthesizer, the rule-based analysis, the validator
    of the external response and [comprehensive_analysis], which arbitrates
    between the external analysis and the rule-based one.

    Conventions of the embedding.
    - A Python [str] is a [string]; a character is a code point in
      U+0000..U+00FF, on which [str.lower], [str.isspace] and the regular
      expression classes [\s] and [\d] are modelled exactly.
    - A Python [float] or [int] is an exact rational ([Q]); equality of
      numbers is [Qeq].  The non-finite floats that [json.loads] can return
      have a constructor of their own.
    - A parsed JSON document is a [pyval]; a [dict] is the list of its items
      in insertion order.
    - A Python call that can raise returns an [outcome].
    - The text generation service and [json.loads] are parameters of the
      arbiter: functions that return or raise.
    - A reading of the clock is an argument of the function that reads it.

    After the analyzer come the service that it calls
    (src/core/ai_service.py) and what its caller runs around it: the prompt
    validator (src/utils/validators.py), the cache of results
    (src/utils/cache_manager.py) and the timers (src/utils/logger.py). *)

From Stdlib Require Import QArith Qminmax Qround Qabs Lqa Lia ZArith NArith.
From Stdlib Require Import String Ascii List Bool.
Import ListNotations.

Set Warnings "-register-all".

Open Scope string_scope.
Open Scope Q_scope.

(** ** Python strings *)

Module PyStr.

(** [str.isspace] on one character: TAB..CR, FS..US, space, NEL and NBSP. *)
Definition is_space (c : ascii) : bool :=
  let n := N_of_ascii c in
  ((9 <=? n) && (n <=? 13) || (28 <=? n) && (n <=? 32)
   || (n =? 133) || (n =? 160))%N.

(** The class [\d] of [re] on a [str] pattern. *)
Definition is_digit (c : ascii) : bool :=
  let n := N_of_ascii c in ((48 <=? n) && (n <=? 57))%N.

(** [str.lower] on one character: A..Z and the Latin-1 capitals but the
    multiplication sign. *)
Definition lower_char (c : ascii) : ascii :=
  let n := N_of_ascii c in
  if ((65 <=? n) && (n <=? 90)
      || (192 <=? n) && (n <=? 222) && negb (n =? 215))%N
  then ascii_of_N (n + 32) else c.

Fixpoint lower (s : string) : string :=
  match s with
  | EmptyString => EmptyString
  | String c r => String (lower_char c) (lower r)
  end.

(** [sub in s]: [sub] starts at some position of [s]. *)
Fixpoint contains (sub s : string) : bool :=
  String.prefix sub s ||
  match s with
  | EmptyString => false
  | String _ r => contains sub r
  end.

(** The number of positions of [s] at which [sub] starts. *)
Fixpoint occurrences (sub s : string) : nat :=
  (if String.prefix sub s then 1 else 0) +
  match s with
  | EmptyString => 0
  | String _ r => occurrences sub r
  end.

(** [len(s.split())]: the number of maximal runs of non-space characters.
    [in_word] tells that the previous character belongs to a word. *)
Fixpoint count_words (in_word : bool) (s : string) : nat :=
  match s with
  | EmptyString => 0
  | String c r =>
      if is_space c then count_words false r
      else (if in_word then 0 else 1) + count_words true r
  end.

Definition word_count (s : string) : nat := count_words false s.

(** The number of maximal runs of characters of the class [p], which is
    [len(re.findall(p+, s))]. *)
Fixpoint count_runs (p : ascii -> bool) (in_run : bool) (s : string) : nat :=
  match s with
  | EmptyString => 0
  | String c r =>
      if p c then (if in_run then 0 else 1) + count_runs p true r
      else count_runs p false r
  end.

Fixpoint lstrip (s : string) : string :=
  match s with
  | EmptyString => EmptyString
  | String c r => if is_space c then lstrip r else s
  end.

Fixpoint rstrip (s : string) : string :=
  match s with
  | EmptyString => EmptyString
  | String c r =>
      match rstrip r with
      | EmptyString => if is_space c then EmptyString else String c EmptyString
      | r' => String c r'
      end
  end.

(** [str.strip()] *)
Definition strip (s : string) : string := lstrip (rstrip s).

(** [sum(1 for word in words if word in text)] *)
Definition count_present (words : list string) (text : string) : nat :=
  List.length (List.filter (fun w => contains w text) words).

(** [sum(1 for word in words if word.lower() in text)] *)
Definition count_present_lowered (words : list string) (text : string) : nat :=
  List.length (List.filter (fun w => contains (lower w) text) words).

(** [any(word in text for word in words)] *)
Definition any_present (words : list string) (text : string) : bool :=
  List.existsb (fun w => contains w text) words.

End PyStr.

Import PyStr.

(** ** The lexical scorers *)

Definition of_count (n : nat) : Q := inject_Z (Z.of_nat n).

(** [max(1.0, min(10.0, score))] *)
Definition clamp_score (score : Q) : Q := Qmax 1.0 (Qmin 10.0 score).

Definition question_mark : string := "?".

Definition clarity_vague_words : list string :=
  ["thing"; "stuff"; "something"; "anything"; "maybe"; "perhaps"; "might";
   "kinda"; "sorta"].

Definition clarity_clear_words : list string :=
  ["create"; "write"; "analyze"; "explain"; "describe"; "list"; "compare";
   "summarize"].

Definition clarity_base (words : nat) : Q :=
  if (words <? 5)%nat then 3.0
  else if (words <? 15)%nat then 5.0
  else if (words <? 50)%nat then 7.0
  else 8.0.

Definition calculate_clarity_score (prompt : string) : Q :=
  let score := clarity_base (word_count prompt) in
  let vague_count := count_present clarity_vague_words (lower prompt) in
  let score := score - of_count vague_count * 1.0 in
  let clear_count := count_present clarity_clear_words (lower prompt) in
  let score := score + of_count clear_count * 0.5 in
  let score := if contains question_mark prompt then score + 0.5 else score in
  clamp_score score.

Definition format_words : list string :=
  ["json"; "csv"; "markdown"; "html"; "pdf"; "bullet points"; "numbered list";
   "table"; "report"; "essay"].

Definition domain_words : list string :=
  ["business"; "technical"; "academic"; "marketing"; "sales"; "finance";
   "education"; "health"].

Definition vague_requests : list string :=
  ["help me"; "can you"; "please do"; "make it good"; "do something";
   "fix this"].

Definition calculate_specificity_score (prompt : string) : Q :=
  let word_count := word_count prompt in
  let score :=
    if (word_count <? 10)%nat then 3.0
    else if (word_count <? 30)%nat then 5.0
    else 7.0 in
  let numbers := count_runs is_digit false prompt in
  let score := score + Qmin (of_count numbers * 0.8) 2.0 in
  let format_count := count_present_lowered format_words (lower prompt) in
  let score := score + Qmin (of_count format_count * 1.0) 2.0 in
  let domain_count := count_present_lowered domain_words (lower prompt) in
  let score := score + Qmin (of_count domain_count * 0.5) 1.5 in
  let vague_count := count_present vague_requests (lower prompt) in
  let score := score - of_count vague_count * 1.5 in
  clamp_score score.

Definition context_words : list string :=
  ["background"; "context"; "situation"; "purpose"; "goal"; "because";
   "since"; "for"; "I need"; "I want"].

Definition personal_words : list string :=
  ["I am"; "my"; "our"; "we are"; "company"; "project"; "team"].

Definition calculate_context_score (prompt : string) : Q :=
  let word_count := word_count prompt in
  let score :=
    if (word_count <? 8)%nat then 2.0
    else if (word_count <? 20)%nat then 4.0
    else if (word_count <? 50)%nat then 6.0
    else 8.0 in
  let context_count := count_present_lowered context_words (lower prompt) in
  let score := score + Qmin (of_count context_count * 0.8) 2.0 in
  let personal_count := count_present_lowered personal_words (lower prompt) in
  let score := score + Qmin (of_count personal_count * 0.3) 1.0 in
  clamp_score score.

Definition format_instructions : list string :=
  ["format as"; "write in"; "use style"; "include"; "structure"; "organize";
   "make it"].

Definition length_specs : list string :=
  ["words"; "characters"; "pages"; "paragraphs"; "sentences"; "bullet points";
   "brief"; "detailed"; "long"; "short"].

Definition style_specs : list string :=
  ["tone"; "style"; "formal"; "casual"; "professional"; "friendly";
   "technical"; "simple"; "advanced"].

Definition audience_specs : list string :=
  ["for"; "audience"; "beginner"; "expert"; "student"; "client"; "manager"].

Definition calculate_constraint_score (prompt : string) : Q :=
  let score := 4.0 in
  let format_count := count_present format_instructions (lower prompt) in
  let score := score + Qmin (of_count format_count * 1.0) 3.0 in
  let length_count := count_present length_specs (lower prompt) in
  let score := score + Qmin (of_count length_count * 0.8) 2.0 in
  let style_count := count_present style_specs (lower prompt) in
  let score := score + Qmin (of_count style_count * 0.6) 2.0 in
  let audience_count := count_present audience_specs (lower prompt) in
  let score := score + Qmin (of_count audience_count * 0.5) 1.0 in
  clamp_score score.

Definition action_words : list string :=
  ["create"; "write"; "analyze"; "design"; "develop"; "build"; "generate";
   "produce"; "make"; "explain"; "describe"].

Definition outcome_words : list string :=
  ["result"; "output"; "deliverable"; "final"; "end goal"; "objective";
   "want"; "need"].

Definition intent_words : list string :=
  ["show"; "tell"; "find"; "solve"; "fix"; "improve"; "optimize"; "compare"].

Definition unclear_words : list string :=
  ["somehow"; "whatever"; "anything"; "something"; "help"; "please"].

Definition calculate_goal_score (prompt : string) : Q :=
  let score := 4.0 in
  let action_count := count_present action_words (lower prompt) in
  let score := score + Qmin (of_count action_count * 1.0) 3.0 in
  let outcome_count := count_present_lowered outcome_words (lower prompt) in
  let score := score + Qmin (of_count outcome_count * 0.8) 2.0 in
  let intent_count := count_present intent_words (lower prompt) in
  let score := score + Qmin (of_count intent_count * 0.6) 1.5 in
  let unclear_count := count_present unclear_words (lower prompt) in
  let score := score - of_count unclear_count * 0.8 in
  clamp_score score.

(** ** The feedback synthesizer *)

(** [a >= b] and [a < b] on scores. *)
Definition Qge_bool (a b : Q) : bool := Qle_bool b a.
Definition Qlt_bool (a b : Q) : bool := negb (Qle_bool b a).

(** [strengths.append(s)] under a condition. *)
Definition append_if (cond : bool) (s : string) (l : list string)
    : list string :=
  if cond then l ++ [s] else l.

Definition identify_strengths (prompt : string)
    (clarity specificity context constraints goal : Q) : list string :=
  let strengths := [] in
  let strengths :=
    append_if (Qge_bool clarity 7) "Clear and unambiguous language" strengths in
  let strengths :=
    append_if (Qge_bool specificity 7)
      "Specific requirements and details provided" strengths in
  let strengths :=
    append_if (Qge_bool context 7) "Sufficient background context" strengths in
  let strengths :=
    append_if (Qge_bool constraints 7)
      "Well-defined formatting and style constraints" strengths in
  let strengths :=
    append_if (Qge_bool goal 7) "Clear goal and desired outcome" strengths in
  let word_count := word_count prompt in
  let strengths :=
    append_if (50 <? word_count)%nat "Comprehensive and detailed prompt"
      strengths in
  let strengths :=
    append_if (any_present ["include"; "format"; "structure"] (lower prompt))
      "Good structural guidance provided" strengths in
  let strengths :=
    match strengths with
    | [] => ["Basic prompt structure in place"]
    | _ => strengths
    end in
  firstn 5 strengths.

Definition identify_weaknesses (prompt : string)
    (clarity specificity context constraints goal : Q) : list string :=
  let weaknesses := [] in
  let weaknesses :=
    append_if (Qlt_bool clarity 6)
      "Language could be clearer and less ambiguous" weaknesses in
  let weaknesses :=
    append_if (Qlt_bool specificity 6)
      "Needs more specific requirements and details" weaknesses in
  let weaknesses :=
    append_if (Qlt_bool context 6)
      "Lacks sufficient background context" weaknesses in
  let weaknesses :=
    append_if (Qlt_bool constraints 6)
      "Missing clear formatting and style guidelines" weaknesses in
  let weaknesses :=
    append_if (Qlt_bool goal 6)
      "Desired outcome could be more clearly defined" weaknesses in
  let word_count := word_count prompt in
  let weaknesses :=
    append_if (word_count <? 15)%nat "Prompt is too brief and lacks detail"
      weaknesses in
  let vague_words := ["thing"; "stuff"; "good"; "nice"; "help"] in
  let weaknesses :=
    append_if (any_present vague_words (lower prompt))
      "Contains vague language that could be more specific" weaknesses in
  let weaknesses :=
    match weaknesses with
    | [] => ["Minor improvements possible in overall clarity"]
    | _ => weaknesses
    end in
  firstn 5 weaknesses.

(** The body of the loop of [_generate_suggestions]: what one weakness
    appends. *)
Definition suggestion_for (weakness : string) : list string :=
  if contains "clearer" weakness || contains "ambiguous" weakness then
    ["Replace vague terms with specific, concrete language"]
  else if contains "specific" weakness || contains "details" weakness then
    ["Add specific numbers, formats, or measurable criteria"]
  else if contains "context" weakness then
    ["Provide background information about your situation or goals"]
  else if contains "formatting" weakness || contains "guidelines" weakness then
    ["Specify desired output format (length, style, structure)"]
  else if contains "outcome" weakness || contains "goal" weakness then
    ["Clearly state what success looks like for this task"]
  else if contains "brief" weakness || contains "detail" weakness then
    ["Expand the prompt with more context and requirements"]
  else if contains "vague" weakness then
    ["Replace general terms with specific, actionable language"]
  else [].

Definition generate_suggestions (prompt : string) (weaknesses : list string)
    : list string :=
  let suggestions := List.flat_map suggestion_for weaknesses in
  let suggestions :=
    match suggestions with
    | [] =>
        ["Consider adding more specific details about your requirements";
         "Include context about your intended audience or use case";
         "Specify the desired format and length of the output"]
    | _ => suggestions
    end in
  firstn 5 suggestions.

Definition nl : string := String (ascii_of_N 10) EmptyString.

(** The text of the template of [_improve_prompt] after the prompt and the
    two line feeds that follow it, up to the last line feed. *)
Definition template_body : string :=
  "Please provide a comprehensive response that includes:" ++ nl ++
  "- Clear explanations with specific examples" ++ nl ++
  "- Structured format with headings or bullet points" ++ nl ++
  "- Relevant context and background information" ++ nl ++
  "- Actionable insights or recommendations" ++ nl ++
  "- Sources or references where applicable" ++ nl ++
  nl ++
  "Target length: 200-500 words" ++ nl ++
  "Tone: Professional and informative".

Definition formatting_request : string :=
  nl ++ nl ++ "Please format your response with clear headings and structure.".

Definition length_target : string :=
  " Aim for a comprehensive response of 300-500 words.".

Definition improve_prompt (prompt : string) (weaknesses : list string)
    : string :=
  if (word_count prompt <? 15)%nat then
    strip (nl ++ prompt ++ nl ++ nl ++ template_body ++ nl)
  else
    let improved := prompt in
    let improved :=
      if negb (contains "format" (lower prompt))
      then improved ++ formatting_request else improved in
    let improved :=
      if negb (any_present ["words"; "length"; "brief"; "detailed"]
                 (lower prompt))
      then improved ++ length_target else improved in
    improved.

(** ** Python values *)

Inductive nonfinite : Type := NaN | PosInfinity | NegInfinity.

(** What [json.loads] returns, and what the analysis dictionaries hold. *)
Inductive pyval : Type :=
| PNone
| PBool (b : bool)
| PNum (q : Q)
| PNonFinite (k : nonfinite)
| PStr (s : string)
| PList (l : list pyval)
| PDict (items : list (string * pyval)).

Inductive exn : Type :=
| AttributeError
| TypeError
| JSONDecodeError
| AIServiceError
| OtherException.

Inductive outcome (A : Type) : Type :=
| Returns (a : A)
| Raises (e : exn).
Arguments Returns {A} a.
Arguments Raises {A} e.

Definition bind {A B : Type} (m : outcome A) (k : A -> outcome B) : outcome B :=
  match m with
  | Returns a => k a
  | Raises e => Raises e
  end.

Declare Scope py_scope.
Delimit Scope py_scope with py.
Notation "x <- m ;; k" := (bind m (fun x => k))
  (at level 61, m at next level, right associativity) : py_scope.
Notation "' p <- m ;; k" := (bind m (fun x => match x with p => k end))
  (at level 61, p pattern, m at next level, right associativity) : py_scope.
Open Scope py_scope.

Module Py.

(** [bool(v)] *)
Definition truthy (v : pyval) : bool :=
  match v with
  | PNone => false
  | PBool b => b
  | PNum q => negb (Qeq_bool q 0)
  | PNonFinite _ => true
  | PStr s => negb (String.eqb s "")
  | PList l => match l with [] => false | _ => true end
  | PDict items => match items with [] => false | _ => true end
  end.

Fixpoint lookup (key : string) (items : list (string * pyval)) : option pyval :=
  match items with
  | [] => None
  | (k, v) :: rest => if String.eqb key k then Some v else lookup key rest
  end.

(** [d.get(key, default)] *)
Definition get (d : pyval) (key : string) (default : pyval) : outcome pyval :=
  match d with
  | PDict items =>
      Returns (match lookup key items with Some v => v | None => default end)
  | _ => Raises AttributeError
  end.

(** [d.items()] *)
Definition items (d : pyval) : outcome (list (string * pyval)) :=
  match d with
  | PDict its => Returns its
  | _ => Raises AttributeError
  end.

(** [list(d.keys())] *)
Definition keys (d : pyval) : outcome (list string) :=
  match d with
  | PDict its => Returns (List.map fst its)
  | _ => Raises AttributeError
  end.

Definition is_str (key : string) (v : pyval) : bool :=
  match v with
  | PStr s => String.eqb key s
  | _ => false
  end.

(** [key in v] for a string [key]: a key of a dict, an element of a list, a
    substring of a string; the other values are not iterable. *)
Definition contains_key (key : string) (v : pyval) : outcome bool :=
  match v with
  | PDict its =>
      Returns (match lookup key its with Some _ => true | None => false end)
  | PList l => Returns (List.existsb (is_str key) l)
  | PStr s => Returns (contains key s)
  | _ => Raises TypeError
  end.

(** [all(key in v for key in keys)] *)
Fixpoint all_in (keys : list string) (v : pyval) : outcome bool :=
  match keys with
  | [] => Returns true
  | key :: rest =>
      b <- contains_key key v ;;
      if b then all_in rest v else Returns false
  end.

(** [isinstance(v, (int, float))]; [bool] is a subclass of [int]. *)
Definition is_number (v : pyval) : bool :=
  match v with
  | PBool _ | PNum _ | PNonFinite _ => true
  | _ => false
  end.

(** [lo <= v <= hi] for a number [v] and finite bounds. *)
Definition in_range (lo hi : Q) (v : pyval) : bool :=
  match v with
  | PBool b => let q := if b then 1 else 0 in Qle_bool lo q && Qle_bool q hi
  | PNum q => Qle_bool lo q && Qle_bool q hi
  | _ => false
  end.

(** [lo <= v <= hi] for any [v]: ordering a number with a value that is not
    one raises. *)
Definition between (lo hi : Q) (v : pyval) : outcome bool :=
  if is_number v then Returns (in_range lo hi v) else Raises TypeError.

(** [v == q] for a finite number [q]. *)
Definition eq_num (v : pyval) (q : Q) : bool :=
  match v with
  | PBool b => Qeq_bool (if b then 1 else 0) q
  | PNum x => Qeq_bool x q
  | _ => false
  end.

End Py.

(** ** The rule-based analysis *)

(** [round(x)] of Python on an exact value: to the nearest integer, a tie to
    the even one. *)
Definition round_half_even (x : Q) : Z :=
  let f := Qfloor x in
  match Qcompare (x - inject_Z f) (1 # 2) with
  | Lt => f
  | Gt => (f + 1)%Z
  | Eq => if Z.even f then f else (f + 1)%Z
  end.

(** [round(x, 1)] *)
Definition py_round1 (x : Q) : Q := inject_Z (round_half_even (x * 10)) / 10.

Definition str_list (l : list string) : pyval := PList (List.map PStr l).

(** The five scores of [_rule_based_analysis] before they are rounded. *)
Record raw_scores : Type := {
  rs_clarity : Q;
  rs_specificity : Q;
  rs_context : Q;
  rs_constraint : Q;
  rs_goal : Q
}.

Definition score_prompt (prompt : string) : raw_scores :=
  {| rs_clarity := calculate_clarity_score prompt;
     rs_specificity := calculate_specificity_score prompt;
     rs_context := calculate_context_score prompt;
     rs_constraint := calculate_constraint_score prompt;
     rs_goal := calculate_goal_score prompt |}.

Definition overall_of (s : raw_scores) : Q :=
  (rs_clarity s + rs_specificity s + rs_context s + rs_constraint s
   + rs_goal s) / 5.

Definition rule_based_analysis (prompt : string) : pyval :=
  let s := score_prompt prompt in
  let overall_score := overall_of s in
  let strengths :=
    identify_strengths prompt (rs_clarity s) (rs_specificity s) (rs_context s)
      (rs_constraint s) (rs_goal s) in
  let weaknesses :=
    identify_weaknesses prompt (rs_clarity s) (rs_specificity s)
      (rs_context s) (rs_constraint s) (rs_goal s) in
  let suggestions := generate_suggestions prompt weaknesses in
  let improved_prompt := improve_prompt prompt weaknesses in
  PDict
    [("scores",
      PDict
        [("clarity", PNum (py_round1 (rs_clarity s)));
         ("specificity", PNum (py_round1 (rs_specificity s)));
         ("context", PNum (py_round1 (rs_context s)));
         ("constraints", PNum (py_round1 (rs_constraint s)));
         ("goal_orientation", PNum (py_round1 (rs_goal s)));
         ("overall", PNum (py_round1 overall_score))]);
     ("analysis",
      PDict
        [("strengths", str_list strengths);
         ("weaknesses", str_list weaknesses);
         ("suggestions", str_list suggestions)]);
     ("improved_prompt", PStr improved_prompt);
     ("confidence", PNum 0.7)].

(** ** The validator of the external response *)

Definition required_keys : list string :=
  ["scores"; "analysis"; "improved_prompt"; "confidence"].

Definition score_keys : list string :=
  ["clarity"; "specificity"; "context"; "constraints"; "goal_orientation";
   "overall"].

Definition analysis_keys : list string :=
  ["strengths"; "weaknesses"; "suggestions"].

(** [score[0]] when [score] is a list of one element, else [score]. *)
Definition unwrap_single (score : pyval) : pyval :=
  match score with
  | PList [x] => x
  | _ => score
  end.

(** [isinstance(score, (int, float)) and 1 <= score <= 10] *)
Definition valid_score (score : pyval) : bool :=
  Py.is_number score && Py.in_range 1 10 score.

(** The loop over [scores.items()].  Every visited item is stored back
    unwrapped before it is checked; the loop stops at the first invalid score.
    The result is the verdict and the items of [scores] as the loop leaves
    them. *)
Fixpoint check_scores (items : list (string * pyval))
    : bool * list (string * pyval) :=
  match items with
  | [] => (true, [])
  | (key, score) :: rest =>
      let score := unwrap_single score in
      if valid_score score then
        let (ok, rest') := check_scores rest in (ok, (key, score) :: rest')
      else (false, (key, score) :: rest)
  end.

(** [d[key] = v] for a key that [d] has. *)
Fixpoint set_item (key : string) (v : pyval) (items : list (string * pyval))
    : list (string * pyval) :=
  match items with
  | [] => []
  | (k, x) :: rest =>
      if String.eqb key k then (k, v) :: rest
      else (k, x) :: set_item key v rest
  end.

Definition with_scores (response : pyval) (scores : list (string * pyval))
    : pyval :=
  match response with
  | PDict items => PDict (set_item "scores" (PDict scores) items)
  | _ => response
  end.

(** [_validate_ai_response]: the verdict, and the response as the call leaves
    it, since the scores are unwrapped in place. *)
Definition validate_ai_response (response : pyval) : outcome (bool * pyval) :=
  ok <- Py.all_in required_keys response ;;
  if negb ok then Returns (false, response) else
  scores <- Py.get response "scores" (PDict []) ;;
  ok <- Py.all_in score_keys scores ;;
  if negb ok then Returns (false, response) else
  analysis <- Py.get response "analysis" (PDict []) ;;
  ok <- Py.all_in analysis_keys analysis ;;
  if negb ok then Returns (false, response) else
  items <- Py.items scores ;;
  let (ok, items') := check_scores items in
  let response := with_scores response items' in
  if negb ok then Returns (false, response) else
  confidence <- Py.get response "confidence" (PNum 0) ;;
  if negb (Py.is_number confidence && Py.in_range 0 1 confidence)
  then Returns (false, response)
  else Returns (true, response).

(** [_is_valid_ai_analysis] *)
Definition is_valid_ai_analysis (ai_analysis : pyval) : outcome bool :=
  if negb (Py.truthy ai_analysis) then Returns false else
  scores <- Py.get ai_analysis "scores" (PDict []) ;;
  overall_score <- Py.get scores "overall" (PNum 0) ;;
  suspicious <-
    (if Py.eq_num overall_score 5.0 then Returns true
     else Py.between 5.5 5.7 overall_score) ;;
  if suspicious then
    confidence <- Py.get ai_analysis "confidence" (PNum 0) ;;
    if Py.eq_num confidence 0.7 then Returns false else Returns true
  else Returns true.

(** ** The external analysis *)

Definition dq : string := String (ascii_of_N 34) EmptyString.

(** [s] between double quotes. *)
Definition quoted (s : string) : string := dq ++ s ++ dq.

(** Every line followed by a line feed. *)
Definition unlines (l : list string) : string :=
  List.fold_right (fun line acc => line ++ nl ++ acc) EmptyString l.

(** [self.meta_prompts["comprehensive"]] *)
Definition meta_prompt_comprehensive : string :=
  unlines
    [""; 
     "You are an expert prompt engineering consultant. Analyze the "
       ++ "following prompt and provide scores from 1-10 for each dimension.";
     "";
     "IMPORTANT: Return scores as NUMBERS, not arrays. Example: "
       ++ quoted "clarity" ++ ": 7, NOT " ++ quoted "clarity" ++ ": [7]";
     "";
     "Respond ONLY with valid JSON in this exact format:";
     "{";
     "    " ++ quoted "scores" ++ ": {";
     "        " ++ quoted "clarity" ++ ": 7,";
     "        " ++ quoted "specificity" ++ ": 5, ";
     "        " ++ quoted "context" ++ ": 4,";
     "        " ++ quoted "constraints" ++ ": 3,";
     "        " ++ quoted "goal_orientation" ++ ": 8,";
     "        " ++ quoted "overall" ++ ": 6";
     "    },";
     "    " ++ quoted "analysis" ++ ": {";
     "        " ++ quoted "strengths" ++ ": [" ++ quoted "strength1" ++ ", "
       ++ quoted "strength2" ++ ", " ++ quoted "strength3" ++ "],";
     "        " ++ quoted "weaknesses" ++ ": [" ++ quoted "weakness1" ++ ", "
       ++ quoted "weakness2" ++ ", " ++ quoted "weakness3" ++ "], ";
     "        " ++ quoted "suggestions" ++ ": [" ++ quoted "suggestion1"
       ++ ", " ++ quoted "suggestion2" ++ ", " ++ quoted "suggestion3" ++ "]";
     "    },";
     "    " ++ quoted "improved_prompt" ++ ": "
       ++ quoted "Your improved version of the prompt here" ++ ",";
     "    " ++ quoted "confidence" ++ ": 0.8";
     "}";
     "";
     "PROMPT TO ANALYZE:"].

Module Re.

Fixpoint drop (n : nat) (s : string) : string :=
  match n, s with
  | O, _ => s
  | S k, String _ r => drop k r
  | S _, EmptyString => EmptyString
  end.

(** The length of the run of [\s] that [s] starts with. *)
Fixpoint leading_spaces (s : string) : nat :=
  match s with
  | String c r => if is_space c then S (leading_spaces r) else O
  | EmptyString => O
  end.

Definition fence : string := "```".
Definition json_fence : string := "```json".

(** [re.sub(r'```json\s*|\s*```', '', s)].  [skip] characters of [s] belong
    to the match in progress.  At a position where no match is in progress
    the first alternative is tried, then the second one. *)
Fixpoint sub_fences (skip : nat) (s : string) : string :=
  match s with
  | EmptyString => EmptyString
  | String c r =>
      match skip with
      | S k => sub_fences k r
      | O =>
          if String.prefix json_fence s then
            sub_fences (6 + leading_spaces (drop 7 s)) r
          else if String.prefix fence (drop (leading_spaces s) s) then
            sub_fences (leading_spaces s + 2) r
          else String c (sub_fences 0 r)
      end
  end.

Definition open_brace : ascii := ascii_of_N 123.
Definition close_brace : ascii := ascii_of_N 125.

(** The suffix of [s] that starts at its first opening brace. *)
Fixpoint from_open_brace (s : string) : option string :=
  match s with
  | EmptyString => None
  | String c r => if Ascii.eqb c open_brace then Some s else from_open_brace r
  end.

(** The prefix of [s] that ends at its last closing brace. *)
Fixpoint to_last_close_brace (s : string) : option string :=
  match s with
  | EmptyString => None
  | String c r =>
      match to_last_close_brace r with
      | Some r' => Some (String c r')
      | None =>
          if Ascii.eqb c close_brace then Some (String c EmptyString) else None
      end
  end.

(** [re.search(r'\{.*\}', s, re.DOTALL)]: the match, from the first opening
    brace to the last closing brace after it. *)
Definition search_braces (s : string) : option string :=
  match from_open_brace s with
  | Some (String c r) =>
      match to_last_close_brace r with
      | Some r' => Some (String c r')
      | None => None
      end
  | _ => None
  end.

End Re.

(** The text handed to [json.loads]. *)
Definition clean_response (raw_response : string) : string :=
  let clean_response := strip (Re.sub_fences 0 raw_response) in
  match Re.search_braces clean_response with
  | Some json_match => json_match
  | None => clean_response
  end.

Record AnalysisMetrics : Type := {
  clarity_score : pyval;
  specificity_score : pyval;
  context_score : pyval;
  constraint_score : pyval;
  goal_orientation_score : pyval;
  overall_score : pyval;
  word_count : nat;
  sentence_count : nat;
  complexity_level : string
}.

Record AnalysisResult : Type := {
  metrics : AnalysisMetrics;
  strengths : pyval;
  weaknesses : pyval;
  suggestions : pyval;
  improved_prompt : pyval;
  confidence_level : pyval
}.

Definition assess_complexity (prompt : string) : string :=
  let word_count := PyStr.word_count prompt in
  if (word_count <? 20)%nat then "Simple"
  else if (word_count <? 50)%nat then "Moderate"
  else if (word_count <? 100)%nat then "Complex"
  else "Advanced".

(** The class [[.!?]] *)
Definition is_sentence_end (c : ascii) : bool :=
  let n := N_of_ascii c in ((n =? 46) || (n =? 33) || (n =? 63))%N.

(** [len(re.split(r'[.!?]+', prompt.strip()))] *)
Definition count_sentences (prompt : string) : nat :=
  S (count_runs is_sentence_end false (strip prompt)).

(** Which analysis a result was built from. *)
Inductive source : Type := External | Heuristic.

Section Arbiter.

(** The external collaborators: the text generation service, as
    [AIServiceManager().get_service().generate_response], and [json.loads].
    Each returns or raises. *)
Variable generate_response : string -> outcome string.
Variable json_loads : string -> outcome pyval.

(** The body of the [try] of [_get_ai_analysis].  [debug] is set, so the keys
    of the parsed response are listed before it is validated. *)
Definition try_ai_analysis (prompt : string) : outcome pyval :=
  let full_prompt := meta_prompt_comprehensive ++ prompt in
  raw_response <- generate_response full_prompt ;;
  parsed_response <- json_loads (clean_response raw_response) ;;
  _ <- Py.keys parsed_response ;;
  '(ok, parsed_response) <- validate_ai_response parsed_response ;;
  if ok then Returns parsed_response else Returns PNone.

(** [_get_ai_analysis]: every exception is caught and gives [None]. *)
Definition get_ai_analysis (prompt : string) : pyval :=
  match try_ai_analysis prompt with
  | Returns v => v
  | Raises _ => PNone
  end.

(** [not ai_analysis or not self._is_valid_ai_analysis(ai_analysis)] *)
Definition needs_fallback (ai_analysis : pyval) : outcome bool :=
  if negb (Py.truthy ai_analysis) then Returns true
  else ok <- is_valid_ai_analysis ai_analysis ;; Returns (negb ok).

(** The analysis that [comprehensive_analysis] combines, and its origin. *)
Definition select_analysis (prompt : string) : outcome (source * pyval) :=
  let ai_analysis := get_ai_analysis prompt in
  fallback <- needs_fallback ai_analysis ;;
  if fallback then Returns (Heuristic, rule_based_analysis prompt)
  else Returns (External, ai_analysis).

(** The part of [comprehensive_analysis] that combines the results. *)
Definition combine_results (prompt : string) (ai_analysis : pyval)
    : outcome AnalysisResult :=
  scores <- Py.get ai_analysis "scores" (PDict []) ;;
  clarity <- Py.get scores "clarity" (PNum 5) ;;
  specificity <- Py.get scores "specificity" (PNum 5) ;;
  context <- Py.get scores "context" (PNum 5) ;;
  constraints <- Py.get scores "constraints" (PNum 5) ;;
  goal_orientation <- Py.get scores "goal_orientation" (PNum 5) ;;
  overall <- Py.get scores "overall" (PNum 5) ;;
  let metrics :=
    {| clarity_score := clarity;
       specificity_score := specificity;
       context_score := context;
       constraint_score := constraints;
       goal_orientation_score := goal_orientation;
       overall_score := overall;
       word_count := PyStr.word_count prompt;
       sentence_count := count_sentences prompt;
       complexity_level := assess_complexity prompt |} in
  analysis <- Py.get ai_analysis "analysis" (PDict []) ;;
  strengths <- Py.get analysis "strengths" (PList []) ;;
  analysis <- Py.get ai_analysis "analysis" (PDict []) ;;
  weaknesses <- Py.get analysis "weaknesses" (PList []) ;;
  analysis <- Py.get ai_analysis "analysis" (PDict []) ;;
  suggestions <- Py.get analysis "suggestions" (PList []) ;;
  improved_prompt <- Py.get ai_analysis "improved_prompt" (PStr prompt) ;;
  confidence <- Py.get ai_analysis "confidence" (PNum 0.5) ;;
  Returns
    {| metrics := metrics;
       strengths := strengths;
       weaknesses := weaknesses;
       suggestions := suggestions;
       improved_prompt := improved_prompt;
       confidence_level := confidence |}.

Definition comprehensive_analysis (prompt : string) : outcome AnalysisResult :=
  '(_, ai_analysis) <- select_analysis prompt ;;
  combine_results prompt ai_analysis.

(** The origin of the result of [comprehensive_analysis]. *)
Definition analysis_source (prompt : string) : outcome source :=
  '(origin, _) <- select_analysis prompt ;; Returns origin.

End Arbiter.

(** ** The text generation service (src/core/ai_service.py) *)

Module AIService.

(** What [GeminiService.__init__] gets from the library: the call that
    answers a prompt with a text, or raises. *)
Definition generative_model : Type := string -> outcome string.

(** A [GeminiService]: the time of its last request and its model. *)
Record GeminiService : Type := {
  last_request_time : Q;
  model : generative_model
}.

Definition min_request_interval : Q := 2.

(** [GeminiService(api_key)], where [connect] is the configuration of the
    library with the key: the service starts with [last_request_time = 0];
    every exception becomes an [AIServiceError]. *)
Definition new_gemini_service
    (connect : string -> outcome generative_model) (api_key : string)
    : outcome GeminiService :=
  match connect api_key with
  | Returns m => Returns {| last_request_time := 0; model := m |}
  | Raises _ => Raises AIServiceError
  end.

(** [_wait_for_rate_limit], with the two readings of [time.time()]: the
    time slept, if any, and the service after the call. *)
Definition wait_for_rate_limit (current_time after : Q) (svc : GeminiService)
    : option Q * GeminiService :=
  let time_since_last := current_time - last_request_time svc in
  let slept :=
    if Qlt_bool time_since_last min_request_interval
    then Some (min_request_interval - time_since_last) else None in
  (slept, {| last_request_time := after; model := model svc |}).

(** [GeminiService.generate_response]: every exception of the model
    becomes an [AIServiceError]. *)
Definition generate_response (current_time after : Q) (svc : GeminiService)
    (prompt : string) : option Q * GeminiService * outcome string :=
  let (slept, svc) := wait_for_rate_limit current_time after svc in
  (slept, svc,
   match model svc prompt with
   | Returns text => Returns text
   | Raises _ => Raises AIServiceError
   end).

(** The string that [if s] and [s or default] take for true: one that is
    neither [None] nor empty. *)
Definition given (s : option string) : option string :=
  match s with
  | Some text => if String.eqb text "" then None else Some text
  | None => None
  end.

(** [AIServiceManager._initialize_services]: the services by name. *)
Definition initialize_services
    (connect : string -> outcome generative_model)
    (google_api_key : option string) : list (string * GeminiService) :=
  match given google_api_key with
  | Some key =>
      match new_gemini_service connect key with
      | Returns svc => [("gemini", svc)]
      | Raises _ => []
      end
  | None => []
  end.

Definition primary_service : string := "gemini".

Fixpoint find_service (name : string)
    (services : list (string * GeminiService)) : option GeminiService :=
  match services with
  | [] => None
  | (n, svc) :: rest =>
      if String.eqb name n then Some svc else find_service name rest
  end.

(** [AIServiceManager.get_service] *)
Definition get_service (services : list (string * GeminiService))
    (service_name : option string) : outcome GeminiService :=
  let service_name :=
    match given service_name with
    | Some name => name
    | None => primary_service
    end in
  match find_service service_name services with
  | Some svc => Returns svc
  | None => Raises AIServiceError
  end.

(** The service call of [_get_ai_analysis]: a new manager, its service, one
    request.  [load_config] is [AppConfig()], which reads the key from the
    environment and may raise. *)
Definition request (load_config : outcome (option string))
    (connect : string -> outcome generative_model) (current_time after : Q)
    (full_prompt : string) : outcome (option Q * string) :=
  google_api_key <- load_config ;;
  service <- get_service (initialize_services connect google_api_key) None ;;
  let '(slept, _, response) :=
    generate_response current_time after service full_prompt in
  text <- response ;;
  Returns (slept, text).

(** The same as the collaborator of the arbiter. *)
Definition generate (load_config : outcome (option string))
    (connect : string -> outcome generative_model) (current_time after : Q)
    : string -> outcome string :=
  fun full_prompt =>
    '(_, text) <- request load_config connect current_time after full_prompt ;;
    Returns text.

End AIService.

(** ** The prompt validator (src/utils/validators.py) *)

Module PromptValidator.

Definition min_length : nat := 10.
Definition max_length : nat := 5000.

(** The outcome of a check: it passes or raises a [ValidationError] with a
    message. *)
Inductive check : Type :=
| Passes
| Fails (message : string).

Definition too_short : string :=
  "Prompt too short. Minimum 10 characters required.".
Definition too_long : string :=
  "Prompt too long. Maximum 5000 characters allowed.".
Definition empty_prompt : string := "Empty prompt not allowed.".
Definition too_few_words : string :=
  "Prompt should contain at least 3 words.".
Definition repetition : string := "Excessive character repetition detected.".

(** [_validate_length] *)
Definition validate_length (prompt : string) : check :=
  if (String.length (strip prompt) <? min_length)%nat then Fails too_short
  else if (max_length <? String.length prompt)%nat then Fails too_long
  else Passes.

Definition is_newline (c : ascii) : bool := Ascii.eqb c (ascii_of_N 10).

(** [re.search(r'(.)\1{10,}', s)]: a character other than the line feed
    occurs 11 times in a row.  [previous] is the character before [s], if it
    can start a run, and [run] the length of its run. *)
Fixpoint repeats (previous : option ascii) (run : nat) (s : string) : bool :=
  match s with
  | EmptyString => false
  | String c r =>
      if is_newline c then repeats None 0 r
      else
        let run :=
          match previous with
          | Some p => if Ascii.eqb p c then S run else 1%nat
          | None => 1%nat
          end in
        (11 <=? run)%nat || repeats (Some c) run r
  end.

(** [_validate_content] *)
Definition validate_content (prompt : string) : check :=
  if String.eqb (strip prompt) "" then Fails empty_prompt
  else if (PyStr.word_count prompt <? 3)%nat then Fails too_few_words
  else if repeats None 0 prompt then Fails repetition
  else Passes.

Definition invalid_encoding : string :=
  "Invalid character encoding detected.".

(** [_validate_encoding].  [prompt.encode('utf-8')] raises
    [UnicodeEncodeError] on a string that holds a lone surrogate (U+D800 to
    U+DFFF), a code point that the characters above do not reach: whether the
    codec encodes the prompt is the argument [encodes]. *)
Definition validate_encoding (encodes : string -> bool) (prompt : string)
    : check :=
  if encodes prompt then Passes else Fails invalid_encoding.

Definition suspicious_patterns : list (list string) :=
  [["hack"; "exploit"; "bypass"; "jailbreak"];
   ["illegal"; "harmful"; "dangerous"]].

(** [_check_suspicious_patterns]: whether the warning is shown.  The
    patterns ignore the case. *)
Definition check_suspicious_patterns (prompt : string) : bool :=
  List.existsb (fun words => any_present words (lower prompt))
    suspicious_patterns.

(** What [validate_prompt] shows to the user. *)
Inductive notice : Type :=
| ErrorNotice (message : string)
| WarningNotice.

(** [validate_prompt]: the verdict and the notices shown. *)
Definition validate_prompt (encodes : string -> bool) (prompt : string)
    : bool * list notice :=
  match validate_length prompt with
  | Fails e => (false, [ErrorNotice e])
  | Passes =>
      match validate_content prompt with
      | Fails e => (false, [ErrorNotice e])
      | Passes =>
          match validate_encoding encodes prompt with
          | Fails e => (false, [ErrorNotice e])
          | Passes =>
              (true,
               if check_suspicious_patterns prompt then [WarningNotice]
               else [])
          end
      end
  end.

(** The distinct elements of a list, as [set] keeps them. *)
Fixpoint distinct (l : list string) : list string :=
  match l with
  | [] => []
  | x :: r =>
      if List.existsb (String.eqb x) r then distinct r else x :: distinct r
  end.

(** [prompt.split()]: the words.  [word] holds the characters of the word
    in progress, last first. *)
Fixpoint split_words (word : list ascii) (s : string) : list string :=
  let flush (rest : list string) :=
    match word with
    | [] => rest
    | _ => string_of_list_ascii (List.rev word) :: rest
    end in
  match s with
  | EmptyString => flush []
  | String c r =>
      if is_space c then flush (split_words [] r)
      else split_words (c :: word) r
  end.

(** [get_validation_score] *)
Definition get_validation_score (prompt : string) : Q :=
  let score := 1.0 in
  let score :=
    if (String.length prompt <? 50)%nat then score - 0.2 else score in
  let words := split_words [] prompt in
  let unique_words := distinct words in
  let diversity :=
    match words with
    | [] => 0
    | _ => of_count (List.length unique_words) / of_count (List.length words)
    end in
  let score := score - (1 - diversity) * 0.3 in
  let sentences := S (count_runs is_sentence_end false prompt) in
  let score := if (sentences <? 2)%nat then score - 0.2 else score in
  Qmax 0 score.

End PromptValidator.

(** ** Dictionaries with string keys, in insertion order *)

Module Dict.
Section Values.

Context {V : Type}.

Definition t : Type := list (string * V).

Definition keys (d : t) : list string := List.map fst d.

(** [d.get(key)] *)
Fixpoint lookup (key : string) (d : t) : option V :=
  match d with
  | [] => None
  | (k, v) :: rest => if String.eqb key k then Some v else lookup key rest
  end.

(** [d[key] = v]: the value of a key that is there is replaced, a new key
    comes last. *)
Fixpoint assign (key : string) (v : V) (d : t) : t :=
  match d with
  | [] => [(key, v)]
  | (k, x) :: rest =>
      if String.eqb key k then (k, v) :: rest
      else (k, x) :: assign key v rest
  end.

(** [del d[key]] for a key that is there. *)
Fixpoint delete (key : string) (d : t) : t :=
  match d with
  | [] => []
  | (k, x) :: rest =>
      if String.eqb key k then rest else (k, x) :: delete key rest
  end.

End Values.
End Dict.

(** ** The cache of results (src/utils/cache_manager.py) *)

Module Cache.
Section Data.

(** The type of the cached data. *)
Context {A : Type}.

(** An entry of [st.session_state.cache_store]. *)
Record entry : Type := {
  data : A;
  timestamp : Q
}.

Definition store : Type := @Dict.t entry.

(** [_is_expired], with the reading of [time.time()]. *)
Definition is_expired (ttl_hours : Z) (now timestamp : Q) : bool :=
  Qlt_bool (inject_Z (ttl_hours * 3600)) (now - timestamp).

(** [get]: the value returned and the store after the call.  The clock is
    read when the key is in the store. *)
Definition get (ttl_hours : Z) (now : Q) (key : string) (s : store)
    : option A * store :=
  match Dict.lookup key s with
  | None => (None, s)
  | Some cache_entry =>
      if is_expired ttl_hours now (timestamp cache_entry)
      then (None, Dict.delete key s)
      else (Some (data cache_entry), s)
  end.

(** The keys of the expired entries.  The clock is read once for every
    entry: [clock i] is the reading for the entry at position [first + i]. *)
Fixpoint expired_keys (ttl_hours : Z) (clock : nat -> Q) (first : nat)
    (s : store) : list string :=
  match s with
  | [] => []
  | (key, e) :: rest =>
      let others := expired_keys ttl_hours clock (S first) rest in
      if is_expired ttl_hours (clock first) (timestamp e)
      then key :: others else others
  end.

(** [_cleanup_expired] *)
Definition cleanup_expired (ttl_hours : Z) (clock : nat -> Q) (s : store)
    : store :=
  List.fold_left (fun acc key => Dict.delete key acc)
    (expired_keys ttl_hours clock 0 s) s.

(** [set], with the reading of the clock for the timestamp and the readings
    of the cleanup. *)
Definition set (ttl_hours : Z) (now : Q) (clock : nat -> Q) (key : string)
    (value : A) (s : store) : store :=
  cleanup_expired ttl_hours clock
    (Dict.assign key {| data := value; timestamp := now |} s).

End Data.
End Cache.

(** ** The timers (src/utils/logger.py) *)

Module PerformanceLogger.

(** An element of [metrics]; the timestamp is the reading of the clock that
    the code formats. *)
Record metric : Type := {
  operation : string;
  duration : Q;
  recorded_at : Q
}.

Record state : Type := {
  start_times : @Dict.t Q;
  metrics : list metric
}.

(** [PerformanceLogger()] *)
Definition init : state := {| start_times := []; metrics := [] |}.

(** [start_timer], with the reading of the clock. *)
Definition start_timer (now : Q) (op : string) (s : state) : state :=
  {| start_times := Dict.assign op now (start_times s);
     metrics := metrics s |}.

(** [end_timer], with the two readings of the clock: the duration returned
    and the state after the call. *)
Definition end_timer (now later : Q) (op : string) (s : state) : Q * state :=
  match Dict.lookup op (start_times s) with
  | None => (0.0, s)
  | Some started =>
      let duration := now - started in
      (duration,
       {| start_times := Dict.delete op (start_times s);
          metrics :=
            metrics s
            ++ [{| operation := op; duration := duration;
                   recorded_at := later |}] |})
  end.

End PerformanceLogger.

(** * Statements

    The definitions that the theorems are stated with, and the inputs at
    which they are tried. *)

(** ** The clarity score in the words of its description *)

Module ClaritySpec.

(** The clamp of a score into the interval from [lo] to [hi]. *)
Definition clamp (lo hi x : Q) : Q :=
  if Qlt_le_dec x lo then lo else if Qlt_le_dec hi x then hi else x.

Definition sum_over (f : string -> Q) (words : list string) : Q :=
  List.fold_right (fun w acc => f w + acc) 0 words.

Definition question_bonus (prompt : string) : Q :=
  if contains "?" prompt then 0.5 else 0.

(** The clarity score as the specification words it: every occurrence of a
    word of a lexicon counts. *)
Definition clarity_per_occurrence (prompt : string) : Q :=
  let text := lower prompt in
  clamp 1 10
    (clarity_base (PyStr.word_count prompt)
     - sum_over (fun w => 1.0 * of_count (occurrences w text))
         clarity_vague_words
     + sum_over (fun w => 0.5 * of_count (occurrences w text))
         clarity_clear_words
     + question_bonus prompt).

(** The clarity score with every word of a lexicon counted once, however
    often it occurs. *)
Definition clarity_per_word (prompt : string) : Q :=
  let text := lower prompt in
  clamp 1 10
    (clarity_base (PyStr.word_count prompt)
     - sum_over (fun w => if contains w text then 1.0 else 0)
         clarity_vague_words
     + sum_over (fun w => if contains w text then 0.5 else 0)
         clarity_clear_words
     + question_bonus prompt).

End ClaritySpec.

(** ** Numbers *)

(** The multiples of one tenth. *)
Definition tenths (q : Q) : Prop := exists z : Z, q == inject_Z z / 10.

(** The scorers run in binary64, where a sum such as [4.0 + 3.0 + 2.0 + 1.2
    - 3.2] is [6.999999999999999] and not [7.0]: a computed score is not the
    exact one, it lies within the rounding errors of a few operations on
    numbers below 64.  [noise] is far above those errors. *)
Definition noise : Q := 1 # 1000.

Definition within_noise (computed exact : Q) : Prop :=
  Qabs (computed - exact) <= noise.

Definition scores_within_noise (computed exact : raw_scores) : Prop :=
  within_noise (rs_clarity computed) (rs_clarity exact) /\
  within_noise (rs_specificity computed) (rs_specificity exact) /\
  within_noise (rs_context computed) (rs_context exact) /\
  within_noise (rs_constraint computed) (rs_constraint exact) /\
  within_noise (rs_goal computed) (rs_goal exact).

(** ** Responses *)

Module ValidatorSpec.

(** The number that a value of type [int], [float] or [bool] is. *)
Definition num_value (v : pyval) : option Q :=
  match v with
  | PBool b => Some (if b then 1 else 0)
  | PNum q => Some q
  | _ => None
  end.

(** [v] is a mapping that has every key of [keys]. *)
Definition has_keys (keys : list string) (v : pyval) : Prop :=
  exists items, v = PDict items /\
    Forall (fun key => Py.lookup key items <> None) keys.

(** [v] is a number between [lo] and [hi]. *)
Definition number_within (lo hi : Q) (v : pyval) : Prop :=
  exists q, num_value v = Some q /\ lo <= q <= hi.

(** The response that C3 describes: a mapping with the four top-level keys,
    whose scores are a mapping with the six score keys, whose analysis is a
    mapping with the three analysis keys, in which every score, unwrapped
    when it is a list of one element, is a number between 1 and 10, and the
    confidence is a number between 0 and 1. *)
Definition well_formed (raw : pyval) : Prop :=
  exists items scores analysis confidence,
    raw = PDict items /\
    has_keys required_keys raw /\
    Py.lookup "scores" items = Some (PDict scores) /\
    has_keys score_keys (PDict scores) /\
    Py.lookup "analysis" items = Some analysis /\
    has_keys analysis_keys analysis /\
    Forall (fun item => number_within 1 10 (unwrap_single (snd item))) scores
    /\
    Py.lookup "confidence" items = Some confidence /\
    number_within 0 1 confidence.

(** An item of [scores] after the loop of the validator. *)
Definition unwrap_item (item : string * pyval) : string * pyval :=
  (fst item, unwrap_single (snd item)).

(** [overall == 5.0 or 5.5 <= overall <= 5.7], then [confidence == 0.7]:
    the test of [_is_valid_ai_analysis] on two numbers. *)
Definition fallback_signature (overall confidence : pyval) : bool :=
  (Py.eq_num overall 5.0 || Py.in_range 5.5 5.7 overall)
  && Py.eq_num confidence 0.7.

End ValidatorSpec.

(** ** Results *)

(** The words of which [_improve_prompt] looks for one before it appends the
    length target. *)
Definition length_words : list string :=
  ["words"; "length"; "brief"; "detailed"].

(** The result that [comprehensive_analysis] builds from the rule-based
    analysis of a prompt, field by field. *)
Definition heuristic_result (prompt : string) : AnalysisResult :=
  let s := score_prompt prompt in
  let found_weaknesses :=
    identify_weaknesses prompt (rs_clarity s) (rs_specificity s)
      (rs_context s) (rs_constraint s) (rs_goal s) in
  {| metrics :=
       {| clarity_score := PNum (py_round1 (calculate_clarity_score prompt));
          specificity_score :=
            PNum (py_round1 (calculate_specificity_score prompt));
          context_score := PNum (py_round1 (calculate_context_score prompt));
          constraint_score :=
            PNum (py_round1 (calculate_constraint_score prompt));
          goal_orientation_score :=
            PNum (py_round1 (calculate_goal_score prompt));
          overall_score := PNum (py_round1 (overall_of s));
          word_count := PyStr.word_count prompt;
          sentence_count := count_sentences prompt;
          complexity_level := assess_complexity prompt |};
     strengths :=
       str_list
         (identify_strengths prompt (rs_clarity s) (rs_specificity s)
            (rs_context s) (rs_constraint s) (rs_goal s));
     weaknesses := str_list found_weaknesses;
     suggestions := str_list (generate_suggestions prompt found_weaknesses);
     improved_prompt := PStr (improve_prompt prompt found_weaknesses);
     confidence_level := PNum 0.7 |}.

(** The ways in which the external analysis fails: the service raises, its
    text does not parse, the parsed response is not accepted by the
    validator, or the accepted response is not accepted by
    [_is_valid_ai_analysis]. *)
Inductive external_failure (generate_response : string -> outcome string)
    (json_loads : string -> outcome pyval) (prompt : string) : Prop :=
| generation_raises (e : exn) :
    generate_response (meta_prompt_comprehensive ++ prompt) = Raises e ->
    external_failure generate_response json_loads prompt
| parse_fails (raw_response : string) (e : exn) :
    generate_response (meta_prompt_comprehensive ++ prompt)
      = Returns raw_response ->
    json_loads (clean_response raw_response) = Raises e ->
    external_failure generate_response json_loads prompt
| validation_fails (raw_response : string) (parsed : pyval) :
    generate_response (meta_prompt_comprehensive ++ prompt)
      = Returns raw_response ->
    json_loads (clean_response raw_response) = Returns parsed ->
    (forall validated,
        validate_ai_response parsed <> Returns (true, validated)) ->
    external_failure generate_response json_loads prompt
| plausibility_fails (raw_response : string) (parsed validated : pyval) :
    generate_response (meta_prompt_comprehensive ++ prompt)
      = Returns raw_response ->
    json_loads (clean_response raw_response) = Returns parsed ->
    validate_ai_response parsed = Returns (true, validated) ->
    is_valid_ai_analysis validated = Returns false ->
    external_failure generate_response json_loads prompt.

(** [v] is a list of five elements at most. *)
Definition at_most_five (v : pyval) : Prop :=
  exists l, v = PList l /\ (List.length l <= 5)%nat.

(** C5 as it is worded: the confidence of a result is 0.7 exactly when the
    result comes from the rule-based analysis. *)
Definition confidence_marks_origin
    (generate_response : string -> outcome string)
    (json_loads : string -> outcome pyval) (prompt : string) : Prop :=
  forall (r : AnalysisResult) (origin : source),
    comprehensive_analysis generate_response json_loads prompt = Returns r ->
    analysis_source generate_response json_loads prompt = Returns origin ->
    (Py.eq_num (confidence_level r) 0.7 = true <-> origin = Heuristic).

(** C8 as it is worded: the three lists of every result have five elements
    at most. *)
Definition lists_bounded (generate_response : string -> outcome string)
    (json_loads : string -> outcome pyval) (prompt : string) : Prop :=
  forall r : AnalysisResult,
    comprehensive_analysis generate_response json_loads prompt = Returns r ->
    at_most_five (strengths r) /\ at_most_five (weaknesses r) /\
    at_most_five (suggestions r).

(** ** Sample inputs *)

(** An external response in which the analysis is the list of the three
    names, not a mapping. *)
Definition listed_analysis_response : pyval :=
  PDict
    [("scores",
      PDict
        [("clarity", PNum 8); ("specificity", PNum 7); ("context", PNum 6);
         ("constraints", PNum 7); ("goal_orientation", PNum 8);
         ("overall", PNum 7.2)]);
     ("analysis",
      PList [PStr "strengths"; PStr "weaknesses"; PStr "suggestions"]);
     ("improved_prompt", PStr "Write a haiku about autumn.");
     ("confidence", PNum 0.9)].

(** C4 at an accepted response with overall score 6.2 and confidence 0.85. *)
Definition plausible_response : pyval :=
  PDict
    [("scores",
      PDict
        [("clarity", PNum 7); ("specificity", PNum 6); ("context", PNum 5);
         ("constraints", PNum 6); ("goal_orientation", PNum 7);
         ("overall", PNum 6.2)]);
     ("analysis",
      PDict
        [("strengths", PList [PStr "Names the task"]);
         ("weaknesses", PList [PStr "No audience"]);
         ("suggestions", PList [PStr "Name the audience"])]);
     ("improved_prompt", PStr "Write a haiku about autumn for children.");
     ("confidence", PNum 0.85)].

Definition boolean_scores_response : list (string * pyval) :=
  [("scores",
    PDict
      [("clarity", PBool true); ("specificity", PBool true);
       ("context", PBool true); ("constraints", PBool true);
       ("goal_orientation", PBool true); ("overall", PBool true)]);
   ("analysis",
    PDict
      [("strengths", PList []); ("weaknesses", PList []);
       ("suggestions", PList [])]);
   ("improved_prompt", PStr "Write a haiku about autumn.");
   ("confidence", PNum 0.9)].


(** A service that answers every prompt with [text]. *)
Definition service_answering (text : string) : string -> outcome string :=
  fun _ => Returns text.

(** [json.loads] where all that is known of it is that it reads [text] as
    [doc]. *)
Definition loads_reading (text : string) (doc : pyval)
    : string -> outcome pyval :=
  fun s => if String.eqb s text then Returns doc else Raises JSONDecodeError.

Definition json_pair (key value : string) : string :=
  quoted key ++ ": " ++ value.

(** An external answer with six strengths, overall score 8 and confidence
    0.7, as text and as [json.loads] reads it. *)
Definition six_strengths_text : string :=
  "{" ++ json_pair "scores"
    ("{" ++ json_pair "clarity" "8" ++ ", " ++ json_pair "specificity" "8"
     ++ ", " ++ json_pair "context" "8" ++ ", " ++ json_pair "constraints" "8"
     ++ ", " ++ json_pair "goal_orientation" "8" ++ ", "
     ++ json_pair "overall" "8" ++ "}")
  ++ ", " ++ json_pair "analysis"
    ("{" ++ json_pair "strengths"
       ("[" ++ quoted "a" ++ ", " ++ quoted "b" ++ ", " ++ quoted "c" ++ ", "
        ++ quoted "d" ++ ", " ++ quoted "e" ++ ", " ++ quoted "f" ++ "]")
     ++ ", " ++ json_pair "weaknesses" ("[" ++ quoted "g" ++ "]")
     ++ ", " ++ json_pair "suggestions" ("[" ++ quoted "h" ++ "]") ++ "}")
  ++ ", " ++ json_pair "improved_prompt" (quoted "Write a haiku about autumn.")
  ++ ", " ++ json_pair "confidence" "0.7" ++ "}".

Definition six_strengths_response : pyval :=
  PDict
    [("scores",
      PDict
        [("clarity", PNum 8); ("specificity", PNum 8); ("context", PNum 8);
         ("constraints", PNum 8); ("goal_orientation", PNum 8);
         ("overall", PNum 8)]);
     ("analysis",
      PDict
        [("strengths",
          PList [PStr "a"; PStr "b"; PStr "c"; PStr "d"; PStr "e"; PStr "f"]);
         ("weaknesses", PList [PStr "g"]);
         ("suggestions", PList [PStr "h"])]);
     ("improved_prompt", PStr "Write a haiku about autumn.");
     ("confidence", PNum 0.7)].

(** A prompt whose goal score is not exact in binary64: 3 action words, 3
    outcome words, 2 intent words and 4 unclear words give
    [4.0 + 3.0 + 2.0 + 1.2 - 3.2], which is 7 in exact arithmetic. *)
Definition noisy_prompt : string :=
  "create write design result output final "
  ++ "show tell somehow whatever help please".

(** The five scores that binary64 gives for [noisy_prompt], as the exact
    values of the doubles: the goal score is [6.999999999999999], one unit in
    the last place below 7.  The mean of the five, again in binary64, is the
    double nearest to 5.2. *)
Definition noisy_scores : raw_scores :=
  {| rs_clarity := 6;
     rs_specificity := 5;
     rs_context := 4;
     rs_constraint := 4;
     rs_goal := 7881299347898367 # 1125899906842624 |}.

Definition noisy_mean : Q := 5854679515581645 # 1125899906842624.

(** ** Further statements *)

(** The weakness that [_identify_weaknesses] reports when it finds none. *)
Definition default_weakness : string :=
  "Minor improvements possible in overall clarity".

(** The suggestions that [_generate_suggestions] gives when no weakness
    matches. *)
Definition generic_suggestions : list string :=
  ["Consider adding more specific details about your requirements";
   "Include context about your intended audience or use case";
   "Specify the desired format and length of the output"].

(** The suggestion of the last branch of [_generate_suggestions]. *)
Definition vague_suggestion : string :=
  "Replace general terms with specific, actionable language".

(** [v] is a mapping. *)
Definition is_mapping (v : pyval) : Prop := exists items, v = PDict items.

(** The character [c] does not occur in [s]. *)
Fixpoint free_of (c : ascii) (s : string) : bool :=
  match s with
  | EmptyString => true
  | String x r => negb (Ascii.eqb x c) && free_of c r
  end.

Definition backtick : ascii := ascii_of_N 96.

(** A JSON object as text: [body] between braces. *)
Definition braced (body : string) : string := "{" ++ body ++ "}".

(** No service can be built: the configuration cannot be read, it holds no
    key, or the library refuses the key. *)
Definition no_service (load_config : outcome (option string))
    (connect : string -> outcome AIService.generative_model) : Prop :=
  (exists e, load_config = Raises e) \/
  load_config = Returns None \/
  load_config = Returns (Some "") \/
  (exists key e, load_config = Returns (Some key) /\ connect key = Raises e).

(** ** Further sample inputs *)

(** An external response in which one score is wrapped in a list. *)
Definition wrapped_score_response : pyval :=
  PDict
    [("scores",
      PDict
        [("clarity", PNum 8); ("specificity", PList [PNum 7]);
         ("context", PNum 6); ("constraints", PNum 7);
         ("goal_orientation", PNum 8); ("overall", PNum 7.2)]);
     ("analysis",
      PDict
        [("strengths", PList [PStr "x"]); ("weaknesses", PList [PStr "y"]);
         ("suggestions", PList [PStr "z"])]);
     ("improved_prompt", PStr "...");
     ("confidence", PNum 0.9)].

(** That response after the validator. *)
Definition unwrapped_score_response : pyval :=
  PDict
    [("scores",
      PDict
        [("clarity", PNum 8); ("specificity", PNum 7);
         ("context", PNum 6); ("constraints", PNum 7);
         ("goal_orientation", PNum 8); ("overall", PNum 7.2)]);
     ("analysis",
      PDict
        [("strengths", PList [PStr "x"]); ("weaknesses", PList [PStr "y"]);
         ("suggestions", PList [PStr "z"])]);
     ("improved_prompt", PStr "...");
     ("confidence", PNum 0.9)].

(** An external response in which the analysis is a string that names the
    three keys. *)
Definition worded_analysis_response : pyval :=
  PDict
    [("scores",
      PDict
        [("clarity", PNum 8); ("specificity", PNum 7); ("context", PNum 6);
         ("constraints", PNum 7); ("goal_orientation", PNum 8);
         ("overall", PNum 7.2)]);
     ("analysis", PStr "strengths, weaknesses and suggestions follow");
     ("improved_prompt", PStr "Summarize this report in five bullet points.");
     ("confidence", PNum 0.9)].

(** * Properties *)

(** ** Strings *)

Module PyStrFacts.

Lemma lower_app (a b : string) : lower (a ++ b) = lower a ++ lower b.
Proof.
  induction a as [|c a IH]; simpl; [reflexivity|]. now rewrite IH.
Qed.

Lemma prefix_app (p s t : string) :
  String.prefix p s = true -> String.prefix p (s ++ t) = true.
Proof.
  revert s. induction p as [|c p IH]; intros s H.
  - now destruct (s ++ t).
  - destruct s as [|d s]; simpl in *; [discriminate|].
    destruct (ascii_dec c d); [now apply IH | discriminate].
Qed.

Lemma contains_app_l (sub a b : string) :
  contains sub a = true -> contains sub (a ++ b) = true.
Proof.
  induction a as [|c a IH]; intros H.
  - simpl in H. rewrite orb_false_r in H.
    destruct sub; [|discriminate].
    destruct (EmptyString ++ b); reflexivity.
  - cbn [contains] in H. apply orb_true_iff in H as [H|H].
    + change (String c a ++ b) with (String c (a ++ b)). cbn [contains].
      change (String c (a ++ b)) with (String c a ++ b).
      now rewrite (prefix_app _ _ _ H).
    + change (String c a ++ b) with (String c (a ++ b)). cbn [contains].
      rewrite (IH H). apply orb_true_r.
Qed.

Lemma contains_app_r (sub a b : string) :
  contains sub b = true -> contains sub (a ++ b) = true.
Proof.
  intros H. induction a as [|c a IH]; [exact H|].
  change (String c a ++ b) with (String c (a ++ b)). cbn [contains].
  rewrite IH. apply orb_true_r.
Qed.

Lemma any_present_app_l (words : list string) (a b : string) :
  any_present words a = true -> any_present words (a ++ b) = true.
Proof.
  unfold any_present. rewrite !existsb_exists.
  intros [w [Hin Hw]]. exists w. split; [exact Hin|].
  now apply contains_app_l.
Qed.

Lemma any_present_app_r (words : list string) (a b : string) :
  any_present words b = true -> any_present words (a ++ b) = true.
Proof.
  unfold any_present. rewrite !existsb_exists.
  intros [w [Hin Hw]]. exists w. split; [exact Hin|].
  now apply contains_app_r.
Qed.

Lemma count_words_flag (s : string) :
  (count_words true s <= count_words false s)%nat.
Proof.
  destruct s as [|c s]; simpl; [lia|]. destruct (is_space c); lia.
Qed.

(** Appending text never lowers the number of words. *)
Lemma count_words_app_l (b : bool) (s t : string) :
  (count_words b s <= count_words b (s ++ t))%nat.
Proof.
  revert b. induction s as [|c s IH]; intros b; simpl; [lia|].
  destruct (is_space c); [apply IH|].
  specialize (IH true). lia.
Qed.

Lemma count_words_app_r (b : bool) (s t : string) :
  (count_words true t <= count_words b (s ++ t))%nat.
Proof.
  revert b. induction s as [|c s IH]; intros b; simpl.
  - destruct b; [lia | apply count_words_flag].
  - destruct (is_space c); [apply IH|].
    specialize (IH true). lia.
Qed.

Lemma word_count_app_l (s t : string) :
  (PyStr.word_count s <= PyStr.word_count (s ++ t))%nat.
Proof. apply count_words_app_l. Qed.

Lemma app_assoc (a b c : string) : (a ++ b) ++ c = a ++ (b ++ c).
Proof.
  induction a as [|x a IH]; simpl; [reflexivity|]. now rewrite IH.
Qed.

(** Text that starts with a character that is no space survives [lstrip]
    whatever is put before it. *)
Lemma lstrip_app (a : string) (c : ascii) (t : string) :
  is_space c = false ->
  lstrip (a ++ String c t) = lstrip a ++ String c t.
Proof.
  intros Hc. induction a as [|x a IH]; simpl.
  - now rewrite Hc.
  - destruct (is_space x); [exact IH | reflexivity].
Qed.

Lemma rstrip_app (a t : string) :
  rstrip t <> EmptyString -> rstrip (a ++ t) = a ++ rstrip t.
Proof.
  intros Ht. induction a as [|x a IH]; simpl; [reflexivity|].
  rewrite IH. destruct (a ++ rstrip t) eqn:E; [|reflexivity].
  destruct a; simpl in E; [contradiction | discriminate].
Qed.

End PyStrFacts.

(** ** The rewriting step *)

Module ImproveFacts.
Import PyStrFacts.

(** A text of 15 words or more that names a format and a length is returned
    as it is. *)
Lemma improve_prompt_fixed (text : string) (weaknesses : list string) :
  (15 <= PyStr.word_count text)%nat ->
  contains "format" (lower text) = true ->
  any_present length_words (lower text) = true ->
  improve_prompt text weaknesses = text.
Proof.
  intros Hwc Hfmt Hlen. unfold improve_prompt.
  destruct (Nat.ltb_spec (PyStr.word_count text) 15) as [Hlt|_]; [lia|].
  rewrite Hfmt. fold length_words. rewrite Hlen. reflexivity.
Qed.

Lemma template_body_head :
  exists c t, template_body = String c t /\ is_space c = false.
Proof. vm_compute. do 2 eexists. split; reflexivity. Qed.

Lemma template_body_rstrip : rstrip (template_body ++ nl) = template_body.
Proof. reflexivity. Qed.

(** The template of a short prompt: what is left of the prompt by [strip],
    then the fixed text. *)
Lemma improve_prompt_short (prompt : string) (weaknesses : list string) :
  (PyStr.word_count prompt < 15)%nat ->
  improve_prompt prompt weaknesses =
  lstrip (nl ++ prompt ++ nl ++ nl) ++ template_body.
Proof.
  intros Hwc. unfold improve_prompt.
  destruct (Nat.ltb_spec (PyStr.word_count prompt) 15) as [_|Hge]; [|lia].
  unfold strip.
  replace (nl ++ prompt ++ nl ++ nl ++ template_body ++ nl)
    with ((nl ++ prompt ++ nl ++ nl) ++ (template_body ++ nl)).
  2:{ rewrite !app_assoc. reflexivity. }
  rewrite rstrip_app.
  2:{ rewrite template_body_rstrip. vm_compute. discriminate. }
  rewrite template_body_rstrip.
  destruct template_body_head as [c [t [E Hc]]].
  rewrite E. now apply lstrip_app.
Qed.

Lemma template_body_words : (15 <= count_words true template_body)%nat.
Proof. vm_compute. lia. Qed.

Lemma template_body_format : contains "format" (lower template_body) = true.
Proof. reflexivity. Qed.

Lemma template_body_length :
  any_present length_words (lower template_body) = true.
Proof. reflexivity. Qed.

Lemma formatting_request_format :
  contains "format" (lower formatting_request) = true.
Proof. reflexivity. Qed.

Lemma length_target_length :
  any_present length_words (lower length_target) = true.
Proof. reflexivity. Qed.

(** The result of [improve_prompt] has 15 words or more and names a format
    and a length. *)
Lemma improve_prompt_saturated (prompt : string) (weaknesses : list string) :
  let improved := improve_prompt prompt weaknesses in
  (15 <= PyStr.word_count improved)%nat /\
  contains "format" (lower improved) = true /\
  any_present length_words (lower improved) = true.
Proof.
  cbv zeta.
  destruct (Nat.ltb_spec (PyStr.word_count prompt) 15) as [Hlt|Hge].
  - rewrite (improve_prompt_short _ _ Hlt). rewrite lower_app.
    split; [|split].
    + unfold PyStr.word_count.
      eapply Nat.le_trans; [apply template_body_words|].
      apply count_words_app_r.
    + apply contains_app_r, template_body_format.
    + apply any_present_app_r, template_body_length.
  - unfold improve_prompt.
    destruct (Nat.ltb_spec (PyStr.word_count prompt) 15) as [Hlt|_]; [lia|].
    fold length_words.
    destruct (contains "format" (lower prompt)) eqn:Hf;
      destruct (any_present length_words (lower prompt)) eqn:Hl; cbn [negb].
    + auto.
    + rewrite lower_app. split; [|split].
      * eapply Nat.le_trans; [exact Hge | apply word_count_app_l].
      * now apply contains_app_l.
      * apply any_present_app_r, length_target_length.
    + rewrite lower_app. split; [|split].
      * eapply Nat.le_trans; [exact Hge | apply word_count_app_l].
      * apply contains_app_r, formatting_request_format.
      * now apply any_present_app_l.
    + rewrite !lower_app. split; [|split].
      * eapply Nat.le_trans; [exact Hge|].
        eapply Nat.le_trans; apply word_count_app_l.
      * apply contains_app_l, contains_app_r, formatting_request_format.
      * apply any_present_app_r, length_target_length.
Qed.

End ImproveFacts.

(** C9.  [_improve_prompt] is idempotent: applied to its own result, with any
    list of weaknesses, it returns that result unchanged.  Neither the
    formatting request nor the length target is appended a second time. *)
Theorem improve_prompt_idempotent :
  forall (prompt : string) (weaknesses weaknesses' : list string),
    improve_prompt (improve_prompt prompt weaknesses) weaknesses'
    = improve_prompt prompt weaknesses.
Proof.
  intros prompt weaknesses weaknesses'.
  destruct (ImproveFacts.improve_prompt_saturated prompt weaknesses)
    as [Hwc [Hfmt Hlen]].
  now apply ImproveFacts.improve_prompt_fixed.
Qed.

(** ** The scorers *)

Lemma clamp_score_bounds (score : Q) : 1 <= clamp_score score <= 10.
Proof.
  unfold clamp_score. split.
  - apply Qle_trans with (y := 1.0); [lra | apply Q.le_max_l].
  - apply Q.max_lub; [lra|].
    apply Qle_trans with (y := 10.0); [apply Q.le_min_l | lra].
Qed.

(** C2.  Each of the five scorers is a total function of the prompt, the
    empty one included, and its score lies between 1.0 and 10.0. *)
Theorem scorers_bounded :
  forall prompt : string,
    1 <= calculate_clarity_score prompt <= 10 /\
    1 <= calculate_specificity_score prompt <= 10 /\
    1 <= calculate_context_score prompt <= 10 /\
    1 <= calculate_constraint_score prompt <= 10 /\
    1 <= calculate_goal_score prompt <= 10.
Proof.
  intros prompt. repeat split; apply clamp_score_bounds.
Qed.

(** The scores of the empty prompt. *)
Example scorers_empty_prompt :
  calculate_clarity_score "" == 3 /\
  calculate_specificity_score "" == 3 /\
  calculate_context_score "" == 2 /\
  calculate_constraint_score "" == 4 /\
  calculate_goal_score "" == 4.
Proof. repeat split; reflexivity. Qed.

Module ClarityFacts.
Import ClaritySpec.

Lemma clamp_score_clamp (x : Q) : clamp_score x == clamp 1 10 x.
Proof.
  unfold clamp_score, clamp.
  destruct (Qlt_le_dec x 1) as [H1|H1].
  - rewrite (Q.max_l 1.0 (Qmin 10.0 x)); [reflexivity|].
    apply Qle_trans with (y := x); [apply Q.le_min_r | lra].
  - destruct (Qlt_le_dec 10 x) as [H2|H2].
    + rewrite (Q.max_r 1.0 (Qmin 10.0 x)).
      * rewrite (Q.min_l 10.0 x) by lra. reflexivity.
      * apply Q.min_glb; lra.
    + rewrite (Q.max_r 1.0 (Qmin 10.0 x)).
      * apply Q.min_r. lra.
      * apply Q.min_glb; lra.
Qed.

Lemma clamp_compat (x y : Q) : x == y -> clamp 1 10 x == clamp 1 10 y.
Proof.
  intros E. unfold clamp.
  destruct (Qlt_le_dec x 1), (Qlt_le_dec y 1); try reflexivity; try lra.
  destruct (Qlt_le_dec 10 x), (Qlt_le_dec 10 y); try reflexivity; try lra.
Qed.

Lemma of_count_0 : of_count 0 == 0.
Proof. reflexivity. Qed.

Lemma of_count_S (n : nat) : of_count (S n) == 1 + of_count n.
Proof.
  unfold of_count. rewrite Nat2Z.inj_succ. unfold Z.succ.
  rewrite inject_Z_plus. change (inject_Z 1) with 1. lra.
Qed.

(** The number of words of a lexicon found in a text, weighted. *)
Lemma count_present_sum (weight : Q) (words : list string) (text : string) :
  of_count (count_present words text) * weight
  == sum_over (fun w => if contains w text then weight else 0) words.
Proof.
  unfold count_present. induction words as [|w words IH].
  - cbn [filter List.length sum_over fold_right]. rewrite of_count_0. lra.
  - cbn [filter sum_over fold_right]. fold (sum_over
      (fun w => if contains w text then weight else 0) words).
    destruct (contains w text); cbn [List.length].
    + rewrite of_count_S. rewrite <- IH. lra.
    + rewrite <- IH. lra.
Qed.

End ClarityFacts.

(** C6, as the code has it.  The clarity score is the clamp into [1, 10] of
    the base of the word-count bucket (fewer than 5 words 3, fewer than 15
    words 5, fewer than 50 words 7, else 8), minus 1.0 for every vague word
    of the lexicon that the lowered text contains, plus 0.5 for every clear
    action word that it contains, each word counted once however often it
    occurs, plus 0.5 if the text contains a question mark. *)
Theorem clarity_score_per_word :
  forall prompt : string,
    calculate_clarity_score prompt == ClaritySpec.clarity_per_word prompt.
Proof.
  intros prompt. unfold calculate_clarity_score, ClaritySpec.clarity_per_word.
  cbv zeta. rewrite ClarityFacts.clamp_score_clamp.
  apply ClarityFacts.clamp_compat.
  pose proof (ClarityFacts.count_present_sum 1.0 clarity_vague_words
                (lower prompt)) as Hvague.
  pose proof (ClarityFacts.count_present_sum 0.5 clarity_clear_words
                (lower prompt)) as Hclear.
  unfold ClaritySpec.question_bonus, question_mark.
  destruct (contains "?" prompt); lra.
Qed.

(** C6, as it is worded, fails: in a prompt that repeats a vague word the
    code subtracts 1.0 once, not once per occurrence. *)
Lemma clarity_per_occurrence_fails :
  calculate_clarity_score "maybe maybe" == 2 /\
  ClaritySpec.clarity_per_occurrence "maybe maybe" == 1 /\
  ~ calculate_clarity_score "maybe maybe"
    == ClaritySpec.clarity_per_occurrence "maybe maybe".
Proof.
  split; [reflexivity|]. split; [reflexivity|].
  intros H. vm_compute in H. discriminate.
Qed.

(** ** Rounding to one decimal *)

Module RoundFacts.

Lemma round_half_even_compat (x y : Q) :
  x == y -> round_half_even x = round_half_even y.
Proof.
  intros E. unfold round_half_even.
  rewrite (Qfloor_comp x y E).
  assert (Hc : Qcompare (x - inject_Z (Qfloor y)) (1 # 2)
               = Qcompare (y - inject_Z (Qfloor y)) (1 # 2)).
  { apply Qcompare_comp; [rewrite E|]; reflexivity. }
  now rewrite Hc.
Qed.

Lemma round_half_even_Z (z : Z) : round_half_even (inject_Z z) = z.
Proof.
  unfold round_half_even. rewrite Qfloor_Z.
  assert (H : Qcompare (inject_Z z - inject_Z z) (1 # 2) = Lt).
  { apply (proj1 (Qlt_alt _ _)). lra. }
  now rewrite H.
Qed.

(** The rounded value is the floor or the floor plus one. *)
Lemma round_half_even_floor (x : Q) :
  round_half_even x = Qfloor x \/ round_half_even x = (Qfloor x + 1)%Z.
Proof.
  unfold round_half_even.
  destruct (Qcompare (x - inject_Z (Qfloor x)) (1 # 2)); auto.
  destruct (Z.even (Qfloor x)); auto.
Qed.

Lemma py_round1_compat (x y : Q) : x == y -> py_round1 x == py_round1 y.
Proof.
  intros E. unfold py_round1.
  rewrite (round_half_even_compat (x * 10) (y * 10)); [reflexivity|].
  now rewrite E.
Qed.

Lemma py_round1_tenths (q : Q) : tenths q -> py_round1 q == q.
Proof.
  intros [z Hz]. unfold py_round1.
  rewrite (round_half_even_compat (q * 10) (inject_Z z)).
  - rewrite round_half_even_Z. symmetry. exact Hz.
  - rewrite Hz. field.
Qed.

Lemma tenths_compat (x y : Q) : x == y -> tenths x -> tenths y.
Proof. intros E [z Hz]. exists z. now rewrite <- E. Qed.

Lemma tenths_plus (x y : Q) : tenths x -> tenths y -> tenths (x + y).
Proof.
  intros [a Ha] [b Hb]. exists (a + b)%Z.
  rewrite Ha, Hb, inject_Z_plus. field.
Qed.

Lemma tenths_minus (x y : Q) : tenths x -> tenths y -> tenths (x - y).
Proof.
  intros [a Ha] [b Hb]. exists (a - b)%Z.
  rewrite Ha, Hb. unfold Z.sub. rewrite inject_Z_plus, inject_Z_opp. field.
Qed.

Lemma tenths_min (x y : Q) : tenths x -> tenths y -> tenths (Qmin x y).
Proof.
  intros Hx Hy. destruct (Q.min_dec x y) as [E|E].
  - apply (tenths_compat x); [now symmetry | exact Hx].
  - apply (tenths_compat y); [now symmetry | exact Hy].
Qed.

Lemma tenths_max (x y : Q) : tenths x -> tenths y -> tenths (Qmax x y).
Proof.
  intros Hx Hy. destruct (Q.max_dec x y) as [E|E].
  - apply (tenths_compat x); [now symmetry | exact Hx].
  - apply (tenths_compat y); [now symmetry | exact Hy].
Qed.

Lemma tenths_scale (n : nat) (x : Q) : tenths x -> tenths (of_count n * x).
Proof.
  intros [a Ha]. exists (Z.of_nat n * a)%Z.
  unfold of_count. rewrite Ha, inject_Z_mult. field.
Qed.

Lemma tenths_clamp (x : Q) : tenths x -> tenths (clamp_score x).
Proof.
  intros Hx. unfold clamp_score.
  apply tenths_max; [exists 10%Z; reflexivity|].
  apply tenths_min; [exists 100%Z; reflexivity | exact Hx].
Qed.

(** A decimal literal with one digit after the point. *)
Ltac tenths_literal :=
  match goal with
  | |- tenths (Qmake ?n ?d) =>
      let z := eval vm_compute in (Qfloor (Qmake n d * 10)) in
      exists z; vm_compute; reflexivity
  end.

Ltac tenths_score :=
  repeat match goal with
    | |- tenths (Qmake _ _) => tenths_literal
    | |- tenths (clamp_score _) => apply tenths_clamp
    | |- tenths (_ + _) => apply tenths_plus
    | |- tenths (_ - _) => apply tenths_minus
    | |- tenths (Qmin _ _) => apply tenths_min
    | |- tenths (of_count _ * _) => apply tenths_scale
    | |- tenths (if ?b then _ else _) => destruct b
    end.

Lemma clarity_tenths (prompt : string) :
  tenths (calculate_clarity_score prompt).
Proof.
  unfold calculate_clarity_score, clarity_base. cbv zeta.
  apply tenths_clamp.
  destruct (contains question_mark prompt); tenths_score.
Qed.

Lemma specificity_tenths (prompt : string) :
  tenths (calculate_specificity_score prompt).
Proof. unfold calculate_specificity_score. cbv zeta. tenths_score. Qed.

Lemma context_tenths (prompt : string) :
  tenths (calculate_context_score prompt).
Proof. unfold calculate_context_score. cbv zeta. tenths_score. Qed.

Lemma constraint_tenths (prompt : string) :
  tenths (calculate_constraint_score prompt).
Proof. unfold calculate_constraint_score. cbv zeta. tenths_score. Qed.

Lemma goal_tenths (prompt : string) :
  tenths (calculate_goal_score prompt).
Proof. unfold calculate_goal_score. cbv zeta. tenths_score. Qed.

(** Rounding keeps a value between 1 and 10 there. *)
Lemma py_round1_bounds (x : Q) : 1 <= x <= 10 -> 1 <= py_round1 x <= 10.
Proof.
  intros [Hlo Hhi]. unfold py_round1.
  assert (Hf1 : (10 <= Qfloor (x * 10))%Z).
  { pose proof (Qfloor_resp_le (inject_Z 10) (x * 10)) as H.
    rewrite Qfloor_Z in H. apply H.
    change (inject_Z 10) with (10 # 1). lra. }
  assert (Hf2 : (Qfloor (x * 10) <= 100)%Z).
  { pose proof (Qfloor_resp_le (x * 10) (inject_Z 100)) as H.
    rewrite Qfloor_Z in H. apply H.
    change (inject_Z 100) with (100 # 1). lra. }
  assert (Hr : (10 <= round_half_even (x * 10) <= 100)%Z).
  { destruct (Z.eq_dec (Qfloor (x * 10)) 100) as [E|NE].
    - assert (Hx : x * 10 == inject_Z 100).
      { apply Qle_antisym.
        + change (inject_Z 100) with 100. lra.
        + rewrite <- E. apply Qfloor_le. }
      rewrite (round_half_even_compat _ _ Hx), round_half_even_Z. lia.
    - destruct (round_half_even_floor (x * 10)) as [E|E]; rewrite E; lia. }
  destruct Hr as [Hr1 Hr2].
  rewrite Zle_Qle in Hr1, Hr2.
  change (inject_Z 10) with (10 # 1) in Hr1.
  change (inject_Z 100) with (100 # 1) in Hr2.
  generalize dependent (inject_Z (round_half_even (x * 10))). intros r Hr1 Hr2.
  split.
  - apply Qle_shift_div_l; [reflexivity | lra].
  - apply Qle_shift_div_r; [reflexivity | lra].
Qed.

(** A value less than one half away from an integer is rounded to it. *)
Lemma round_half_even_near (y : Q) (n : Z) :
  inject_Z n - (1 # 2) < y -> y < inject_Z n + (1 # 2) ->
  round_half_even y = n.
Proof.
  intros Hlo Hhi. unfold round_half_even.
  pose proof (Qfloor_le y) as F1. pose proof (Qlt_floor y) as F2.
  assert (Hf : (n - 1 <= Qfloor y <= n)%Z).
  { split.
    - apply Z.le_ngt. intros G.
      assert (G' : (Qfloor y + 1 <= n - 1)%Z) by lia.
      rewrite Zle_Qle in G'. unfold Z.sub in G'.
      rewrite (inject_Z_plus n) in G'.
      change (inject_Z (- (1))) with (- (1)) in G'.
      generalize dependent (inject_Z (Qfloor y + 1)).
      generalize dependent (inject_Z n). intros. lra.
    - apply Z.le_ngt. intros G.
      assert (G' : (n + 1 <= Qfloor y)%Z) by lia.
      rewrite Zle_Qle, inject_Z_plus in G'.
      change (inject_Z 1) with 1 in G'.
      generalize dependent (inject_Z (Qfloor y)).
      generalize dependent (inject_Z n). intros. lra. }
  destruct (Z.eq_dec (Qfloor y) n) as [E|NE].
  - rewrite E in *.
    assert (H : Qcompare (y - inject_Z n) (1 # 2) = Lt).
    { apply (proj1 (Qlt_alt _ _)). lra. }
    now rewrite H.
  - assert (E : Qfloor y = (n - 1)%Z) by lia.
    rewrite E in *. unfold Z.sub in *.
    rewrite inject_Z_plus in *.
    change (inject_Z (- (1))) with (- (1)) in *.
    assert (H : Qcompare (y - (inject_Z n + - (1))) (1 # 2) = Gt).
    { apply (proj1 (Qgt_alt _ _)). lra. }
    rewrite H. lia.
Qed.

(** Rounding to one decimal removes an error of a hundredth at most from a
    multiple of one tenth. *)
Lemma py_round1_near (x t : Q) :
  tenths t -> Qabs (x - t) <= 1 # 100 -> py_round1 x == t.
Proof.
  intros [z Hz] H. apply Qabs_Qle_condition in H. destruct H as [H1 H2].
  unfold py_round1.
  rewrite (round_half_even_near (x * 10) z).
  - symmetry. exact Hz.
  - rewrite Hz in H1. unfold Qdiv in H1. change (/ 10) with (1 # 10) in H1.
    generalize dependent (inject_Z z). intros. lra.
  - rewrite Hz in H2. unfold Qdiv in H2. change (/ 10) with (1 # 10) in H2.
    generalize dependent (inject_Z z). intros. lra.
Qed.

(** A multiple of one fiftieth is no tie, and none is nearer than a
    hundredth: an error of a five-hundredth does not change the rounded
    value. *)
Lemma py_round1_near_fiftieth (x t : Q) (z : Z) :
  t == inject_Z z / 50 -> Qabs (x - t) <= 1 # 500 ->
  py_round1 x == py_round1 t.
Proof.
  intros Hz H. apply Qabs_Qle_condition in H. destruct H as [H1 H2].
  pose proof (Z.div_mod z 5 ltac:(lia)) as D.
  pose proof (Z.mod_pos_bound z 5 ltac:(lia)) as B.
  set (q := (z / 5)%Z) in *. set (r := (z mod 5)%Z) in *.
  assert (Ez : inject_Z z == 5 * inject_Z q + inject_Z r).
  { rewrite D, inject_Z_plus, inject_Z_mult. reflexivity. }
  rewrite Hz in H1, H2. unfold Qdiv in H1, H2.
  change (/ 50) with (1 # 50) in H1, H2.
  set (n := if (r <=? 2)%Z then q else (q + 1)%Z).
  assert (Hn : inject_Z n - (2 # 5) <= inject_Z z * (1 # 5)
               <= inject_Z n + (2 # 5)).
  { assert (R : r = 0%Z \/ r = 1%Z \/ r = 2%Z \/ r = 3%Z \/ r = 4%Z) by lia.
    subst n.
    destruct R as [R|[R|[R|[R|R]]]]; rewrite R in *;
      match goal with
      | |- context [(?a <=? 2)%Z] =>
          let b := eval vm_compute in (a <=? 2)%Z in
          change (a <=? 2)%Z with b
      end; cbv iota; rewrite ?inject_Z_plus;
      [change (inject_Z 0) with 0 in Ez | change (inject_Z 1) with 1 in Ez
      | change (inject_Z 2) with 2 in Ez
      | change (inject_Z 3) with 3 in Ez; change (inject_Z 1) with 1
      | change (inject_Z 4) with 4 in Ez; change (inject_Z 1) with 1];
      rewrite Ez; generalize (inject_Z q); intros; lra. }
  destruct Hn as [N1 N2].
  unfold py_round1.
  rewrite (round_half_even_near (x * 10) n),
    (round_half_even_near (t * 10) n); [reflexivity| | | |].
  - rewrite Hz. unfold Qdiv. change (/ 50) with (1 # 50).
    generalize dependent (inject_Z z). generalize (inject_Z n). intros. lra.
  - rewrite Hz. unfold Qdiv. change (/ 50) with (1 # 50).
    generalize dependent (inject_Z z). generalize (inject_Z n). intros. lra.
  - generalize dependent (inject_Z z). generalize (inject_Z n). intros. lra.
  - generalize dependent (inject_Z z). generalize (inject_Z n). intros. lra.
Qed.

(** The mean of five scores within [noise] of five others, computed within
    [noise], is within two times [noise] of the mean of the others. *)
Lemma mean_within_noise (computed exact : raw_scores) (mean : Q) :
  scores_within_noise computed exact ->
  within_noise mean (overall_of computed) ->
  Qabs (mean - overall_of exact) <= 1 # 500.
Proof.
  destruct computed as [rc rs rx rk rg], exact as [ec es ex ek eg].
  unfold scores_within_noise, within_noise, noise, overall_of.
  cbn [rs_clarity rs_specificity rs_context rs_constraint rs_goal].
  intros (Nc & Ns & Nx & Nk & Ng) Nm.
  apply Qabs_Qle_condition in Nc, Ns, Nx, Nk, Ng, Nm.
  apply Qabs_Qle_condition.
  unfold Qdiv in *. change (/ 5) with (1 # 5) in *.
  lra.
Qed.

End RoundFacts.

(** ** The rule-based analysis *)

(** C7.  In the rule-based analysis the overall score is the mean of the
    five dimension scores, rounded to one decimal, and lies between 1.0 and
    10.0.  The rounding errors of binary64 do not reach what is reported:
    from any five scores within [noise] of the exact ones, and any mean
    within [noise] of the mean of those, the six reported scores are the
    same. *)
Theorem rule_based_overall_is_rounded_mean :
  forall prompt : string,
  exists (scores : list (string * pyval)) (c s x k g o : Q),
    Py.get (rule_based_analysis prompt) "scores" (PDict [])
      = Returns (PDict scores) /\
    Py.lookup "clarity" scores = Some (PNum c) /\
    Py.lookup "specificity" scores = Some (PNum s) /\
    Py.lookup "context" scores = Some (PNum x) /\
    Py.lookup "constraints" scores = Some (PNum k) /\
    Py.lookup "goal_orientation" scores = Some (PNum g) /\
    Py.lookup "overall" scores = Some (PNum o) /\
    o == py_round1 ((c + s + x + k + g) / 5) /\
    1 <= o <= 10 /\
    forall (computed : raw_scores) (mean : Q),
      scores_within_noise computed (score_prompt prompt) ->
      within_noise mean (overall_of computed) ->
      py_round1 (rs_clarity computed) == c /\
      py_round1 (rs_specificity computed) == s /\
      py_round1 (rs_context computed) == x /\
      py_round1 (rs_constraint computed) == k /\
      py_round1 (rs_goal computed) == g /\
      py_round1 mean == o.
Proof.
  intros prompt.
  pose proof (RoundFacts.clarity_tenths prompt) as Tc.
  pose proof (RoundFacts.specificity_tenths prompt) as Ts.
  pose proof (RoundFacts.context_tenths prompt) as Tx.
  pose proof (RoundFacts.constraint_tenths prompt) as Tk.
  pose proof (RoundFacts.goal_tenths prompt) as Tg.
  pose proof (RoundFacts.py_round1_tenths _ Tc) as Hc.
  pose proof (RoundFacts.py_round1_tenths _ Ts) as Hs.
  pose proof (RoundFacts.py_round1_tenths _ Tx) as Hx.
  pose proof (RoundFacts.py_round1_tenths _ Tk) as Hk.
  pose proof (RoundFacts.py_round1_tenths _ Tg) as Hg.
  do 7 eexists.
  split; [reflexivity|].
  do 6 (split; [reflexivity|]).
  split; [|split].
  - apply RoundFacts.py_round1_compat. unfold overall_of, score_prompt.
    cbn [rs_clarity rs_specificity rs_context rs_constraint rs_goal].
    rewrite Hc, Hs, Hx, Hk, Hg. reflexivity.
  - apply RoundFacts.py_round1_bounds. unfold overall_of, score_prompt.
    cbn [rs_clarity rs_specificity rs_context rs_constraint rs_goal].
    pose proof (clamp_score_bounds) as B.
    unfold calculate_clarity_score, calculate_specificity_score,
      calculate_context_score, calculate_constraint_score,
      calculate_goal_score. cbv zeta.
    match goal with
    | |- 1 <= (clamp_score ?a + clamp_score ?b + clamp_score ?c
               + clamp_score ?d + clamp_score ?e) / 5 <= 10 =>
        pose proof (B a); pose proof (B b); pose proof (B c);
        pose proof (B d); pose proof (B e);
        generalize dependent (clamp_score a);
        generalize dependent (clamp_score b);
        generalize dependent (clamp_score c);
        generalize dependent (clamp_score d);
        generalize dependent (clamp_score e)
    end.
    intros. split.
    + apply Qle_shift_div_l; [reflexivity | lra].
    + apply Qle_shift_div_r; [reflexivity | lra].
  - intros computed mean N Nm.
    pose proof (RoundFacts.mean_within_noise _ _ _ N Nm) as M.
    destruct N as (Nc & Ns & Nx & Nk & Ng).
    unfold within_noise, noise, score_prompt in Nc, Ns, Nx, Nk, Ng.
    cbn [rs_clarity rs_specificity rs_context rs_constraint rs_goal]
      in Nc, Ns, Nx, Nk, Ng.
    assert (L : forall r e : Q,
               tenths e -> Qabs (r - e) <= 1 # 1000 ->
               py_round1 r == py_round1 e).
    { intros r e T N. rewrite (RoundFacts.py_round1_tenths e T).
      apply RoundFacts.py_round1_near; [exact T|].
      eapply Qle_trans; [exact N | discriminate]. }
    do 5 (split; [apply L; assumption|]).
    destruct Tc as [zc Ec], Ts as [zs Es], Tx as [zx Ex], Tk as [zk Ek],
      Tg as [zg Eg].
    apply (RoundFacts.py_round1_near_fiftieth _ _ (zc + zs + zx + zk + zg));
      [|exact M].
    unfold overall_of, score_prompt.
    cbn [rs_clarity rs_specificity rs_context rs_constraint rs_goal].
    rewrite Ec, Es, Ex, Ek, Eg, !inject_Z_plus. field.
Qed.

Lemma rule_based_overall_is_rounded_mean_witness :
  calculate_goal_score noisy_prompt == 7 /\
  rs_goal noisy_scores < 7 /\
  py_round1 (rs_goal noisy_scores) == 7 /\
  py_round1 noisy_mean == 5.2.
Proof.
  destruct (rule_based_overall_is_rounded_mean noisy_prompt)
    as (scores & c & s & x & k & g & o & Hs & _ & _ & _ & _ & Hg & Ho & _ & _
        & Hn).
  vm_compute in Hs. injection Hs as <-.
  vm_compute in Hg, Ho. injection Hg as <-. injection Ho as <-.
  destruct (Hn noisy_scores noisy_mean) as (_ & _ & _ & _ & Eg & Eo).
  - repeat split; vm_compute; discriminate.
  - vm_compute. discriminate.
  - split; [reflexivity|]. split; [reflexivity|].
    split; [rewrite Eg | rewrite Eo]; reflexivity.
Defined.

(** ** The validator *)

Module ValidatorFacts.
Import ValidatorSpec.

Lemma has_keys_all_in (keys : list string) (v : pyval) :
  has_keys keys v -> Py.all_in keys v = Returns true.
Proof.
  intros [items [-> H]]. induction H as [|key keys Hk _ IH]; [reflexivity|].
  cbn [Py.all_in Py.contains_key bind].
  destruct (Py.lookup key items); [exact IH | contradiction].
Qed.

Lemma all_in_dict (keys : list string) (items : list (string * pyval)) :
  Py.all_in keys (PDict items) = Returns true -> has_keys keys (PDict items).
Proof.
  intros H. exists items. split; [reflexivity|].
  induction keys as [|key keys IH]; [constructor|].
  cbn [Py.all_in Py.contains_key bind] in H.
  destruct (Py.lookup key items) eqn:E; [|discriminate].
  constructor; [congruence | now apply IH].
Qed.

Lemma all_in_true_key (keys : list string) (v : pyval) (key : string) :
  Py.all_in keys v = Returns true -> In key keys ->
  Py.contains_key key v = Returns true.
Proof.
  induction keys as [|k keys IH]; intros H Hin; [contradiction|].
  cbn [Py.all_in] in H.
  destruct (Py.contains_key k v) as [[|]|] eqn:E; cbn [bind] in H;
    try discriminate.
  destruct Hin as [->|Hin]; [exact E | now apply IH].
Qed.

(** What a successful run of the loop over the scores leaves. *)
Lemma check_scores_true (items items' : list (string * pyval)) :
  check_scores items = (true, items') ->
  items' = List.map unwrap_item items /\
  Forall (fun item => valid_score (snd item) = true) items'.
Proof.
  revert items'. induction items as [|[key score] items IH]; intros items' H.
  - injection H as <-. split; [reflexivity | constructor].
  - cbn [check_scores] in H.
    destruct (valid_score (unwrap_single score)) eqn:V; [|discriminate].
    destruct (check_scores items) as [ok rest] eqn:E.
    injection H as -> <-.
    destruct (IH rest eq_refl) as [-> HF].
    split; [reflexivity|]. constructor; [exact V | exact HF].
Qed.

Lemma check_scores_valid (items : list (string * pyval)) :
  Forall (fun item => valid_score (unwrap_single (snd item)) = true) items ->
  check_scores items = (true, List.map unwrap_item items).
Proof.
  induction 1 as [|[key score] items V _ IH]; [reflexivity|].
  cbn [check_scores map]. cbn [snd] in V. rewrite V, IH. reflexivity.
Qed.

Lemma check_scores_invalid (items : list (string * pyval)) :
  Exists (fun item => valid_score (unwrap_single (snd item)) = false) items ->
  fst (check_scores items) = false.
Proof.
  induction items as [|[key score] items IH]; intros H.
  - inversion H.
  - cbn [check_scores].
    destruct (valid_score (unwrap_single score)) eqn:V; [|reflexivity].
    inversion H as [? ? V'|? ? H']; subst.
    + cbn [snd] in V'. congruence.
    + specialize (IH H'). destruct (check_scores items). exact IH.
Qed.

Lemma lookup_unwrap (key : string) (items : list (string * pyval)) :
  Py.lookup key (List.map unwrap_item items)
  = option_map unwrap_single (Py.lookup key items).
Proof.
  induction items as [|[k v] items IH]; [reflexivity|].
  cbn [map unwrap_item fst snd Py.lookup].
  destruct (String.eqb key k); [reflexivity | exact IH].
Qed.

Lemma lookup_Forall (P : pyval -> Prop) (key : string)
    (items : list (string * pyval)) (v : pyval) :
  Forall (fun item => P (snd item)) items ->
  Py.lookup key items = Some v -> P v.
Proof.
  induction 1 as [|[k x] items Hx _ IH]; cbn [Py.lookup]; [discriminate|].
  destruct (String.eqb key k); [|exact IH].
  intros [= <-]. exact Hx.
Qed.

Lemma lookup_set_item_same (key : string) (v : pyval)
    (items : list (string * pyval)) :
  Py.lookup key items <> None ->
  Py.lookup key (set_item key v items) = Some v.
Proof.
  induction items as [|[k x] items IH]; cbn [Py.lookup set_item];
    [congruence|].
  destruct (String.eqb key k) eqn:E; cbn [Py.lookup]; rewrite E;
    [reflexivity | exact IH].
Qed.

Lemma lookup_set_item_other (key key' : string) (v : pyval)
    (items : list (string * pyval)) :
  String.eqb key' key = false ->
  Py.lookup key' (set_item key v items) = Py.lookup key' items.
Proof.
  intros Hne. induction items as [|[k x] items IH]; [reflexivity|].
  cbn [set_item]. destruct (String.eqb key k) eqn:E; cbn [Py.lookup].
  - apply String.eqb_eq in E. subst k. rewrite Hne. reflexivity.
  - destruct (String.eqb key' k); [reflexivity | exact IH].
Qed.

(** Storing under a key the value that it has changes nothing. *)
Lemma set_item_same (key : string) (v : pyval)
    (items : list (string * pyval)) :
  Py.lookup key items = Some v -> set_item key v items = items.
Proof.
  induction items as [|[k x] items IH]; cbn [Py.lookup set_item];
    [reflexivity|].
  destruct (String.eqb key k).
  - intros [= ->]. reflexivity.
  - intros H. now rewrite IH.
Qed.

Lemma unwrap_true_items (items : list (string * pyval)) :
  Forall (fun item => snd item = PBool true) items ->
  List.map unwrap_item items = items.
Proof.
  induction 1 as [|[k v] items Hv _ IH]; [reflexivity|].
  cbn [map unwrap_item fst snd]. cbn [snd] in Hv. subst v.
  cbn [unwrap_single]. now rewrite IH.
Qed.

(** The shape of a response that the validator accepts, and of what the
    validator leaves of it. *)
Lemma validate_true_inv (response response' : pyval) :
  validate_ai_response response = Returns (true, response') ->
  exists items scores analysis confidence,
    response = PDict items /\
    Py.all_in required_keys response = Returns true /\
    Py.lookup "scores" items = Some (PDict scores) /\
    Py.all_in score_keys (PDict scores) = Returns true /\
    Py.lookup "analysis" items = Some analysis /\
    Py.all_in analysis_keys analysis = Returns true /\
    Forall (fun item => valid_score (unwrap_single (snd item)) = true) scores /\
    Py.lookup "confidence" items = Some confidence /\
    Py.is_number confidence = true /\
    Py.in_range 0 1 confidence = true /\
    response' =
      PDict (set_item "scores" (PDict (List.map unwrap_item scores)) items).
Proof.
  unfold validate_ai_response. intros H.
  destruct (Py.all_in required_keys response) as [[|]|] eqn:Hreq;
    cbn [bind negb] in H; try discriminate.
  destruct response as [| | | | | |items]; try discriminate.
  cbn [Py.get bind] in H.
  pose proof (all_in_dict _ _ Hreq) as [items0 [[= <-] Hkeys]].
  inversion Hkeys as [|? ? Hsc Hkeys1]; subst.
  inversion Hkeys1 as [|? ? Han Hkeys2]; subst.
  inversion Hkeys2 as [|? ? _ Hkeys3]; subst.
  inversion Hkeys3 as [|? ? Hconf _]; subst.
  destruct (Py.lookup "scores" items) as [sc|] eqn:Esc; [|contradiction].
  destruct (Py.lookup "analysis" items) as [an|] eqn:Ean; [|contradiction].
  destruct (Py.lookup "confidence" items) as [conf|] eqn:Econf;
    [|contradiction].
  destruct (Py.all_in score_keys sc) as [[|]|] eqn:Hsk;
    cbn [bind negb] in H; try discriminate.
  destruct (Py.all_in analysis_keys an) as [[|]|] eqn:Hak;
    cbn [bind negb] in H; try discriminate.
  destruct sc as [| | | | | |scores]; try discriminate.
  cbn [Py.items bind] in H.
  destruct (check_scores scores) as [ok scores'] eqn:Echk.
  destruct ok; cbn [negb] in H; [|discriminate].
  destruct (check_scores_true _ _ Echk) as [-> HF].
  cbn [with_scores Py.get bind] in H.
  rewrite lookup_set_item_other in H by reflexivity.
  rewrite Econf in H.
  destruct (Py.is_number conf && Py.in_range 0 1 conf) eqn:Hc;
    cbn [negb] in H; [|discriminate].
  apply andb_true_iff in Hc as [Hc1 Hc2].
  injection H as <-.
  exists items, scores, an, conf.
  repeat (split; [first [reflexivity | assumption]|]).
  split.
  - rewrite Forall_map in HF. exact HF.
  - repeat (split; [first [reflexivity | assumption]|]). reflexivity.
Qed.

(** The converse: a response of that shape is accepted. *)
Lemma validate_true_intro (items scores : list (string * pyval))
    (analysis confidence : pyval) :
  Py.all_in required_keys (PDict items) = Returns true ->
  Py.lookup "scores" items = Some (PDict scores) ->
  Py.all_in score_keys (PDict scores) = Returns true ->
  Py.lookup "analysis" items = Some analysis ->
  Py.all_in analysis_keys analysis = Returns true ->
  Forall (fun item => valid_score (unwrap_single (snd item)) = true) scores ->
  Py.lookup "confidence" items = Some confidence ->
  Py.is_number confidence = true ->
  Py.in_range 0 1 confidence = true ->
  validate_ai_response (PDict items) =
    Returns
      (true,
       PDict (set_item "scores" (PDict (List.map unwrap_item scores)) items)).
Proof.
  intros Hreq Hsc Hsk Han Hak HF Hconf Hn Hr.
  unfold validate_ai_response.
  rewrite Hreq. cbn [bind negb Py.get]. rewrite Hsc, Hsk.
  cbn [bind negb]. rewrite Han, Hak. cbn [bind negb Py.items].
  rewrite (check_scores_valid _ HF). cbn [negb with_scores Py.get bind].
  rewrite lookup_set_item_other by reflexivity.
  rewrite Hconf, Hn, Hr. reflexivity.
Qed.

(** What the validator leaves of a response that it accepts: a mapping with
    numbers for the overall score and the confidence, on which
    [_is_valid_ai_analysis] returns. *)
Lemma accepted_shape (raw validated : pyval) :
  validate_ai_response raw = Returns (true, validated) ->
  exists items scores analysis overall confidence (o c : Q),
    validated = PDict items /\
    Py.lookup "scores" items = Some (PDict scores) /\
    Py.lookup "analysis" items = Some analysis /\
    Py.lookup "overall" scores = Some overall /\
    Py.lookup "confidence" items = Some confidence /\
    num_value overall = Some o /\
    num_value confidence = Some c /\
    Py.eq_num overall 5.0 = Qeq_bool o 5.0 /\
    Py.in_range 5.5 5.7 overall = Qle_bool 5.5 o && Qle_bool o 5.7 /\
    Py.eq_num confidence 0.7 = Qeq_bool c 0.7 /\
    is_valid_ai_analysis validated
      = Returns (negb (fallback_signature overall confidence)).
Proof.
  intros H.
  destruct (validate_true_inv _ _ H)
    as (items & scores & analysis & conf & -> & Hreq & Hsc & Hsk & Han & Hak
        & HF & Hconf & Hn & Hr & ->).
  assert (Hov : Py.contains_key "overall" (PDict scores) = Returns true).
  { apply (all_in_true_key score_keys); [exact Hsk|]. cbn. tauto. }
  cbn [Py.contains_key] in Hov.
  destruct (Py.lookup "overall" scores) as [ov|] eqn:Eov; [|discriminate].
  assert (Hvalid : valid_score (unwrap_single ov) = true).
  { apply (lookup_Forall
             (fun v => valid_score (unwrap_single v) = true) "overall" scores);
      assumption. }
  set (scores' := List.map unwrap_item scores).
  assert (Hget1 : Py.lookup "scores" (set_item "scores" (PDict scores') items)
                  = Some (PDict scores')).
  { apply lookup_set_item_same. congruence. }
  assert (Hget2 : Py.lookup "confidence"
                    (set_item "scores" (PDict scores') items) = Some conf).
  { rewrite lookup_set_item_other by reflexivity. exact Hconf. }
  assert (Hget3 : Py.lookup "overall" scores' = Some (unwrap_single ov)).
  { unfold scores'. rewrite lookup_unwrap, Eov. reflexivity. }
  assert (Hget4 : Py.lookup "analysis"
                    (set_item "scores" (PDict scores') items) = Some analysis).
  { rewrite lookup_set_item_other by reflexivity. exact Han. }
  assert (Hne : Py.truthy (PDict (set_item "scores" (PDict scores') items))
                = true).
  { cbn [Py.truthy].
    destruct (set_item "scores" (PDict scores') items);
      [discriminate | reflexivity]. }
  unfold valid_score in Hvalid. apply andb_true_iff in Hvalid as [Hvn Hvr].
  assert (Ho : exists o, num_value (unwrap_single ov) = Some o
                 /\ Py.eq_num (unwrap_single ov) 5.0 = Qeq_bool o 5.0
                 /\ Py.in_range 5.5 5.7 (unwrap_single ov)
                    = Qle_bool 5.5 o && Qle_bool o 5.7).
  { destruct (unwrap_single ov); try discriminate; eexists;
      repeat split; reflexivity. }
  destruct Ho as (o & Hnum & Heq & Hin).
  assert (Hc : exists c, num_value conf = Some c
                 /\ Py.eq_num conf 0.7 = Qeq_bool c 0.7).
  { destruct conf; try discriminate; eexists; split; reflexivity. }
  destruct Hc as (c & Hcnum & Hceq).
  exists (set_item "scores" (PDict scores') items), scores', analysis,
    (unwrap_single ov), conf, o, c.
  repeat (split; [first [reflexivity | assumption]|]).
  unfold is_valid_ai_analysis, fallback_signature.
  rewrite Hne. cbn [negb Py.get bind].
  rewrite Hget1. cbn [bind Py.get]. rewrite Hget3. cbn [bind].
  unfold Py.between. rewrite Hvn, Hget2.
  destruct (Py.eq_num (unwrap_single ov) 5.0); cbn [bind orb andb];
    [|destruct (Py.in_range 5.5 5.7 (unwrap_single ov)); cbn [bind andb]];
    try destruct (Py.eq_num conf 0.7); reflexivity.
Qed.

(** The test of a number and of its range, in the words of C3. *)
Lemma number_within_iff (lo hi : Q) (v : pyval) :
  Py.is_number v && Py.in_range lo hi v = true <-> number_within lo hi v.
Proof.
  unfold number_within. split.
  - intros H. apply andb_true_iff in H as [Hn Hr].
    destruct v; try discriminate; cbn [Py.in_range] in Hr;
      apply andb_true_iff in Hr as [H1 H2];
      apply Qle_bool_iff in H1; apply Qle_bool_iff in H2;
      eexists; (split; [reflexivity | split; assumption]).
  - intros [q [Hq [H1 H2]]].
    destruct v; try discriminate; injection Hq as <-;
      cbn [Py.is_number Py.in_range andb]; apply andb_true_iff;
      split; apply Qle_bool_iff; assumption.
Qed.

(** A response as C3 describes it is accepted. *)
Lemma well_formed_accepted (raw : pyval) :
  well_formed raw ->
  exists validated, validate_ai_response raw = Returns (true, validated).
Proof.
  intros (items & scores & analysis & conf & -> & Hreq & Hsc & Hsk & Han
          & Hak & HF & Hconf & Hc).
  apply number_within_iff in Hc. apply andb_true_iff in Hc as [Hc1 Hc2].
  eexists.
  apply (validate_true_intro items scores analysis conf);
    try assumption; try (now apply has_keys_all_in).
  eapply Forall_impl; [|exact HF].
  intros item H. now apply number_within_iff.
Qed.

(** An accepted response is as C3 describes it, if its analysis is a
    mapping. *)
Lemma accepted_well_formed (raw validated : pyval)
    (analysis : list (string * pyval)) :
  validate_ai_response raw = Returns (true, validated) ->
  Py.get raw "analysis" (PDict []) = Returns (PDict analysis) ->
  well_formed raw.
Proof.
  intros H Hget.
  destruct (validate_true_inv _ _ H)
    as (items & scores & an & conf & -> & Hreq & Hsc & Hsk & Han & Hak
        & HF & Hconf & Hn & Hr & _).
  cbn [Py.get] in Hget. rewrite Han in Hget. injection Hget as ->.
  exists items, scores, (PDict analysis), conf.
  split; [reflexivity|].
  split; [now apply all_in_dict|].
  split; [exact Hsc|].
  split; [now apply all_in_dict|].
  split; [exact Han|].
  split; [now apply all_in_dict|].
  split.
  { eapply Forall_impl; [|exact HF].
    intros item Hv. now apply number_within_iff. }
  split; [exact Hconf|].
  apply number_within_iff. now rewrite Hn, Hr.
Qed.

End ValidatorFacts.

(** C3 fails on the code.  The validator tests the three analysis keys with
    [in], which also holds of a list that has the three names as elements.
    Such a response is accepted although it is not as C3 describes it, for
    its analysis has no key at all, and [comprehensive_analysis] then raises
    on it. *)
Theorem validate_accepts_listed_analysis :
  validate_ai_response listed_analysis_response
    = Returns (true, listed_analysis_response) /\
  ~ ValidatorSpec.well_formed listed_analysis_response /\
  comprehensive_analysis
    (fun _ => Returns "") (fun _ => Returns listed_analysis_response)
    "Write a haiku." = Raises AttributeError.
Proof.
  split; [reflexivity|]. split; [|reflexivity].
  intros (items & scores & analysis & conf & E & _ & _ & _ & Han
          & [aitems [Ea _]] & _).
  injection E as <-. cbn in Han. injection Han as <-. discriminate.
Qed.

(** C4.  On a response that the validator has accepted, as the validator
    leaves it, [_is_valid_ai_analysis] returns false exactly when the overall
    score is 5.0 or lies between 5.5 and 5.7 and the confidence is 0.7; it
    returns true on every other accepted response. *)
Theorem is_valid_ai_analysis_exactly :
  forall raw validated : pyval,
    validate_ai_response raw = Returns (true, validated) ->
    exists (scores overall confidence : pyval) (o c : Q) (b : bool),
      Py.get validated "scores" (PDict []) = Returns scores /\
      Py.get scores "overall" (PNum 0) = Returns overall /\
      ValidatorSpec.num_value overall = Some o /\
      Py.get validated "confidence" (PNum 0) = Returns confidence /\
      ValidatorSpec.num_value confidence = Some c /\
      is_valid_ai_analysis validated = Returns b /\
      (b = false <-> (o == 5.0 \/ 5.5 <= o <= 5.7) /\ c == 0.7).
Proof.
  intros raw validated H.
  destruct (ValidatorFacts.accepted_shape _ _ H)
    as (items & scores & analysis & ov & conf & o & c & -> & Hsc & Han & Hov
        & Hconf & Ho & Hc & Heq5 & Hin & Heq7 & Hvalid).
  exists (PDict scores), ov, conf, o, c.
  exists (negb (ValidatorSpec.fallback_signature ov conf)).
  cbn [Py.get]. rewrite Hsc, Hov, Hconf.
  repeat (split; [first [reflexivity | assumption]|]).
  unfold ValidatorSpec.fallback_signature. rewrite Heq5, Hin, Heq7.
  rewrite negb_false_iff, andb_true_iff, orb_true_iff, andb_true_iff.
  rewrite !Qeq_bool_iff, !Qle_bool_iff. tauto.
Qed.

Lemma is_valid_ai_analysis_exactly_witness :
  validate_ai_response plausible_response = Returns (true, plausible_response)
  /\ is_valid_ai_analysis plausible_response = Returns true
  /\ exists (scores overall confidence : pyval) (o c : Q) (b : bool),
      Py.get plausible_response "scores" (PDict []) = Returns scores /\
      Py.get scores "overall" (PNum 0) = Returns overall /\
      ValidatorSpec.num_value overall = Some o /\
      Py.get plausible_response "confidence" (PNum 0) = Returns confidence /\
      ValidatorSpec.num_value confidence = Some c /\
      is_valid_ai_analysis plausible_response = Returns b /\
      (b = false <-> (o == 5.0 \/ 5.5 <= o <= 5.7) /\ c == 0.7).
Proof.
  split; [reflexivity|]. split; [reflexivity|].
  apply (is_valid_ai_analysis_exactly plausible_response plausible_response).
  reflexivity.
Defined.

(** C10.  A response that has every required key, in which every score is
    the boolean true and the confidence is a number between 0 and 1, is
    accepted by the validator, which leaves it as it is: [True] passes for
    the number 1. *)
Theorem validate_accepts_boolean_scores :
  forall (items scores : list (string * pyval)) (analysis : pyval) (conf : Q),
    ValidatorSpec.has_keys required_keys (PDict items) ->
    Py.lookup "scores" items = Some (PDict scores) ->
    ValidatorSpec.has_keys score_keys (PDict scores) ->
    Py.lookup "analysis" items = Some analysis ->
    ValidatorSpec.has_keys analysis_keys analysis ->
    Forall (fun item => snd item = PBool true) scores ->
    Py.lookup "confidence" items = Some (PNum conf) ->
    0 <= conf <= 1 ->
    validate_ai_response (PDict items) = Returns (true, PDict items).
Proof.
  intros items scores analysis conf Hreq Hsc Hsk Han Hak Htrue Hconf [Hc0 Hc1].
  rewrite (ValidatorFacts.validate_true_intro items scores analysis
             (PNum conf)).
  - rewrite (ValidatorFacts.unwrap_true_items _ Htrue).
    rewrite (ValidatorFacts.set_item_same _ _ _ Hsc). reflexivity.
  - now apply ValidatorFacts.has_keys_all_in.
  - exact Hsc.
  - now apply ValidatorFacts.has_keys_all_in.
  - exact Han.
  - now apply ValidatorFacts.has_keys_all_in.
  - eapply Forall_impl; [|exact Htrue].
    intros [k v] Hv. cbn [snd] in *. subst v. reflexivity.
  - exact Hconf.
  - reflexivity.
  - cbn [Py.in_range]. apply andb_true_iff.
    split; apply Qle_bool_iff; assumption.
Qed.

Lemma validate_accepts_boolean_scores_witness :
  validate_ai_response (PDict boolean_scores_response)
  = Returns (true, PDict boolean_scores_response).
Proof.
  apply (validate_accepts_boolean_scores boolean_scores_response
           [("clarity", PBool true); ("specificity", PBool true);
            ("context", PBool true); ("constraints", PBool true);
            ("goal_orientation", PBool true); ("overall", PBool true)]
           (PDict
              [("strengths", PList []); ("weaknesses", PList []);
               ("suggestions", PList [])])
           0.9).
  - eexists. split; [reflexivity|]. repeat constructor; discriminate.
  - reflexivity.
  - eexists. split; [reflexivity|]. repeat constructor; discriminate.
  - reflexivity.
  - eexists. split; [reflexivity|]. repeat constructor; discriminate.
  - repeat constructor.
  - reflexivity.
  - split; vm_compute; discriminate.
Defined.

(** ** The arbiter *)

Module ArbiterFacts.

Lemma combine_rule_based (prompt : string) :
  combine_results prompt (rule_based_analysis prompt)
  = Returns (heuristic_result prompt).
Proof. reflexivity. Qed.

Section Collaborators.

Variable generate_response : string -> outcome string.
Variable json_loads : string -> outcome pyval.

(** [_get_ai_analysis] returns [None] or a response that the validator has
    accepted. *)
Lemma get_ai_analysis_cases (prompt : string) :
  get_ai_analysis generate_response json_loads prompt = PNone \/
  exists raw_response parsed,
    generate_response (meta_prompt_comprehensive ++ prompt)
      = Returns raw_response /\
    json_loads (clean_response raw_response) = Returns parsed /\
    validate_ai_response parsed
      = Returns (true, get_ai_analysis generate_response json_loads prompt).
Proof.
  unfold get_ai_analysis, try_ai_analysis.
  destruct (generate_response (meta_prompt_comprehensive ++ prompt))
    as [raw|e] eqn:Eg; cbn [bind]; [|now left].
  destruct (json_loads (clean_response raw)) as [parsed|e] eqn:Ej;
    cbn [bind]; [|now left].
  destruct (Py.keys parsed) as [ks|e]; cbn [bind]; [|now left].
  destruct (validate_ai_response parsed) as [[ok validated]|e] eqn:Ev;
    cbn [bind]; [|now left].
  destruct ok; [|now left].
  right. exists raw, parsed. auto.
Qed.

Lemma accepted_is_mapping (parsed validated : pyval) :
  validate_ai_response parsed = Returns (true, validated) ->
  exists ks, Py.keys parsed = Returns ks.
Proof.
  intros H.
  destruct (ValidatorFacts.validate_true_inv _ _ H)
    as (items & ? & ? & ? & -> & _).
  eexists. reflexivity.
Qed.

Lemma get_ai_analysis_accepted (prompt raw_response : string)
    (parsed validated : pyval) :
  generate_response (meta_prompt_comprehensive ++ prompt)
    = Returns raw_response ->
  json_loads (clean_response raw_response) = Returns parsed ->
  validate_ai_response parsed = Returns (true, validated) ->
  get_ai_analysis generate_response json_loads prompt = validated.
Proof.
  intros Eg Ej Ev. unfold get_ai_analysis, try_ai_analysis.
  rewrite Eg. cbn [bind]. rewrite Ej. cbn [bind].
  destruct (accepted_is_mapping _ _ Ev) as [ks ->]. cbn [bind].
  rewrite Ev. reflexivity.
Qed.

Lemma accepted_truthy (parsed validated : pyval) :
  validate_ai_response parsed = Returns (true, validated) ->
  Py.truthy validated = true.
Proof.
  intros H.
  destruct (ValidatorFacts.accepted_shape _ _ H)
    as (items & scores & ? & ? & ? & ? & ? & -> & Hsc & _).
  destruct items; [discriminate | reflexivity].
Qed.

(** The two ways of [comprehensive_analysis]: the rule-based analysis, or an
    accepted external response that [_is_valid_ai_analysis] accepts too. *)
Lemma select_analysis_cases (prompt : string) :
  select_analysis generate_response json_loads prompt
    = Returns (Heuristic, rule_based_analysis prompt) \/
  exists parsed,
    validate_ai_response parsed
      = Returns (true, get_ai_analysis generate_response json_loads prompt) /\
    is_valid_ai_analysis (get_ai_analysis generate_response json_loads prompt)
      = Returns true /\
    select_analysis generate_response json_loads prompt
      = Returns (External, get_ai_analysis generate_response json_loads prompt).
Proof.
  unfold select_analysis, needs_fallback.
  destruct (get_ai_analysis_cases prompt) as [->|(raw & parsed & _ & _ & Ev)].
  - left. reflexivity.
  - rewrite (accepted_truthy _ _ Ev). cbn [negb].
    destruct (ValidatorFacts.accepted_shape _ _ Ev)
      as (? & ? & ? & ov & conf & ? & ? & _ & _ & _ & _ & _ & _ & _ & _ & _
          & _ & ->).
    cbn [bind]. rewrite negb_involutive.
    destruct (ValidatorSpec.fallback_signature ov conf); cbn [negb].
    + left. reflexivity.
    + right. exists parsed. auto.
Qed.

Lemma select_analysis_fallback (prompt : string) :
  external_failure generate_response json_loads prompt ->
  select_analysis generate_response json_loads prompt
    = Returns (Heuristic, rule_based_analysis prompt).
Proof.
  intros F. unfold select_analysis.
  destruct F
    as [e Eg|raw e Eg Ej|raw parsed Eg Ej Ev|raw parsed validated Eg Ej Ev Ep].
  - unfold get_ai_analysis, try_ai_analysis. rewrite Eg. reflexivity.
  - unfold get_ai_analysis, try_ai_analysis. rewrite Eg. cbn [bind].
    rewrite Ej. reflexivity.
  - destruct (get_ai_analysis_cases prompt)
      as [->|(raw' & parsed' & Eg' & Ej' & Ev')]; [reflexivity|].
    rewrite Eg in Eg'. injection Eg' as <-.
    rewrite Ej in Ej'. injection Ej' as <-.
    now apply Ev in Ev'.
  - rewrite (get_ai_analysis_accepted _ _ _ _ Eg Ej Ev).
    unfold needs_fallback. rewrite (accepted_truthy _ _ Ev). cbn [negb].
    rewrite Ep. reflexivity.
Qed.

End Collaborators.

(** The fields that [comprehensive_analysis] reads from an analysis. *)
Lemma combine_results_fields (prompt : string)
    (items scores : list (string * pyval))
    (analysis overall confidence : pyval) (r : AnalysisResult) :
  Py.lookup "scores" items = Some (PDict scores) ->
  Py.lookup "analysis" items = Some analysis ->
  Py.lookup "overall" scores = Some overall ->
  Py.lookup "confidence" items = Some confidence ->
  combine_results prompt (PDict items) = Returns r ->
  overall_score (metrics r) = overall /\
  confidence_level r = confidence /\
  Py.get analysis "strengths" (PList []) = Returns (strengths r) /\
  Py.get analysis "weaknesses" (PList []) = Returns (weaknesses r) /\
  Py.get analysis "suggestions" (PList []) = Returns (suggestions r).
Proof.
  intros Hsc Han Hov Hconf H. unfold combine_results in H.
  cbn [Py.get bind] in H. rewrite Hsc, Han, Hconf in H.
  cbn [bind Py.get] in H. rewrite Hov in H.
  destruct (Py.get analysis "strengths" (PList [])) as [st|e] eqn:E1;
    cbn [bind] in H; [|discriminate].
  destruct (Py.get analysis "weaknesses" (PList [])) as [wk|e] eqn:E2;
    cbn [bind] in H; [|discriminate].
  destruct (Py.get analysis "suggestions" (PList [])) as [sg|e] eqn:E3;
    cbn [bind] in H; [|discriminate].
  injection H as <-. cbn. auto.
Qed.

Lemma str_list_firstn (l : list string) : at_most_five (str_list (firstn 5 l)).
Proof.
  exists (List.map PStr (firstn 5 l)). split; [reflexivity|].
  rewrite length_map. apply firstn_le_length.
Qed.

Lemma heuristic_result_lists (prompt : string) :
  at_most_five (strengths (heuristic_result prompt)) /\
  at_most_five (weaknesses (heuristic_result prompt)) /\
  at_most_five (suggestions (heuristic_result prompt)).
Proof.
  repeat split; apply str_list_firstn.
Qed.

End ArbiterFacts.



(** C5, as the code has it.  The rule-based analysis always gives confidence
    0.7.  An accepted external analysis gives confidence 0.7 only with an
    overall score that is neither 5.0 nor between 5.5 and 5.7.  A confidence
    other than 0.7 marks an accepted external analysis. *)
Theorem confidence_of_origin :
  forall (generate_response : string -> outcome string)
         (json_loads : string -> outcome pyval) (prompt : string)
         (r : AnalysisResult) (origin : source),
    comprehensive_analysis generate_response json_loads prompt = Returns r ->
    analysis_source generate_response json_loads prompt = Returns origin ->
    (origin = Heuristic -> confidence_level r = PNum 0.7) /\
    (origin = External ->
     Py.eq_num (confidence_level r) 0.7 = true ->
     Py.eq_num (overall_score (metrics r)) 5.0 = false /\
     Py.in_range 5.5 5.7 (overall_score (metrics r)) = false) /\
    (Py.eq_num (confidence_level r) 0.7 = false -> origin = External).
Proof.
  intros generate_response json_loads prompt r origin Hr Ho.
  unfold comprehensive_analysis in Hr. unfold analysis_source in Ho.
  destruct (ArbiterFacts.select_analysis_cases generate_response json_loads
              prompt) as [E|(parsed & Ev & Ep & E)];
    rewrite E in Hr, Ho; cbn [bind] in Hr, Ho; injection Ho as <-.
  - rewrite ArbiterFacts.combine_rule_based in Hr. injection Hr as <-.
    split; [reflexivity|]. split; [discriminate|].
    cbn. discriminate.
  - split; [discriminate|].
    destruct (ValidatorFacts.accepted_shape _ _ Ev)
      as (items & scores & analysis & ov & conf & o & c & Eq & Hsc & Han
          & Hov & Hconf & _ & _ & _ & _ & _ & Hvalid).
    rewrite Eq in Hr.
    destruct (ArbiterFacts.combine_results_fields _ _ _ _ _ _ _
                Hsc Han Hov Hconf Hr) as (-> & -> & _).
    split; [|reflexivity].
    intros _ H7. rewrite Hvalid in Ep. injection Ep as Ep.
    unfold ValidatorSpec.fallback_signature in Ep. rewrite H7 in Ep.
    rewrite andb_true_r in Ep. apply negb_true_iff, orb_false_iff in Ep.
    exact Ep.
Qed.

(** C5 fails as it is worded: an accepted external analysis with overall
    score 8 and confidence 0.7 gives a result with confidence 0.7. *)
Lemma confidence_does_not_mark_origin :
  ~ confidence_marks_origin (service_answering six_strengths_text)
      (loads_reading six_strengths_text six_strengths_response)
      "Write a haiku.".
Proof.
  intros H.
  assert (E : External = Heuristic); [|discriminate].
  eapply H; reflexivity.
Qed.

Lemma confidence_of_origin_witness :
  let generate_response := service_answering six_strengths_text in
  let json_loads := loads_reading six_strengths_text six_strengths_response in
  exists r,
    comprehensive_analysis generate_response json_loads "Write a haiku."
      = Returns r /\
    analysis_source generate_response json_loads "Write a haiku."
      = Returns External /\
    confidence_level r = PNum 0.7 /\
    Py.eq_num (overall_score (metrics r)) 5.0 = false /\
    Py.in_range 5.5 5.7 (overall_score (metrics r)) = false.
Proof.
  intros generate_response json_loads. eexists.
  split; [reflexivity|]. split; [reflexivity|]. split; [reflexivity|].
  eapply (confidence_of_origin generate_response json_loads "Write a haiku.");
    reflexivity.
Defined.

(** C8, as the code has it.  In a result built from the rule-based analysis
    the strengths, the weaknesses and the suggestions are lists of five
    elements at most.  A result built from an accepted external analysis
    carries the three values as the external response has them. *)
Theorem lists_of_origin :
  forall (generate_response : string -> outcome string)
         (json_loads : string -> outcome pyval) (prompt : string)
         (r : AnalysisResult) (origin : source),
    comprehensive_analysis generate_response json_loads prompt = Returns r ->
    analysis_source generate_response json_loads prompt = Returns origin ->
    (origin = Heuristic ->
     at_most_five (strengths r) /\ at_most_five (weaknesses r) /\
     at_most_five (suggestions r)) /\
    (origin = External ->
     exists analysis,
       Py.get (get_ai_analysis generate_response json_loads prompt)
         "analysis" (PDict []) = Returns analysis /\
       Py.get analysis "strengths" (PList []) = Returns (strengths r) /\
       Py.get analysis "weaknesses" (PList []) = Returns (weaknesses r) /\
       Py.get analysis "suggestions" (PList []) = Returns (suggestions r)).
Proof.
  intros generate_response json_loads prompt r origin Hr Ho.
  unfold comprehensive_analysis in Hr. unfold analysis_source in Ho.
  destruct (ArbiterFacts.select_analysis_cases generate_response json_loads
              prompt) as [E|(parsed & Ev & Ep & E)];
    rewrite E in Hr, Ho; cbn [bind] in Hr, Ho; injection Ho as <-.
  - rewrite ArbiterFacts.combine_rule_based in Hr. injection Hr as <-.
    split; [|discriminate].
    intros _. apply ArbiterFacts.heuristic_result_lists.
  - split; [discriminate|]. intros _.
    destruct (ValidatorFacts.accepted_shape _ _ Ev)
      as (items & scores & analysis & ov & conf & o & c & Eq & Hsc & Han
          & Hov & Hconf & _).
    rewrite Eq in Hr |- *.
    destruct (ArbiterFacts.combine_results_fields _ _ _ _ _ _ _
                Hsc Han Hov Hconf Hr) as (_ & _ & H1 & H2 & H3).
    exists analysis. cbn [Py.get]. rewrite Han. auto.
Qed.

(** C8 fails as it is worded: the six strengths of an accepted external
    analysis are all in the result. *)
Lemma lists_not_bounded :
  ~ lists_bounded (service_answering six_strengths_text)
      (loads_reading six_strengths_text six_strengths_response)
      "Write a haiku.".
Proof.
  intros H.
  destruct (H _ eq_refl) as [[l [E Hl]] _].
  cbn in E. injection E as <-. cbn in Hl. lia.
Qed.

Lemma lists_of_origin_witness :
  at_most_five (strengths (heuristic_result "fix this")) /\
  at_most_five (weaknesses (heuristic_result "fix this")) /\
  at_most_five (suggestions (heuristic_result "fix this")).
Proof.
  refine (proj1 (lists_of_origin (fun _ => Raises AIServiceError)
                   (fun _ => Raises JSONDecodeError) "fix this"
                   (heuristic_result "fix this") Heuristic _ _) eq_refl);
    reflexivity.
Defined.

(** * Further properties *)

(** ** The results of the arbiter *)

Module ResultFacts.
Import ValidatorSpec.

Lemma overall_of_bounds (prompt : string) :
  1 <= overall_of (score_prompt prompt) <= 10.
Proof.
  unfold overall_of, score_prompt.
  cbn [rs_clarity rs_specificity rs_context rs_constraint rs_goal].
  pose proof (clamp_score_bounds) as B.
  unfold calculate_clarity_score, calculate_specificity_score,
    calculate_context_score, calculate_constraint_score,
    calculate_goal_score. cbv zeta.
  match goal with
  | |- 1 <= (clamp_score ?a + clamp_score ?b + clamp_score ?c
             + clamp_score ?d + clamp_score ?e) / 5 <= 10 =>
      pose proof (B a); pose proof (B b); pose proof (B c);
      pose proof (B d); pose proof (B e);
      generalize dependent (clamp_score a);
      generalize dependent (clamp_score b);
      generalize dependent (clamp_score c);
      generalize dependent (clamp_score d);
      generalize dependent (clamp_score e)
  end.
  intros. split.
  - apply Qle_shift_div_l; [reflexivity | lra].
  - apply Qle_shift_div_r; [reflexivity | lra].
Qed.

Lemma rounded_within (x : Q) :
  1 <= x <= 10 -> number_within 1 10 (PNum (py_round1 x)).
Proof.
  intros H. exists (py_round1 x). split; [reflexivity|].
  now apply RoundFacts.py_round1_bounds.
Qed.

(** The scores of the rule-based result. *)
Lemma heuristic_scores_within (prompt : string) :
  let m := metrics (heuristic_result prompt) in
  number_within 1 10 (clarity_score m) /\
  number_within 1 10 (specificity_score m) /\
  number_within 1 10 (context_score m) /\
  number_within 1 10 (constraint_score m) /\
  number_within 1 10 (goal_orientation_score m) /\
  number_within 1 10 (overall_score m).
Proof.
  cbn [heuristic_result metrics clarity_score specificity_score context_score
       constraint_score goal_orientation_score overall_score].
  repeat split;
    first [ apply rounded_within, clamp_score_bounds
          | apply rounded_within, overall_of_bounds ].
Qed.

(** A score of an accepted response, as the validator leaves it. *)
Lemma accepted_score (raw : pyval) (items : list (string * pyval))
    (key : string) :
  validate_ai_response raw = Returns (true, PDict items) ->
  In key score_keys ->
  exists scores v,
    Py.lookup "scores" items = Some (PDict scores) /\
    Py.lookup key scores = Some v /\
    number_within 1 10 v.
Proof.
  intros H Hin.
  destruct (ValidatorFacts.validate_true_inv _ _ H)
    as (items0 & scores & analysis & conf & -> & Hreq & Hsc & Hsk & Han & Hak
        & HF & Hconf & Hn & Hr & E).
  injection E as ->.
  pose proof (ValidatorFacts.all_in_true_key _ _ _ Hsk Hin) as Hk.
  cbn [Py.contains_key] in Hk.
  destruct (Py.lookup key scores) as [v|] eqn:Ev; [|discriminate].
  exists (List.map unwrap_item scores), (unwrap_single v).
  split; [|split].
  - apply ValidatorFacts.lookup_set_item_same. congruence.
  - rewrite ValidatorFacts.lookup_unwrap, Ev. reflexivity.
  - apply ValidatorFacts.number_within_iff.
    apply (ValidatorFacts.lookup_Forall
             (fun v => valid_score (unwrap_single v) = true) key scores);
      assumption.
Qed.

Lemma accepted_confidence (raw : pyval) (items : list (string * pyval)) :
  validate_ai_response raw = Returns (true, PDict items) ->
  exists conf,
    Py.lookup "confidence" items = Some conf /\ number_within 0 1 conf.
Proof.
  intros H.
  destruct (ValidatorFacts.validate_true_inv _ _ H)
    as (items0 & scores & analysis & conf & -> & Hreq & Hsc & Hsk & Han & Hak
        & HF & Hconf & Hn & Hr & E).
  injection E as ->. exists conf. split.
  - rewrite ValidatorFacts.lookup_set_item_other by reflexivity. exact Hconf.
  - apply ValidatorFacts.number_within_iff. now rewrite Hn, Hr.
Qed.

(** The metrics that [comprehensive_analysis] reads from the scores. *)
Lemma combine_results_metrics (prompt : string)
    (items scores : list (string * pyval)) (r : AnalysisResult) :
  Py.lookup "scores" items = Some (PDict scores) ->
  combine_results prompt (PDict items) = Returns r ->
  let score key :=
    match Py.lookup key scores with Some v => v | None => PNum 5 end in
  clarity_score (metrics r) = score "clarity" /\
  specificity_score (metrics r) = score "specificity" /\
  context_score (metrics r) = score "context" /\
  constraint_score (metrics r) = score "constraints" /\
  goal_orientation_score (metrics r) = score "goal_orientation" /\
  overall_score (metrics r) = score "overall" /\
  confidence_level r =
    match Py.lookup "confidence" items with Some v => v | None => PNum 0.5 end.
Proof.
  intros Hsc H. unfold combine_results in H.
  cbn [Py.get bind] in H. rewrite Hsc in H. cbn [bind Py.get] in H.
  destruct (Py.lookup "analysis" items) as [analysis|];
  repeat match type of H with
  | bind ?m _ = _ => destruct m; cbn [bind] in H; [|discriminate]
  end;
  injection H as <-; cbn; repeat split; reflexivity.
Qed.

(** The statistics of the prompt in a result. *)
Lemma combine_results_statistics (prompt : string) (analysis : pyval)
    (r : AnalysisResult) :
  combine_results prompt analysis = Returns r ->
  word_count (metrics r) = PyStr.word_count prompt /\
  sentence_count (metrics r) = count_sentences prompt /\
  complexity_level (metrics r) = assess_complexity prompt.
Proof.
  intros H. unfold combine_results in H.
  repeat match type of H with
  | bind ?m _ = _ => destruct m; cbn [bind] in H; [|discriminate]
  end.
  injection H as <-. cbn. auto.
Qed.

End ResultFacts.

(** X1.  In every result of [comprehensive_analysis], from the external
    analysis or from the rule-based one, each of the six scores is a number
    between 1 and 10 and the confidence is a number between 0 and 1. *)
Theorem result_scores_within :
  forall (generate_response : string -> outcome string)
         (json_loads : string -> outcome pyval) (prompt : string)
         (r : AnalysisResult),
    comprehensive_analysis generate_response json_loads prompt = Returns r ->
    ValidatorSpec.number_within 1 10 (clarity_score (metrics r)) /\
    ValidatorSpec.number_within 1 10 (specificity_score (metrics r)) /\
    ValidatorSpec.number_within 1 10 (context_score (metrics r)) /\
    ValidatorSpec.number_within 1 10 (constraint_score (metrics r)) /\
    ValidatorSpec.number_within 1 10 (goal_orientation_score (metrics r)) /\
    ValidatorSpec.number_within 1 10 (overall_score (metrics r)) /\
    ValidatorSpec.number_within 0 1 (confidence_level r).
Proof.
  intros generate_response json_loads prompt r Hr.
  unfold comprehensive_analysis in Hr.
  destruct (ArbiterFacts.select_analysis_cases generate_response json_loads
              prompt) as [E|(parsed & Ev & Ep & E)];
    rewrite E in Hr; cbn [bind] in Hr.
  - rewrite ArbiterFacts.combine_rule_based in Hr. injection Hr as <-.
    pose proof (ResultFacts.heuristic_scores_within prompt) as H.
    cbv zeta in H. destruct H as (H1 & H2 & H3 & H4 & H5 & H6).
    do 6 (split; [assumption|]).
    exists 0.7. split; [reflexivity | lra].
  - destruct (ValidatorFacts.validate_true_inv _ _ Ev)
      as (items0 & scores0 & ? & ? & _ & _ & _ & _ & _ & _ & _ & _ & _ & _
          & Eq).
    rewrite Eq in Hr, Ev.
    set (items := set_item "scores"
                    (PDict (map ValidatorSpec.unwrap_item scores0)) items0)
      in *.
    destruct (ResultFacts.accepted_confidence _ _ Ev) as (conf & Hconf & Hc).
    assert (Hscore : forall key, In key score_keys ->
              exists scores v,
                Py.lookup "scores" items = Some (PDict scores) /\
                Py.lookup key scores = Some v /\
                ValidatorSpec.number_within 1 10 v).
    { intros key Hin. exact (ResultFacts.accepted_score _ _ key Ev Hin). }
    destruct (Hscore "overall") as (scores & ov & Hsc & _ & _);
      [cbn; tauto|].
    destruct (ResultFacts.combine_results_metrics _ _ _ _ Hsc Hr)
      as (H1 & H2 & H3 & H4 & H5 & H6 & H7).
    rewrite H1, H2, H3, H4, H5, H6, H7, Hconf.
    assert (G : forall key, In key score_keys ->
              ValidatorSpec.number_within 1 10
                match Py.lookup key scores with
                | Some v => v
                | None => PNum 5
                end).
    { intros key Hin.
      destruct (Hscore key Hin) as (scores' & v & Hsc' & Hv & Hw).
      rewrite Hsc in Hsc'. injection Hsc' as <-. rewrite Hv. exact Hw. }
    do 6 (split; [apply G; cbn; tauto|]). exact Hc.
Qed.

Lemma result_scores_within_witness :
  exists r,
    comprehensive_analysis (service_answering "{}")
      (fun _ => Returns wrapped_score_response) "Summarize this report."
      = Returns r /\
    specificity_score (metrics r) = PNum 7 /\
    ValidatorSpec.number_within 1 10 (specificity_score (metrics r)) /\
    ValidatorSpec.number_within 0 1 (confidence_level r).
Proof.
  eexists. split; [reflexivity|]. split; [reflexivity|].
  pose proof (result_scores_within (service_answering "{}")
                (fun _ => Returns wrapped_score_response)
                "Summarize this report." _ eq_refl) as H.
  split; apply H.
Defined.

(** X2.  The statistics of a result are those of the prompt, whatever the
    external response holds: the number of words, the number of sentences,
    which is 1 at least, and the complexity level, which the number of words
    of the result determines by the thresholds 20, 50 and 100. *)
Theorem result_statistics_local :
  forall (generate_response : string -> outcome string)
         (json_loads : string -> outcome pyval) (prompt : string)
         (r : AnalysisResult),
    comprehensive_analysis generate_response json_loads prompt = Returns r ->
    let m := metrics r in
    word_count m = PyStr.word_count prompt /\
    sentence_count m = count_sentences prompt /\
    (1 <= sentence_count m)%nat /\
    ((word_count m < 20)%nat -> complexity_level m = "Simple") /\
    ((20 <= word_count m < 50)%nat -> complexity_level m = "Moderate") /\
    ((50 <= word_count m < 100)%nat -> complexity_level m = "Complex") /\
    ((100 <= word_count m)%nat -> complexity_level m = "Advanced").
Proof.
  intros generate_response json_loads prompt r Hr m.
  unfold comprehensive_analysis in Hr.
  destruct (select_analysis generate_response json_loads prompt)
    as [[origin analysis]|e]; cbn [bind] in Hr; [|discriminate].
  destruct (ResultFacts.combine_results_statistics _ _ _ Hr)
    as (Hw & Hs & Hc).
  subst m. rewrite Hw, Hs, Hc. unfold assess_complexity, count_sentences.
  split; [reflexivity|]. split; [reflexivity|]. split; [lia|].
  repeat split; intros H;
    repeat match goal with
    | |- context [(?a <? ?b)%nat] => destruct (Nat.ltb_spec a b)
    end; first [reflexivity | lia].
Qed.

Lemma result_statistics_local_witness :
  exists r,
    comprehensive_analysis (service_answering "{}")
      (fun _ => Returns wrapped_score_response) "Summarize this report."
      = Returns r /\
    word_count (metrics r) = 3%nat /\
    sentence_count (metrics r) = 2%nat /\
    complexity_level (metrics r) = "Simple".
Proof.
  eexists. split; [reflexivity|].
  pose proof (result_statistics_local (service_answering "{}")
                (fun _ => Returns wrapped_score_response)
                "Summarize this report." _ eq_refl) as H.
  cbv zeta in H. destruct H as (Hw & Hs & _ & Hc & _).
  split; [exact Hw|]. split; [exact Hs|]. apply Hc. cbn. lia.
Defined.

Module RaiseFacts.

(** Whether [comprehensive_analysis] can read the three lists of an
    analysis. *)
Lemma combine_results_outcome (prompt : string)
    (items scores : list (string * pyval)) (analysis : pyval) :
  Py.lookup "scores" items = Some (PDict scores) ->
  Py.lookup "analysis" items = Some analysis ->
  (is_mapping analysis ->
   exists r, combine_results prompt (PDict items) = Returns r) /\
  (~ is_mapping analysis ->
   combine_results prompt (PDict items) = Raises AttributeError).
Proof.
  intros Hsc Han. unfold combine_results.
  cbn [Py.get bind]. rewrite Hsc, Han. cbn [bind Py.get]. split.
  - intros [aitems ->]. cbn [bind Py.get]. eexists. reflexivity.
  - intros Hn. destruct analysis; try reflexivity.
    exfalso. apply Hn. eexists. reflexivity.
Qed.

End RaiseFacts.

(** X3.  [comprehensive_analysis] raises exactly when the external response
    has been accepted and its analysis is not a mapping; the exception is
    [AttributeError], from the [get] of a list or of a string. *)
Theorem arbiter_raises_exactly :
  forall (generate_response : string -> outcome string)
         (json_loads : string -> outcome pyval) (prompt : string) (e : exn),
    comprehensive_analysis generate_response json_loads prompt = Raises e <->
    e = AttributeError /\
    analysis_source generate_response json_loads prompt = Returns External /\
    exists analysis,
      Py.get (get_ai_analysis generate_response json_loads prompt)
        "analysis" (PDict []) = Returns analysis /\
      ~ is_mapping analysis.
Proof.
  intros generate_response json_loads prompt e.
  unfold comprehensive_analysis, analysis_source.
  destruct (ArbiterFacts.select_analysis_cases generate_response json_loads
              prompt) as [E|(parsed & Ev & Ep & E)];
    rewrite E; cbn [bind].
  - rewrite ArbiterFacts.combine_rule_based. split.
    + discriminate.
    + intros (_ & H & _). discriminate.
  - destruct (ValidatorFacts.accepted_shape _ _ Ev)
      as (items & scores & analysis & ov & conf & o & c & Eq & Hsc & Han
          & _).
    rewrite Eq. cbn [Py.get]. rewrite Han.
    destruct (RaiseFacts.combine_results_outcome prompt _ _ _ Hsc Han)
      as [Hok Hraise].
    split.
    + intros H.
      assert (Hn : ~ is_mapping analysis).
      { intros Hm. destruct (Hok Hm) as [r Hr]. congruence. }
      rewrite (Hraise Hn) in H. injection H as <-.
      split; [reflexivity|]. split; [reflexivity|].
      exists analysis. auto.
    + intros (-> & _ & a & [= <-] & Hn). exact (Hraise Hn).
Qed.

Lemma arbiter_raises_exactly_witness :
  comprehensive_analysis (service_answering "{}")
    (fun _ => Returns worded_analysis_response) "Summarize this report."
  = Raises AttributeError.
Proof.
  apply (proj2 (arbiter_raises_exactly (service_answering "{}")
                  (fun _ => Returns worded_analysis_response)
                  "Summarize this report." AttributeError)).
  split; [reflexivity|]. split; [reflexivity|].
  eexists. split; [reflexivity|].
  intros [items H]. discriminate.
Defined.

(** ** The validator and the rule-based analysis *)

Module ValidatorMore.
Import ValidatorSpec.

Lemma lookup_set_item_none (key key' : string) (v : pyval)
    (items : list (string * pyval)) :
  Py.lookup key' (set_item key v items) = None <->
  Py.lookup key' items = None.
Proof.
  induction items as [|[k x] items IH]; [reflexivity|].
  cbn [set_item]. destruct (String.eqb key k) eqn:E; cbn [Py.lookup].
  - destruct (String.eqb key' k); [split; discriminate | reflexivity].
  - destruct (String.eqb key' k); [split; discriminate | exact IH].
Qed.

(** Storing a value under a key that is there keeps the keys. *)
Lemma all_in_set_item (keys : list string) (key : string) (v : pyval)
    (items : list (string * pyval)) :
  Py.all_in keys (PDict (set_item key v items)) = Py.all_in keys (PDict items).
Proof.
  induction keys as [|k keys IH]; [reflexivity|].
  cbn [Py.all_in Py.contains_key bind].
  destruct (Py.lookup k (set_item key v items)) eqn:E1;
    destruct (Py.lookup k items) eqn:E2; try exact IH; try reflexivity.
  - apply (proj2 (lookup_set_item_none key k v items)) in E2. congruence.
  - apply (proj1 (lookup_set_item_none key k v items)) in E1. congruence.
Qed.

Lemma all_in_unwrap (keys : list string) (scores : list (string * pyval)) :
  Py.all_in keys (PDict (List.map unwrap_item scores))
  = Py.all_in keys (PDict scores).
Proof.
  induction keys as [|k keys IH]; [reflexivity|].
  cbn [Py.all_in Py.contains_key bind].
  rewrite ValidatorFacts.lookup_unwrap.
  destruct (Py.lookup k scores); cbn [option_map bind]; [exact IH|reflexivity].
Qed.

(** A valid score is no list. *)
Lemma unwrap_valid (v : pyval) : valid_score v = true -> unwrap_single v = v.
Proof. destruct v; try discriminate; reflexivity. Qed.

Lemma unwrap_item_valid (scores : list (string * pyval)) :
  Forall (fun item => valid_score (snd item) = true) scores ->
  List.map unwrap_item scores = scores.
Proof.
  induction 1 as [|[k v] scores Hv _ IH]; [reflexivity|].
  cbn [snd] in Hv. cbn [map]. rewrite IH. unfold unwrap_item at 1.
  cbn [fst snd]. now rewrite (unwrap_valid _ Hv).
Qed.

End ValidatorMore.

(** X4.  The validator is idempotent: a response that it has accepted is, as
    it leaves it, accepted again and left as it is. *)
Theorem validate_idempotent :
  forall raw validated : pyval,
    validate_ai_response raw = Returns (true, validated) ->
    validate_ai_response validated = Returns (true, validated).
Proof.
  intros raw validated H.
  destruct (ValidatorFacts.validate_true_inv _ _ H)
    as (items & scores & analysis & conf & -> & Hreq & Hsc & Hsk & Han & Hak
        & HF & Hconf & Hn & Hr & ->).
  set (scores' := List.map ValidatorSpec.unwrap_item scores).
  assert (HF' : Forall (fun item => valid_score (snd item) = true) scores').
  { unfold scores'. rewrite Forall_map. exact HF. }
  assert (Hsc' : Py.lookup "scores" (set_item "scores" (PDict scores') items)
                 = Some (PDict scores')).
  { apply ValidatorFacts.lookup_set_item_same. congruence. }
  rewrite (ValidatorFacts.validate_true_intro
             (set_item "scores" (PDict scores') items) scores' analysis conf).
  - rewrite (ValidatorMore.unwrap_item_valid _ HF').
    rewrite (ValidatorFacts.set_item_same _ _ _ Hsc'). reflexivity.
  - rewrite ValidatorMore.all_in_set_item. exact Hreq.
  - exact Hsc'.
  - unfold scores'. rewrite ValidatorMore.all_in_unwrap. exact Hsk.
  - rewrite ValidatorFacts.lookup_set_item_other by reflexivity. exact Han.
  - exact Hak.
  - eapply Forall_impl; [|exact HF'].
    intros item Hv. now rewrite (ValidatorMore.unwrap_valid _ Hv).
  - rewrite ValidatorFacts.lookup_set_item_other by reflexivity. exact Hconf.
  - exact Hn.
  - exact Hr.
Qed.

Lemma validate_idempotent_witness :
  validate_ai_response wrapped_score_response
    = Returns (true, unwrapped_score_response) /\
  validate_ai_response unwrapped_score_response
    = Returns (true, unwrapped_score_response).
Proof.
  split; [reflexivity|].
  apply (validate_idempotent wrapped_score_response). reflexivity.
Defined.

Module RuleBasedFacts.
Import ValidatorSpec.

Lemma rounded_valid (x : Q) :
  1 <= x <= 10 -> valid_score (PNum (py_round1 x)) = true.
Proof.
  intros H. apply ValidatorFacts.number_within_iff.
  now apply ResultFacts.rounded_within.
Qed.

End RuleBasedFacts.

(** X5.  The rule-based analysis of every prompt has the structure that the
    validator demands of an external response: the validator accepts it and
    leaves it as it is. *)
Theorem rule_based_analysis_validates :
  forall prompt : string,
    validate_ai_response (rule_based_analysis prompt)
    = Returns (true, rule_based_analysis prompt).
Proof.
  intros prompt. unfold rule_based_analysis. cbv zeta.
  match goal with
  | |- validate_ai_response (PDict ?items) = _ =>
      match items with
      | ("scores", PDict ?scores) :: ("analysis", ?analysis) :: _ =>
          rewrite (ValidatorFacts.validate_true_intro items scores analysis
                     (PNum 0.7));
            try reflexivity
      end
  end.
  repeat constructor; cbn [snd unwrap_single];
    first [ apply RuleBasedFacts.rounded_valid, clamp_score_bounds
          | apply RuleBasedFacts.rounded_valid, ResultFacts.overall_of_bounds ].
Qed.

(** X6.  [_is_valid_ai_analysis] takes the rule-based analysis of a prompt
    for an external one unless its overall score is 5.0 or lies between 5.5
    and 5.7: it returns false on it exactly then. *)
Theorem rule_based_analysis_recognised :
  forall prompt : string,
  exists (scores : pyval) (o : Q) (b : bool),
    Py.get (rule_based_analysis prompt) "scores" (PDict []) = Returns scores /\
    Py.get scores "overall" (PNum 0) = Returns (PNum o) /\
    is_valid_ai_analysis (rule_based_analysis prompt) = Returns b /\
    (b = false <-> o == 5.0 \/ 5.5 <= o <= 5.7).
Proof.
  intros prompt.
  set (o := py_round1 (overall_of (score_prompt prompt))).
  eexists. exists o.
  exists (negb (Qeq_bool o 5.0 || Qle_bool 5.5 o && Qle_bool o 5.7)).
  split; [reflexivity|]. split; [reflexivity|]. split.
  - unfold is_valid_ai_analysis, rule_based_analysis. cbv zeta.
    cbn [Py.truthy negb Py.get Py.lookup String.eqb Ascii.eqb Bool.eqb bind].
    fold o. cbn [Py.eq_num Py.between Py.is_number Py.in_range].
    destruct (Qeq_bool o 5.0); cbn [bind orb];
      [reflexivity|].
    destruct (Qle_bool 5.5 o && Qle_bool o 5.7); reflexivity.
  - rewrite negb_false_iff, orb_true_iff, andb_true_iff.
    rewrite Qeq_bool_iff, !Qle_bool_iff. tauto.
Qed.

(** ** The scorers and the feedback *)

Module CaseFacts.

Lemma is_space_lower (c : ascii) : is_space (lower_char c) = is_space c.
Proof. destruct c as [[] [] [] [] [] [] [] []]; reflexivity. Qed.

Lemma is_digit_lower (c : ascii) : is_digit (lower_char c) = is_digit c.
Proof. destruct c as [[] [] [] [] [] [] [] []]; reflexivity. Qed.

Lemma question_mark_lower (c : ascii) :
  String.prefix "?" (String (lower_char c) EmptyString)
  = String.prefix "?" (String c EmptyString).
Proof. destruct c as [[] [] [] [] [] [] [] []]; reflexivity. Qed.

Lemma count_words_lower (b : bool) (s : string) :
  count_words b (lower s) = count_words b s.
Proof.
  revert b. induction s as [|c s IH]; intros b; [reflexivity|].
  cbn [lower count_words]. rewrite is_space_lower, !IH. reflexivity.
Qed.

Lemma word_count_lower (s : string) :
  PyStr.word_count (lower s) = PyStr.word_count s.
Proof. apply count_words_lower. Qed.

Lemma count_digit_runs_lower (b : bool) (s : string) :
  count_runs is_digit b (lower s) = count_runs is_digit b s.
Proof.
  revert b. induction s as [|c s IH]; intros b; [reflexivity|].
  cbn [lower count_runs]. rewrite is_digit_lower, !IH. reflexivity.
Qed.

Lemma prefix_char (c d : ascii) (s t : string) :
  String.prefix (String c EmptyString) (String d s)
  = String.prefix (String c EmptyString) (String d t).
Proof.
  cbn [String.prefix]. destruct (ascii_dec c d); [|reflexivity].
  destruct s, t; reflexivity.
Qed.

Lemma contains_question_lower (s : string) :
  contains question_mark (lower s) = contains question_mark s.
Proof.
  unfold question_mark. induction s as [|c s IH]; [reflexivity|].
  cbn [lower contains]. rewrite IH. f_equal.
  rewrite (prefix_char _ _ (lower s) EmptyString).
  rewrite (prefix_char _ c s EmptyString).
  apply question_mark_lower.
Qed.

End CaseFacts.

(** X7.  The five scorers do not tell capitals from small letters: two
    prompts with the same lowered text have the same five scores. *)
Theorem scorers_case_insensitive :
  forall p q : string,
    lower p = lower q ->
    calculate_clarity_score p = calculate_clarity_score q /\
    calculate_specificity_score p = calculate_specificity_score q /\
    calculate_context_score p = calculate_context_score q /\
    calculate_constraint_score p = calculate_constraint_score q /\
    calculate_goal_score p = calculate_goal_score q.
Proof.
  intros p q H.
  unfold calculate_clarity_score, calculate_specificity_score,
    calculate_context_score, calculate_constraint_score,
    calculate_goal_score.
  rewrite <- (CaseFacts.word_count_lower p), <- (CaseFacts.word_count_lower q).
  rewrite <- (CaseFacts.contains_question_lower p),
    <- (CaseFacts.contains_question_lower q).
  rewrite <- (CaseFacts.count_digit_runs_lower false p),
    <- (CaseFacts.count_digit_runs_lower false q).
  rewrite H. repeat split; reflexivity.
Qed.

Lemma scorers_case_insensitive_witness :
  calculate_clarity_score "WRITE a Report for MY Team?"
  = calculate_clarity_score "write a report for my team?" /\
  calculate_context_score "WRITE a Report for MY Team?"
  = calculate_context_score "write a report for my team?".
Proof.
  destruct (scorers_case_insensitive "WRITE a Report for MY Team?"
              "write a report for my team?" eq_refl) as (H1 & _ & H3 & _).
  split; assumption.
Defined.

Module BoundFacts.

Lemma of_count_nonneg (n : nat) : 0 <= of_count n.
Proof.
  unfold of_count. change 0 with (inject_Z 0). rewrite <- Zle_Qle. lia.
Qed.

(** A capped bonus is never negative. *)
Lemma bonus_nonneg (n : nat) (weight cap : Q) :
  0 <= weight -> 0 <= cap -> 0 <= Qmin (of_count n * weight) cap.
Proof.
  intros Hw Hc. apply Q.min_glb; [|exact Hc].
  apply Qmult_le_0_compat; [apply of_count_nonneg | exact Hw].
Qed.

Lemma clamp_score_lower (lo x : Q) :
  lo <= 10 -> lo <= x -> lo <= clamp_score x.
Proof.
  intros H10 Hx. unfold clamp_score.
  apply Qle_trans with (y := Qmin 10.0 x); [|apply Q.le_max_r].
  apply Q.min_glb; [lra | exact Hx].
Qed.

End BoundFacts.

(** X8.  The scorers of the constraints and of the context only add to their
    base: the constraints score is never below 4.0 and the context score
    never below 2.0. *)
Theorem bonus_only_scores :
  forall prompt : string,
    4 <= calculate_constraint_score prompt /\
    2 <= calculate_context_score prompt.
Proof.
  intros prompt. split.
  - unfold calculate_constraint_score. cbv zeta.
    apply BoundFacts.clamp_score_lower; [lra|].
    pose proof (BoundFacts.bonus_nonneg
      (count_present format_instructions (lower prompt)) 1.0 3.0) as H1.
    pose proof (BoundFacts.bonus_nonneg
      (count_present length_specs (lower prompt)) 0.8 2.0) as H2.
    pose proof (BoundFacts.bonus_nonneg
      (count_present style_specs (lower prompt)) 0.6 2.0) as H3.
    pose proof (BoundFacts.bonus_nonneg
      (count_present audience_specs (lower prompt)) 0.5 1.0) as H4.
    lra.
  - unfold calculate_context_score. cbv zeta.
    apply BoundFacts.clamp_score_lower; [lra|].
    pose proof (BoundFacts.bonus_nonneg
      (count_present_lowered context_words (lower prompt)) 0.8 2.0) as H1.
    pose proof (BoundFacts.bonus_nonneg
      (count_present_lowered personal_words (lower prompt)) 0.3 1.0) as H2.
    repeat match goal with
    | |- context [(?a <? ?b)%nat] => destruct (a <? b)%nat
    end; lra.
Qed.

Module FeedbackFacts.

Lemma firstn_nonempty {A : Type} (n : nat) (l : list A) :
  l <> [] -> (1 <= List.length (firstn (S n) l))%nat.
Proof. destruct l; [congruence | cbn; lia]. Qed.

Lemma append_if_nonempty (cond : bool) (s : string) (l : list string) :
  l <> [] -> append_if cond s l <> [].
Proof.
  intros H. unfold append_if. destruct cond; [|exact H].
  destruct l; [congruence | discriminate].
Qed.

Lemma or_default_nonempty (l d : list string) :
  d <> [] -> match l with [] => d | _ => l end <> [].
Proof. intros H. destruct l; [exact H | discriminate]. Qed.

(** No element of a list of strings given in full is [s]. *)
Ltac not_among :=
  let H := fresh in
  intros H; cbn [In] in H;
  repeat (destruct H as [H|H]; [discriminate H|]); exact H.

End FeedbackFacts.

(** X9.  The rule-based feedback is never empty: for every prompt and all
    scores there are between 1 and 5 strengths and between 1 and 5
    weaknesses, and every list of weaknesses gives between 1 and 5
    suggestions. *)
Theorem feedback_between_one_and_five :
  forall (prompt : string) (clarity specificity context constraints goal : Q)
         (weaknesses : list string),
    (1 <= List.length
            (identify_strengths prompt clarity specificity context
               constraints goal) <= 5)%nat /\
    (1 <= List.length
            (identify_weaknesses prompt clarity specificity context
               constraints goal) <= 5)%nat /\
    (1 <= List.length (generate_suggestions prompt weaknesses) <= 5)%nat.
Proof.
  intros prompt clarity specificity context constraints goal weaknesses.
  split; [|split]; (split; [|apply firstn_le_length]).
  - unfold identify_strengths. cbv zeta.
    apply FeedbackFacts.firstn_nonempty, FeedbackFacts.or_default_nonempty.
    discriminate.
  - unfold identify_weaknesses. cbv zeta.
    apply FeedbackFacts.firstn_nonempty, FeedbackFacts.or_default_nonempty.
    discriminate.
  - unfold generate_suggestions. cbv zeta.
    apply FeedbackFacts.firstn_nonempty, FeedbackFacts.or_default_nonempty.
    discriminate.
Qed.

(** X10.  In the rule-based analysis the suggestions mirror the weaknesses:
    every weakness that [_identify_weaknesses] reports gives one suggestion,
    but the default weakness, which gives the three generic ones.  The
    suggestion of the branch for vague language is never given: the weakness
    about vague language is taken by the branch for "specific". *)
Theorem suggestions_mirror_weaknesses :
  forall (prompt : string) (clarity specificity context constraints goal : Q),
    let found :=
      identify_weaknesses prompt clarity specificity context constraints
        goal in
    let suggested := generate_suggestions prompt found in
    (found = [default_weakness] -> suggested = generic_suggestions) /\
    (found <> [default_weakness] ->
     List.length suggested = List.length found) /\
    ~ In vague_suggestion suggested.
Proof.
  intros prompt clarity specificity context constraints goal.
  unfold identify_weaknesses. cbv zeta.
  destruct (Qlt_bool clarity 6), (Qlt_bool specificity 6),
    (Qlt_bool context 6), (Qlt_bool constraints 6), (Qlt_bool goal 6),
    (PyStr.word_count prompt <? 15)%nat,
    (any_present ["thing"; "stuff"; "good"; "nice"; "help"] (lower prompt));
    vm_compute;
    (split; [|split]);
    first [ FeedbackFacts.not_among
          | intros _; reflexivity
          | intros H; discriminate H
          | intros H; exfalso; apply H; reflexivity ].
Qed.

(** ** The cleaning of the response *)

Module CleanFacts.
Import PyStrFacts.

Lemma free_of_app (c : ascii) (a b : string) :
  free_of c (a ++ b) = free_of c a && free_of c b.
Proof.
  induction a as [|x a IH]; [reflexivity|].
  cbn [append free_of]. rewrite IH. apply andb_assoc.
Qed.

Lemma free_of_lstrip (c : ascii) (s : string) :
  free_of c s = true -> free_of c (lstrip s) = true.
Proof.
  induction s as [|x s IH]; [reflexivity|].
  intros H. cbn [lstrip]. destruct (is_space x); [|exact H].
  cbn [free_of] in H. apply andb_true_iff in H as [_ H]. now apply IH.
Qed.

Lemma free_of_rstrip (c : ascii) (s : string) :
  free_of c s = true -> free_of c (rstrip s) = true.
Proof.
  induction s as [|x s IH]; [reflexivity|].
  intros H. cbn [free_of] in H. apply andb_true_iff in H as [Hx H].
  specialize (IH H). cbn [rstrip].
  destruct (rstrip s) eqn:E.
  - destruct (is_space x); [reflexivity|]. cbn [free_of]. now rewrite Hx.
  - cbn [free_of] in *. now rewrite Hx, IH.
Qed.

Lemma prefix_fence_head (x : ascii) (r : string) :
  Ascii.eqb x backtick = false -> String.prefix Re.fence (String x r) = false.
Proof.
  intros H. cbn [Re.fence String.prefix].
  destruct (ascii_dec "`" x) as [<-|]; [discriminate H | reflexivity].
Qed.

Lemma prefix_json_fence_head (x : ascii) (r : string) :
  Ascii.eqb x backtick = false ->
  String.prefix Re.json_fence (String x r) = false.
Proof.
  intros H. cbn [Re.json_fence String.prefix].
  destruct (ascii_dec "`" x) as [<-|]; [discriminate H | reflexivity].
Qed.

(** After the spaces that a text without backticks starts with, no fence
    follows, whatever comes after a last character that is no space. *)
Lemma no_fence_after_spaces (a : string) (c : ascii) (tail : string) :
  free_of backtick a = true -> Ascii.eqb c backtick = false ->
  is_space c = false ->
  let s := a ++ String c tail in
  String.prefix Re.fence (Re.drop (Re.leading_spaces s) s) = false.
Proof.
  intros Ha Hc Hs. cbv zeta. induction a as [|x a IH].
  - cbn [append Re.leading_spaces]. rewrite Hs. cbn [Re.drop].
    now apply prefix_fence_head.
  - cbn [free_of] in Ha. apply andb_true_iff in Ha as [Hx Ha].
    apply negb_true_iff in Hx.
    cbn [append Re.leading_spaces]. destruct (is_space x).
    + cbn [Re.drop]. now apply IH.
    + cbn [Re.drop]. now apply prefix_fence_head.
Qed.

(** [re.sub] leaves a text without backticks as it is, up to its last
    character that is no space. *)
Lemma sub_fences_free (a : string) (c : ascii) (tail : string) :
  free_of backtick a = true -> Ascii.eqb c backtick = false ->
  is_space c = false ->
  Re.sub_fences 0 (a ++ String c tail)
  = a ++ String c (Re.sub_fences 0 tail).
Proof.
  intros Ha Hc Hs. induction a as [|x a IH].
  - cbn [append Re.sub_fences].
    rewrite (prefix_json_fence_head _ _ Hc).
    cbn [Re.leading_spaces]. rewrite Hs. cbn [Re.drop].
    rewrite (prefix_fence_head _ _ Hc). reflexivity.
  - pose proof (no_fence_after_spaces (String x a) c tail Ha Hc Hs) as Hf.
    cbv zeta in Hf.
    cbn [free_of] in Ha. apply andb_true_iff in Ha as [Hx Ha].
    apply negb_true_iff in Hx.
    change (String x a ++ String c tail) with (String x (a ++ String c tail))
      in *.
    cbn [Re.sub_fences].
    rewrite (prefix_json_fence_head _ _ Hx), Hf, (IH Ha). reflexivity.
Qed.

(** The same for a whole text. *)
Lemma sub_fences_free_all (s : string) :
  free_of backtick s = true -> Re.sub_fences 0 s = s.
Proof.
  induction s as [|x s IH]; [reflexivity|].
  intros H. pose proof H as H'.
  cbn [free_of] in H. apply andb_true_iff in H as [Hx H].
  apply negb_true_iff in Hx.
  cbn [Re.sub_fences]. rewrite (prefix_json_fence_head _ _ Hx).
  assert (Hf : String.prefix Re.fence
                 (Re.drop (Re.leading_spaces (String x s)) (String x s))
               = false).
  { clear IH Hx H. revert H'. generalize (String x s). intros t.
    induction t as [|y t IHt]; [reflexivity|].
    intros Ht. cbn [free_of] in Ht. apply andb_true_iff in Ht as [Hy Ht].
    apply negb_true_iff in Hy.
    cbn [Re.leading_spaces]. destruct (is_space y); cbn [Re.drop].
    - now apply IHt.
    - now apply prefix_fence_head. }
  rewrite Hf, (IH H). reflexivity.
Qed.

Lemma from_open_brace_app (pre rest : string) :
  free_of Re.open_brace pre = true ->
  Re.from_open_brace (pre ++ String Re.open_brace rest)
  = Some (String Re.open_brace rest).
Proof.
  induction pre as [|x pre IH]; intros H.
  - cbn [append Re.from_open_brace]. now rewrite Ascii.eqb_refl.
  - cbn [free_of] in H. apply andb_true_iff in H as [Hx H].
    apply negb_true_iff in Hx.
    cbn [append Re.from_open_brace]. rewrite Hx. now apply IH.
Qed.

Lemma to_last_close_brace_free (post : string) :
  free_of Re.close_brace post = true -> Re.to_last_close_brace post = None.
Proof.
  induction post as [|x post IH]; [reflexivity|].
  intros H. cbn [free_of] in H. apply andb_true_iff in H as [Hx H].
  apply negb_true_iff in Hx.
  cbn [Re.to_last_close_brace]. now rewrite (IH H), Hx.
Qed.

Lemma to_last_close_brace_app (a post : string) :
  free_of Re.close_brace post = true ->
  Re.to_last_close_brace (a ++ String Re.close_brace post)
  = Some (a ++ String Re.close_brace EmptyString).
Proof.
  intros H. induction a as [|x a IH].
  - cbn [append Re.to_last_close_brace].
    rewrite (to_last_close_brace_free _ H). now rewrite Ascii.eqb_refl.
  - cbn [append Re.to_last_close_brace]. now rewrite IH.
Qed.

Lemma rstrip_not_empty (a : string) (c : ascii) (t : string) :
  is_space c = false -> rstrip (a ++ String c t) <> EmptyString.
Proof.
  intros Hc. induction a as [|x a IH].
  - cbn [append rstrip]. destruct (rstrip t); [rewrite Hc|]; discriminate.
  - cbn [append rstrip]. destruct (rstrip (a ++ String c t)); [|discriminate].
    contradiction.
Qed.

Lemma rstrip_keep (c : ascii) (t : string) :
  is_space c = false -> rstrip (String c t) = String c (rstrip t).
Proof.
  intros Hc. cbn [rstrip]. destruct (rstrip t); [now rewrite Hc | reflexivity].
Qed.

End CleanFacts.

Module CleanMore.
Import PyStrFacts CleanFacts.

(** The text between the first opening brace and the last closing one. *)
Lemma search_braces_embedded (pre body post : string) :
  free_of Re.open_brace pre = true ->
  free_of Re.close_brace post = true ->
  Re.search_braces
    (pre ++ String Re.open_brace (body ++ String Re.close_brace post))
  = Some (braced body).
Proof.
  intros Hpre Hpost. unfold Re.search_braces.
  rewrite (from_open_brace_app _ _ Hpre).
  rewrite (to_last_close_brace_app _ _ Hpost). reflexivity.
Qed.

Lemma strip_embedded (pre body post : string) :
  strip (pre ++ String Re.open_brace (body ++ String Re.close_brace post))
  = lstrip pre
    ++ String Re.open_brace (body ++ String Re.close_brace (rstrip post)).
Proof.
  unfold strip.
  replace (pre ++ String Re.open_brace (body ++ String Re.close_brace post))
    with ((pre ++ String Re.open_brace body) ++ String Re.close_brace post).
  2:{ rewrite app_assoc. reflexivity. }
  rewrite rstrip_app.
  2:{ rewrite rstrip_keep by reflexivity. discriminate. }
  rewrite rstrip_keep by reflexivity.
  rewrite app_assoc.
  change (String Re.open_brace body ++ String Re.close_brace (rstrip post))
    with (String Re.open_brace (body ++ String Re.close_brace (rstrip post))).
  apply lstrip_app. reflexivity.
Qed.

Lemma prefix_self (p rest : string) : String.prefix p (p ++ rest) = true.
Proof.
  induction p as [|c p IH]; [now destruct rest|].
  cbn [append String.prefix]. destruct (ascii_dec c c); [exact IH|congruence].
Qed.

Lemma sub_fences_step (c : ascii) (r : string) :
  Re.sub_fences 0 (String c r) =
  let s := String c r in
  if String.prefix Re.json_fence s then
    Re.sub_fences (6 + Re.leading_spaces (Re.drop 7 s)) r
  else if String.prefix Re.fence (Re.drop (Re.leading_spaces s) s) then
    Re.sub_fences (Re.leading_spaces s + 2) r
  else String c (Re.sub_fences 0 r).
Proof. reflexivity. Qed.

(** Skipping the rest of a match is dropping it. *)
Lemma sub_fences_skip (n : nat) (s : string) :
  Re.sub_fences n s = Re.sub_fences 0 (Re.drop n s).
Proof.
  revert s. induction n as [|n IH]; intros s; [reflexivity|].
  destruct s as [|c r]; [reflexivity|].
  cbn [Re.sub_fences Re.drop]. apply IH.
Qed.

Lemma drop_add (n m : nat) (s : string) :
  Re.drop (n + m) s = Re.drop m (Re.drop n s).
Proof.
  revert s. induction n as [|n IH]; intros s; [reflexivity|].
  destruct s as [|c r]; cbn [Nat.add Re.drop]; [|apply IH].
  destruct m; reflexivity.
Qed.

(** The first alternative: the opening fence goes with the spaces after
    it. *)
Lemma sub_fences_json_fence (rest : string) :
  Re.sub_fences 0 (Re.json_fence ++ rest)
  = Re.sub_fences 0 (Re.drop (Re.leading_spaces rest) rest).
Proof.
  change (Re.json_fence ++ rest)
    with (String "`" (String "`" (String "`" (String "j" (String "s"
            (String "o" (String "n" EmptyString)))))) ++ rest).
  set (p := String "`" (String "`" (String "`" (String "j" (String "s"
              (String "o" (String "n" EmptyString))))))).
  assert (Hp : String.prefix Re.json_fence (p ++ rest) = true)
    by apply prefix_self.
  assert (Hd : Re.drop 7 (p ++ rest) = rest) by reflexivity.
  assert (Hs : exists c r, p ++ rest = String c r
                 /\ Re.drop 6 r = rest).
  { do 2 eexists. split; reflexivity. }
  destruct Hs as (c & r & E & Hr). rewrite E in *.
  rewrite sub_fences_step. cbv zeta. rewrite Hp, Hd.
  rewrite sub_fences_skip, drop_add, Hr. reflexivity.
Qed.

(** The second alternative: the closing fence goes with the spaces before
    it. *)
Lemma sub_fences_closing : Re.sub_fences 0 (nl ++ Re.fence) = EmptyString.
Proof. vm_compute. reflexivity. Qed.

Lemma leading_spaces_line (rest : string) :
  Re.leading_spaces (nl ++ String Re.open_brace rest) = 1%nat.
Proof. reflexivity. Qed.

End CleanMore.

(** X11.  A JSON object embedded in prose is handed to [json.loads] alone:
    when the response has no backtick, the text before the object has no
    opening brace and the text after it no closing brace, the cleaned
    response is the object, from its opening brace to its closing brace. *)
Theorem clean_response_embedded :
  forall pre body post : string,
    free_of backtick pre = true ->
    free_of backtick body = true ->
    free_of backtick post = true ->
    free_of Re.open_brace pre = true ->
    free_of Re.close_brace post = true ->
    clean_response (pre ++ braced body ++ post) = braced body.
Proof.
  intros pre body post Hb1 Hb2 Hb3 Hpre Hpost.
  assert (E : pre ++ braced body ++ post
              = pre ++ String Re.open_brace
                         (body ++ String Re.close_brace post)).
  { unfold braced. f_equal.
    change ("{" ++ body ++ "}") with (String Re.open_brace (body ++ "}")).
    cbn [append]. f_equal. rewrite PyStrFacts.app_assoc. reflexivity. }
  rewrite E. unfold clean_response.
  rewrite CleanFacts.sub_fences_free_all.
  2:{ rewrite CleanFacts.free_of_app, Hb1. cbn [free_of andb].
      rewrite CleanFacts.free_of_app, Hb2. cbn [free_of].
      rewrite Hb3. reflexivity. }
  rewrite CleanMore.strip_embedded.
  rewrite CleanMore.search_braces_embedded.
  - reflexivity.
  - now apply CleanFacts.free_of_lstrip.
  - now apply CleanFacts.free_of_rstrip.
Qed.

Lemma clean_response_embedded_witness :
  clean_response
    ("Here is the analysis: " ++ braced "{}, {}" ++ " I hope it helps.")
  = braced "{}, {}".
Proof.
  apply clean_response_embedded; reflexivity.
Defined.

(** X12.  A JSON object in a Markdown fence is handed to [json.loads]
    without the fence: when the object has no backtick, the cleaned response
    is the object. *)
Theorem clean_response_fenced :
  forall body : string,
    free_of backtick body = true ->
    clean_response (Re.json_fence ++ nl ++ braced body ++ nl ++ Re.fence)
    = braced body.
Proof.
  intros body Hb. unfold clean_response.
  assert (E : Re.sub_fences 0
                (Re.json_fence ++ nl ++ braced body ++ nl ++ Re.fence)
              = braced body).
  { rewrite CleanMore.sub_fences_json_fence.
    assert (Eb : braced body ++ nl ++ Re.fence
                 = String Re.open_brace body
                   ++ String Re.close_brace (nl ++ Re.fence)).
    { unfold braced.
      change ("{" ++ body ++ "}") with (String Re.open_brace (body ++ "}")).
      cbn [append]. f_equal. rewrite PyStrFacts.app_assoc. reflexivity. }
    rewrite Eb.
    change (String Re.open_brace body
            ++ String Re.close_brace (nl ++ Re.fence))
      with (String Re.open_brace
              (body ++ String Re.close_brace (nl ++ Re.fence))).
    rewrite CleanMore.leading_spaces_line.
    change (Re.drop 1
              (nl ++ String Re.open_brace
                       (body ++ String Re.close_brace (nl ++ Re.fence))))
      with (String Re.open_brace body
            ++ String Re.close_brace (nl ++ Re.fence)).
    rewrite CleanFacts.sub_fences_free.
    - rewrite CleanMore.sub_fences_closing. unfold braced.
      change ("{" ++ body ++ "}") with (String Re.open_brace (body ++ "}")).
      reflexivity.
    - cbn [free_of]. rewrite Hb. reflexivity.
    - reflexivity.
    - reflexivity. }
  rewrite E. unfold braced.
  change ("{" ++ body ++ "}")
    with (EmptyString
            ++ String Re.open_brace (body ++ String Re.close_brace "")).
  rewrite CleanMore.strip_embedded.
  rewrite CleanMore.search_braces_embedded; reflexivity.
Qed.

Lemma clean_response_fenced_witness :
  clean_response (Re.json_fence ++ nl ++ braced "{}, {}" ++ nl ++ Re.fence)
  = braced "{}, {}".
Proof.
  apply clean_response_fenced. reflexivity.
Defined.

(** ** The text generation service *)

Module AIServiceFacts.
Import AIService.

Lemma no_service_raises (load_config : outcome (option string))
    (connect : string -> outcome generative_model) (t1 t2 : Q)
    (full_prompt : string) :
  no_service load_config connect ->
  exists e, generate load_config connect t1 t2 full_prompt = Raises e.
Proof.
  unfold generate, request.
  intros [[e ->]|[->|[->|(key & e & -> & Hc)]]]; cbn [bind].
  - eexists. reflexivity.
  - eexists. reflexivity.
  - eexists. reflexivity.
  - unfold initialize_services, given, new_gemini_service.
    destruct (String.eqb key ""); [eexists; reflexivity|].
    rewrite Hc. eexists. reflexivity.
Qed.

End AIServiceFacts.

(** X13.  Without a service, because the configuration cannot be read, holds
    no API key, or the key is refused, every analysis is the rule-based one:
    [comprehensive_analysis] returns its result and raises nothing. *)
Theorem analysis_without_service :
  forall (load_config : outcome (option string))
         (connect : string -> outcome AIService.generative_model)
         (t1 t2 : Q) (json_loads : string -> outcome pyval) (prompt : string),
    no_service load_config connect ->
    comprehensive_analysis (AIService.generate load_config connect t1 t2)
      json_loads prompt
    = Returns (heuristic_result prompt).
Proof.
  intros load_config connect t1 t2 json_loads prompt H.
  destruct (AIServiceFacts.no_service_raises _ _ t1 t2
              (meta_prompt_comprehensive ++ prompt) H) as [e He].
  unfold comprehensive_analysis.
  rewrite (ArbiterFacts.select_analysis_fallback _ _ _
             (generation_raises _ _ _ e He)).
  cbn [bind]. apply ArbiterFacts.combine_rule_based.
Qed.

Lemma analysis_without_service_witness :
  comprehensive_analysis
    (AIService.generate (Returns None) (fun _ => Raises OtherException)
       1700000000 1700000001)
    (fun _ => Raises JSONDecodeError) "fix this"
  = Returns (heuristic_result "fix this").
Proof.
  apply analysis_without_service. right. left. reflexivity.
Defined.

(** X14.  The rate limit delays a request only on a service that has made a
    request less than 2 seconds before.  The analyzer builds a new manager,
    hence a new service, for every analysis: its request is never delayed,
    once the clock is past its second second. *)
Theorem rate_limit_never_delays_analysis :
  forall (load_config : outcome (option string))
         (connect : string -> outcome AIService.generative_model)
         (t1 t2 : Q) (full_prompt : string) (slept : option Q) (text : string),
    2 <= t1 ->
    AIService.request load_config connect t1 t2 full_prompt
      = Returns (slept, text) ->
    slept = None.
Proof.
  intros load_config connect t1 t2 full_prompt slept text Ht H.
  unfold AIService.request in H.
  destruct load_config as [google_api_key|e]; cbn [bind] in H;
    [|discriminate].
  unfold AIService.initialize_services, AIService.new_gemini_service in H.
  destruct (AIService.given google_api_key) as [key|];
    [|discriminate].
  destruct (connect key) as [m|e]; [|discriminate].
  cbn [AIService.get_service AIService.given AIService.primary_service
       AIService.find_service String.eqb Ascii.eqb Bool.eqb bind] in H.
  unfold AIService.generate_response, AIService.wait_for_rate_limit in H.
  cbn [AIService.last_request_time AIService.model] in H.
  assert (E : Qlt_bool (t1 - 0) AIService.min_request_interval = false).
  { unfold AIService.min_request_interval, Qlt_bool.
    apply negb_false_iff, Qle_bool_iff. lra. }
  rewrite E in H.
  destruct (m full_prompt); cbn [bind] in H; [|discriminate].
  now injection H as <- _.
Qed.

Lemma rate_limit_never_delays_analysis_witness :
  exists slept,
    AIService.request (Returns (Some "key"))
      (fun _ => Returns (fun _ => Returns "{}"))
      1700000000 1700000001 "Analyze this."
    = Returns (slept, "{}") /\
    slept = None.
Proof.
  eexists. split; [reflexivity|].
  eapply (rate_limit_never_delays_analysis (Returns (Some "key"))
            (fun _ => Returns (fun _ => Returns "{}"))
            1700000000 1700000001 "Analyze this." _ "{}");
    [vm_compute; discriminate | reflexivity].
Defined.

(** ** The prompt validator *)

Module PromptValidatorFacts.
Import PromptValidator.

Lemma validate_length_passes (prompt : string) :
  validate_length prompt = Passes <->
  (min_length <= String.length (strip prompt))%nat /\
  (String.length prompt <= max_length)%nat.
Proof.
  unfold validate_length.
  destruct (Nat.ltb_spec (String.length (strip prompt)) min_length);
    [split; [discriminate | lia]|].
  destruct (Nat.ltb_spec max_length (String.length prompt));
    [split; [discriminate | lia]|].
  split; [lia | reflexivity].
Qed.

Lemma validate_content_passes (prompt : string) :
  validate_content prompt = Passes <->
  strip prompt <> EmptyString /\
  (3 <= PyStr.word_count prompt)%nat /\
  repeats None 0 prompt = false.
Proof.
  unfold validate_content.
  destruct (String.eqb_spec (strip prompt) "") as [E|E];
    [split; [discriminate | tauto]|].
  destruct (Nat.ltb_spec (PyStr.word_count prompt) 3);
    [split; [discriminate | lia]|].
  destruct (repeats None 0 prompt);
    [split; [discriminate | intros (_ & _ & Hr); discriminate]|].
  split; auto.
Qed.

End PromptValidatorFacts.

(** X15.  [validate_prompt] accepts a prompt exactly when its stripped text
    has 10 characters or more, the prompt has 5000 characters at most and 3
    words or more, no character other than the line feed occurs 11 times in
    a row, and the prompt can be encoded as UTF-8.  A prompt that meets the
    first four conditions and cannot be encoded is rejected for its encoding.
    A rejected prompt gets one error notice, an accepted one none: the
    warning for suspicious words does not reject. *)
Theorem validate_prompt_accepts :
  forall (encodes : string -> bool) (prompt : string),
    (fst (PromptValidator.validate_prompt encodes prompt) = true <->
     (10 <= String.length (strip prompt))%nat /\
     (String.length prompt <= 5000)%nat /\
     (3 <= PyStr.word_count prompt)%nat /\
     PromptValidator.repeats None 0 prompt = false /\
     encodes prompt = true) /\
    ((10 <= String.length (strip prompt))%nat ->
     (String.length prompt <= 5000)%nat ->
     (3 <= PyStr.word_count prompt)%nat ->
     PromptValidator.repeats None 0 prompt = false ->
     encodes prompt = false ->
     PromptValidator.validate_prompt encodes prompt
     = (false,
        [PromptValidator.ErrorNotice PromptValidator.invalid_encoding])) /\
    (fst (PromptValidator.validate_prompt encodes prompt) = false ->
     exists message,
       snd (PromptValidator.validate_prompt encodes prompt)
       = [PromptValidator.ErrorNotice message]) /\
    (fst (PromptValidator.validate_prompt encodes prompt) = true ->
     snd (PromptValidator.validate_prompt encodes prompt) = [] \/
     snd (PromptValidator.validate_prompt encodes prompt)
     = [PromptValidator.WarningNotice]).
Proof.
  intros encodes prompt.
  pose proof (PromptValidatorFacts.validate_length_passes prompt) as HL.
  pose proof (PromptValidatorFacts.validate_content_passes prompt) as HC.
  unfold PromptValidator.min_length, PromptValidator.max_length in HL.
  unfold PromptValidator.validate_prompt, PromptValidator.validate_encoding.
  destruct (PromptValidator.validate_length prompt) as [|e1].
  - destruct (PromptValidator.validate_content prompt) as [|e2].
    + destruct (encodes prompt) eqn:EE; cbn [fst snd].
      * split; [|split; [|split]].
        -- split; [intros _|reflexivity].
           destruct (proj1 HL eq_refl), (proj1 HC eq_refl) as (_ & ? & ?).
           auto.
        -- discriminate.
        -- discriminate.
        -- intros _.
           destruct (PromptValidator.check_suspicious_patterns prompt); auto.
      * split; [|split; [|split]].
        -- split; [discriminate|].
           intros (_ & _ & _ & _ & H). discriminate.
        -- reflexivity.
        -- intros _. eexists. reflexivity.
        -- discriminate.
    + cbn [fst snd].
      assert (HN : ~ ((10 <= String.length (strip prompt))%nat /\
                      (3 <= PyStr.word_count prompt)%nat /\
                      PromptValidator.repeats None 0 prompt = false)).
      { intros (H1 & H3 & H4).
        assert (PromptValidator.Fails e2 = PromptValidator.Passes);
          [|discriminate].
        apply HC. split; [|auto].
        intros E. rewrite E in H1. cbn in H1. lia. }
      split; [|split; [|split]].
      * split; [discriminate|].
        intros (H1 & H2 & H3 & H4 & _). exfalso. apply HN. auto.
      * intros H1 _ H3 H4 _. exfalso. apply HN. auto.
      * intros _. eexists. reflexivity.
      * discriminate.
  - cbn [fst snd].
    assert (HN : ~ ((10 <= String.length (strip prompt))%nat /\
                    (String.length prompt <= 5000)%nat)).
    { intros H.
      assert (PromptValidator.Fails e1 = PromptValidator.Passes);
        [|discriminate].
      apply HL. exact H. }
    split; [|split; [|split]].
    + split; [discriminate|].
      intros (H1 & H2 & _). exfalso. apply HN. auto.
    + intros H1 H2 _ _ _. exfalso. apply HN. auto.
    + intros _. eexists. reflexivity.
    + discriminate.
Qed.

Lemma validate_prompt_accepts_witness :
  PromptValidator.validate_prompt (fun _ => false)
    "Summarise the attached report in five bullet points."
  = (false, [PromptValidator.ErrorNotice PromptValidator.invalid_encoding]).
Proof.
  apply (proj1 (proj2 (validate_prompt_accepts (fun _ => false)
           "Summarise the attached report in five bullet points.")));
    solve [vm_compute; lia | reflexivity].
Defined.

(** X16.  [validate_prompt] never reports an empty prompt: the check of the
    length comes first and rejects every prompt whose stripped text is
    empty as too short. *)
Theorem validate_prompt_never_empty_notice :
  forall (encodes : string -> bool) (prompt : string),
    ~ In (PromptValidator.ErrorNotice PromptValidator.empty_prompt)
        (snd (PromptValidator.validate_prompt encodes prompt)) /\
    (strip prompt = EmptyString ->
     PromptValidator.validate_prompt encodes prompt
     = (false, [PromptValidator.ErrorNotice PromptValidator.too_short])).
Proof.
  intros encodes prompt. split.
  - unfold PromptValidator.validate_prompt, PromptValidator.validate_encoding.
    destruct (PromptValidator.validate_length prompt) as [|e1] eqn:EL.
    + apply PromptValidatorFacts.validate_length_passes in EL as [H1 _].
      unfold PromptValidator.validate_content.
      destruct (String.eqb_spec (strip prompt) "") as [E|E].
      { rewrite E in H1. cbn in H1.
        unfold PromptValidator.min_length in H1. lia. }
      destruct (PyStr.word_count prompt <? 3)%nat;
        [cbn; intros [H|[]]; discriminate|].
      destruct (PromptValidator.repeats None 0 prompt);
        [cbn; intros [H|[]]; discriminate|].
      destruct (encodes prompt);
        [|cbn; intros [H|[]]; discriminate].
      destruct (PromptValidator.check_suspicious_patterns prompt); cbn;
        [intros [H|[]]; discriminate | tauto].
    + unfold PromptValidator.validate_length in EL.
      destruct (String.length (strip prompt) <? PromptValidator.min_length)%nat;
        [|destruct (PromptValidator.max_length <? String.length prompt)%nat];
        try discriminate; injection EL as <-;
        cbn; intros [H|[]]; discriminate.
  - intros E.
    unfold PromptValidator.validate_prompt, PromptValidator.validate_length.
    rewrite E. reflexivity.
Qed.

Lemma validate_prompt_never_empty_notice_witness :
  PromptValidator.validate_prompt (fun _ => true) "   "
  = (false, [PromptValidator.ErrorNotice PromptValidator.too_short]).
Proof.
  apply (proj2 (validate_prompt_never_empty_notice (fun _ => true) "   ")).
  reflexivity.
Defined.

Module PromptScoreFacts.
Import PromptValidator.

Lemma distinct_length (l : list string) :
  (List.length (distinct l) <= List.length l)%nat.
Proof.
  induction l as [|x l IH]; [reflexivity|].
  cbn [distinct]. destruct (existsb (String.eqb x) l); cbn [List.length]; lia.
Qed.

Lemma distinct_nonempty (l : list string) :
  l <> [] -> (1 <= List.length (distinct l))%nat.
Proof.
  induction l as [|x l IH]; [congruence|]. intros _.
  cbn [distinct]. destruct (existsb (String.eqb x) l) eqn:E.
  - apply IH. intros ->. discriminate.
  - cbn. lia.
Qed.

Lemma of_count_le (n m : nat) : (n <= m)%nat -> of_count n <= of_count m.
Proof. intros H. unfold of_count. rewrite <- Zle_Qle. lia. Qed.

Lemma of_count_pos (n : nat) : (1 <= n)%nat -> 0 < of_count n.
Proof.
  intros H. unfold of_count. change 0 with (inject_Z 0).
  rewrite <- Zlt_Qlt. lia.
Qed.

(** The share of distinct words is above 0 and 1 at most. *)
Lemma diversity_bounds (words : list string) :
  words <> [] ->
  0 < of_count (List.length (distinct words)) / of_count (List.length words)
  <= 1.
Proof.
  intros H.
  assert (Hw : 0 < of_count (List.length words)).
  { apply of_count_pos. destruct words; [congruence | cbn; lia]. }
  split.
  - apply Qlt_shift_div_l; [exact Hw|].
    rewrite Qmult_0_l. apply of_count_pos, distinct_nonempty, H.
  - apply Qle_shift_div_r; [exact Hw|].
    rewrite Qmult_1_l. apply of_count_le, distinct_length.
Qed.

End PromptScoreFacts.

(** X17.  The validation score of every prompt lies between 0.3 and 1: the
    final [max(0, score)] never changes it. *)
Theorem validation_score_bounds :
  forall prompt : string,
    0.3 <= PromptValidator.get_validation_score prompt <= 1.
Proof.
  intros prompt. unfold PromptValidator.get_validation_score. cbv zeta.
  set (words := PromptValidator.split_words [] prompt).
  assert (Hd : 0 <= match words with
                    | [] => 0
                    | _ :: _ =>
                        of_count (List.length (PromptValidator.distinct words))
                        / of_count (List.length words)
                    end <= 1).
  { destruct words as [|w ws] eqn:E; [lra|].
    destruct (PromptScoreFacts.diversity_bounds (w :: ws)) as [H1 H2];
      [discriminate|]. lra. }
  revert Hd.
  generalize (match words with
              | [] => 0
              | _ :: _ =>
                  of_count (List.length (PromptValidator.distinct words))
                  / of_count (List.length words)
              end).
  intros d [Hd0 Hd1].
  destruct (String.length prompt <? 50)%nat;
    destruct (S (count_runs is_sentence_end false prompt) <? 2)%nat;
    (split; [eapply Qle_trans; [|apply Q.le_max_r]; nra
            | apply Q.max_lub; nra]).
Qed.

(** ** The cache and the timers *)

Module DictFacts.
Section Values.

Context {V : Type}.
Implicit Types (d : @Dict.t V) (v : V) (key : string).

Lemma lookup_assign_same key v d :
  Dict.lookup key (Dict.assign key v d) = Some v.
Proof.
  induction d as [|[k x] d IH]; cbn [Dict.assign Dict.lookup].
  - now rewrite String.eqb_refl.
  - destruct (String.eqb key k) eqn:E; cbn [Dict.lookup]; rewrite E;
      [reflexivity | exact IH].
Qed.

Lemma lookup_assign_other key key' v d :
  key' <> key ->
  Dict.lookup key' (Dict.assign key v d) = Dict.lookup key' d.
Proof.
  intros Hne. apply String.eqb_neq in Hne.
  induction d as [|[k x] d IH]; cbn [Dict.assign Dict.lookup].
  - now rewrite Hne.
  - destruct (String.eqb key k) eqn:E; cbn [Dict.lookup].
    + apply String.eqb_eq in E. subst k. now rewrite Hne.
    + destruct (String.eqb key' k); [reflexivity | exact IH].
Qed.

Lemma lookup_delete_other key key' d :
  key' <> key ->
  Dict.lookup key' (Dict.delete key d) = Dict.lookup key' d.
Proof.
  intros Hne. apply String.eqb_neq in Hne.
  induction d as [|[k x] d IH]; [reflexivity|].
  cbn [Dict.delete Dict.lookup]. destruct (String.eqb key k) eqn:E.
  - apply String.eqb_eq in E. subst k. now rewrite Hne.
  - cbn [Dict.lookup]. destruct (String.eqb key' k); [reflexivity | exact IH].
Qed.

Lemma lookup_none key d : ~ In key (Dict.keys d) -> Dict.lookup key d = None.
Proof.
  induction d as [|[k x] d IH]; [reflexivity|].
  cbn [Dict.keys map fst In Dict.lookup]. intros H.
  destruct (String.eqb_spec key k) as [->|_]; [tauto|].
  apply IH. tauto.
Qed.

Lemma lookup_in key v d : Dict.lookup key d = Some v -> In (key, v) d.
Proof.
  induction d as [|[k x] d IH]; [discriminate|].
  cbn [Dict.lookup]. destruct (String.eqb_spec key k) as [->|_].
  - intros [= ->]. now left.
  - intros H. right. now apply IH.
Qed.

(** In a dictionary, whose keys are distinct, a key has one value. *)
Lemma in_lookup key v d :
  NoDup (Dict.keys d) -> In (key, v) d -> Dict.lookup key d = Some v.
Proof.
  induction d as [|[k x] d IH]; [contradiction|].
  cbn [Dict.keys map fst]. intros Hnd [[= -> ->]|Hin]; cbn [Dict.lookup].
  - now rewrite String.eqb_refl.
  - inversion Hnd as [|? ? Hk Hnd']; subst.
    destruct (String.eqb_spec key k) as [->|_]; [|now apply IH].
    exfalso. apply Hk. apply (in_map fst) in Hin. exact Hin.
Qed.

Lemma lookup_delete_same key d :
  NoDup (Dict.keys d) -> Dict.lookup key (Dict.delete key d) = None.
Proof.
  induction d as [|[k x] d IH]; [reflexivity|].
  cbn [Dict.keys map fst]. intros Hnd.
  inversion Hnd as [|? ? Hk Hnd']; subst.
  cbn [Dict.delete]. destruct (String.eqb_spec key k) as [->|Hne].
  - now apply lookup_none.
  - cbn [Dict.lookup]. apply String.eqb_neq in Hne. rewrite Hne.
    now apply IH.
Qed.

Lemma keys_assign key v d :
  In key (Dict.keys d) -> Dict.keys (Dict.assign key v d) = Dict.keys d.
Proof.
  induction d as [|[k x] d IH]; [contradiction|].
  cbn [Dict.keys map fst Dict.assign].
  destruct (String.eqb_spec key k) as [->|Hne]; [reflexivity|].
  intros [E|Hin]; [congruence|].
  cbn [map fst]. f_equal. now apply IH.
Qed.

Lemma keys_assign_new key v d :
  ~ In key (Dict.keys d) ->
  Dict.keys (Dict.assign key v d) = (Dict.keys d ++ [key])%list.
Proof.
  induction d as [|[k x] d IH]; [reflexivity|].
  cbn [Dict.keys map fst Dict.assign In]. intros H.
  destruct (String.eqb_spec key k) as [->|Hne]; [tauto|].
  cbn [map fst app]. f_equal. apply IH. tauto.
Qed.

Lemma nodup_assign key v d :
  NoDup (Dict.keys d) -> NoDup (Dict.keys (Dict.assign key v d)).
Proof.
  intros H. destruct (in_dec string_dec key (Dict.keys d)) as [Hin|Hnin].
  - now rewrite keys_assign.
  - rewrite keys_assign_new by exact Hnin.
    apply NoDup_app; [exact H | repeat constructor; intros [] |].
    intros k Hk [<-|[]]. contradiction.
Qed.

End Values.
End DictFacts.

Module DictMore.
Section Values.

Context {V : Type}.
Implicit Types (d : @Dict.t V) (v : V) (key : string).

Lemma lookup_delete_none key key' d :
  Dict.lookup key' d = None -> Dict.lookup key' (Dict.delete key d) = None.
Proof.
  induction d as [|[k x] d IH]; [reflexivity|].
  cbn [Dict.lookup Dict.delete].
  destruct (String.eqb key' k) eqn:E; [discriminate|]. intros H.
  destruct (String.eqb key k); [exact H|].
  cbn [Dict.lookup]. rewrite E. now apply IH.
Qed.

Lemma keys_delete_incl key d k :
  In k (Dict.keys (Dict.delete key d)) -> In k (Dict.keys d).
Proof.
  induction d as [|[k0 x] d IH]; [contradiction|].
  cbn [Dict.delete]. destruct (String.eqb key k0).
  - intros H. right. exact H.
  - cbn [Dict.keys map fst In]. intros [H|H]; [now left|right].
    now apply IH.
Qed.

Lemma nodup_delete key d :
  NoDup (Dict.keys d) -> NoDup (Dict.keys (Dict.delete key d)).
Proof.
  induction d as [|[k x] d IH]; [intros H; exact H|].
  cbn [Dict.keys map fst]. intros Hnd.
  inversion Hnd as [|? ? Hk Hnd']; subst.
  cbn [Dict.delete]. destruct (String.eqb key k); [exact Hnd'|].
  cbn [Dict.keys map fst]. constructor; [|now apply IH].
  intros H. apply Hk. now apply (keys_delete_incl key d k).
Qed.

(** Deleting other keys leaves a key as it is. *)
Lemma lookup_delete_all key (ks : list string) d :
  ~ In key ks ->
  Dict.lookup key (fold_left (fun acc k => Dict.delete k acc) ks d)
  = Dict.lookup key d.
Proof.
  revert d. induction ks as [|k ks IH]; intros d H; [reflexivity|].
  cbn [fold_left]. rewrite IH by (intros Hin; apply H; now right).
  apply DictFacts.lookup_delete_other. intros ->. apply H. now left.
Qed.

Lemma lookup_delete_all_none key (ks : list string) d :
  Dict.lookup key d = None ->
  Dict.lookup key (fold_left (fun acc k => Dict.delete k acc) ks d) = None.
Proof.
  revert d. induction ks as [|k ks IH]; intros d H; [exact H|].
  cbn [fold_left]. apply IH. now apply lookup_delete_none.
Qed.

(** A deleted key is gone. *)
Lemma lookup_deleted key (ks : list string) d :
  NoDup (Dict.keys d) -> In key ks ->
  Dict.lookup key (fold_left (fun acc k => Dict.delete k acc) ks d) = None.
Proof.
  revert d. induction ks as [|k ks IH]; intros d Hnd Hin; [contradiction|].
  cbn [fold_left]. destruct (string_dec k key) as [->|Hne].
  - apply lookup_delete_all_none. now apply DictFacts.lookup_delete_same.
  - apply IH; [now apply nodup_delete|].
    destruct Hin as [E|Hin]; [congruence | exact Hin].
Qed.

End Values.
End DictMore.

Module CacheFacts.
Section Data.

Context {A : Type}.
Implicit Types (s : @Cache.store A) (e : @Cache.entry A).

Lemma is_expired_false (ttl_hours : Z) (now timestamp : Q) :
  Cache.is_expired ttl_hours now timestamp = false <->
  now - timestamp <= inject_Z (ttl_hours * 3600).
Proof.
  unfold Cache.is_expired, Qlt_bool.
  rewrite negb_false_iff. apply Qle_bool_iff.
Qed.

Lemma is_expired_true (ttl_hours : Z) (now timestamp : Q) :
  Cache.is_expired ttl_hours now timestamp = true <->
  inject_Z (ttl_hours * 3600) < now - timestamp.
Proof.
  unfold Cache.is_expired, Qlt_bool. rewrite negb_true_iff.
  split.
  - intros H. apply Qnot_le_lt. intros Hle.
    apply Qle_bool_iff in Hle. congruence.
  - intros H. destruct (Qle_bool _ _) eqn:E; [|reflexivity].
    apply Qle_bool_iff in E. lra.
Qed.

(** An expired key has an entry that was expired when the clock was read
    for it. *)
Lemma expired_keys_in (ttl_hours : Z) (clock : nat -> Q) (first : nat) s
    (key : string) :
  In key (Cache.expired_keys ttl_hours clock first s) ->
  exists e n,
    In (key, e) s /\
    Cache.is_expired ttl_hours (clock n) (Cache.timestamp e) = true.
Proof.
  revert first. induction s as [|[k e0] s IH]; intros first; [contradiction|].
  cbn [Cache.expired_keys].
  destruct (Cache.is_expired ttl_hours (clock first) (Cache.timestamp e0))
    eqn:E.
  - intros [<-|H].
    + exists e0, first. split; [now left | exact E].
    + destruct (IH _ H) as (e & n & Hin & He). exists e, n.
      split; [now right | exact He].
  - intros H. destruct (IH _ H) as (e & n & Hin & He). exists e, n.
    split; [now right | exact He].
Qed.

(** An entry that was expired when the clock was read for it has its key
    among the expired ones. *)
Lemma in_expired_keys (ttl_hours : Z) (clock : nat -> Q) (first : nat) s
    (i : nat) (key : string) e :
  nth_error s i = Some (key, e) ->
  Cache.is_expired ttl_hours (clock (first + i)%nat) (Cache.timestamp e)
    = true ->
  In key (Cache.expired_keys ttl_hours clock first s).
Proof.
  revert first i. induction s as [|[k e0] s IH]; intros first i Hn E.
  - destruct i; discriminate.
  - cbn [Cache.expired_keys]. destruct i as [|i].
    + injection Hn as -> ->. rewrite Nat.add_0_r in E. rewrite E. now left.
    + cbn [nth_error] in Hn.
      assert (Hin : In key (Cache.expired_keys ttl_hours clock (S first) s)).
      { apply (IH (S first) i Hn).
        now replace (S first + i)%nat with (first + S i)%nat by lia. }
      destruct (Cache.is_expired ttl_hours (clock first) (Cache.timestamp e0));
        [right|]; exact Hin.
Qed.

End Data.
End CacheFacts.

(** X18.  A value stored in the cache is returned by [get] for as long as
    its entry has not expired: if every reading of the clock, during the
    cleanup of [set] and in [get], is within the time to live of the reading
    that stamps the entry, [get] returns the value and leaves the store as
    it is. *)
Theorem cache_set_get :
  forall (A : Type) (ttl_hours : Z) (t0 t1 : Q) (clock : nat -> Q)
         (key : string) (value : A) (s : @Cache.store A),
    NoDup (Dict.keys s) ->
    (forall n, clock n - t0 <= inject_Z (ttl_hours * 3600)) ->
    t1 - t0 <= inject_Z (ttl_hours * 3600) ->
    let s' := Cache.set ttl_hours t0 clock key value s in
    Cache.get ttl_hours t1 key s' = (Some value, s').
Proof.
  intros A ttl_hours t0 t1 clock key value s Hnd Hclock Ht1 s'.
  set (e0 := {| Cache.data := value; Cache.timestamp := t0 |}).
  assert (Hl : Dict.lookup key s' = Some e0).
  { unfold s', Cache.set, Cache.cleanup_expired. fold e0.
    rewrite DictMore.lookup_delete_all;
      [apply DictFacts.lookup_assign_same|].
    intros Hin.
    destruct (CacheFacts.expired_keys_in _ _ _ _ _ Hin) as (e & n & He & Hx).
    apply DictFacts.in_lookup in He; [|now apply DictFacts.nodup_assign].
    rewrite DictFacts.lookup_assign_same in He. injection He as <-.
    apply CacheFacts.is_expired_true in Hx. cbn [Cache.timestamp e0] in Hx.
    specialize (Hclock n). lra. }
  unfold Cache.get. rewrite Hl. cbn [Cache.timestamp Cache.data e0].
  now rewrite (proj2 (CacheFacts.is_expired_false ttl_hours t1 t0) Ht1).
Qed.

Lemma cache_set_get_witness :
  let s := [("a", {| Cache.data := 1%nat; Cache.timestamp := 0 |})] in
  let s' := Cache.set 24 100000 (fun _ => 100001) "b" 2%nat s in
  Cache.get 24 100002 "b" s' = (Some 2%nat, s').
Proof.
  intros s s'.
  apply (cache_set_get nat 24 100000 100002 (fun _ => 100001) "b" 2%nat s).
  - repeat constructor. intros [].
  - intros _. vm_compute. discriminate.
  - vm_compute. discriminate.
Defined.

(** X19.  An entry that has expired is dropped when it is read: [get]
    returns nothing, deletes the entry, and every later [get] of the key
    finds nothing. *)
Theorem cache_get_expired :
  forall (A : Type) (ttl_hours : Z) (t1 : Q) (key : string)
         (e : @Cache.entry A) (s : @Cache.store A),
    NoDup (Dict.keys s) ->
    Dict.lookup key s = Some e ->
    inject_Z (ttl_hours * 3600) < t1 - Cache.timestamp e ->
    Cache.get ttl_hours t1 key s = (None, Dict.delete key s) /\
    forall t2,
      Cache.get ttl_hours t2 key (Dict.delete key s)
      = (None, Dict.delete key s).
Proof.
  intros A ttl_hours t1 key e s Hnd Hl Ht. split.
  - unfold Cache.get. rewrite Hl.
    now rewrite (proj2 (CacheFacts.is_expired_true ttl_hours t1 _) Ht).
  - intros t2. unfold Cache.get.
    now rewrite (DictFacts.lookup_delete_same key s Hnd).
Qed.

Lemma cache_get_expired_witness :
  let s := [("a", {| Cache.data := 1%nat; Cache.timestamp := 0 |})] in
  Cache.get 24 100000 "a" s = (None, []).
Proof.
  intros s.
  apply (proj1 (cache_get_expired nat 24 100000 "a"
                  {| Cache.data := 1%nat; Cache.timestamp := 0 |} s
                  ltac:(repeat constructor; intros [])
                  eq_refl ltac:(vm_compute; reflexivity))).
Defined.

(** X20.  [set] purges the cache: every entry that is in the store after
    [set] was not expired when the cleanup read the clock for it, which is
    the reading of its position in the store. *)
Theorem cache_set_purges :
  forall (A : Type) (ttl_hours : Z) (t0 : Q) (clock : nat -> Q)
         (key : string) (value : A) (s : @Cache.store A)
         (k : string) (e : @Cache.entry A),
    NoDup (Dict.keys s) ->
    Dict.lookup k (Cache.set ttl_hours t0 clock key value s) = Some e ->
    exists i,
      nth_error
        (Dict.assign key {| Cache.data := value; Cache.timestamp := t0 |} s) i
        = Some (k, e) /\
      clock i - Cache.timestamp e <= inject_Z (ttl_hours * 3600).
Proof.
  intros A ttl_hours t0 clock key value s k e Hnd Hl.
  unfold Cache.set, Cache.cleanup_expired in Hl.
  set (s1 := Dict.assign key
               {| Cache.data := value; Cache.timestamp := t0 |} s) in *.
  assert (Hnd1 : NoDup (Dict.keys s1)) by now apply DictFacts.nodup_assign.
  destruct (in_dec string_dec k (Cache.expired_keys ttl_hours clock 0 s1))
    as [Hin|Hnin].
  - rewrite (DictMore.lookup_deleted k _ s1 Hnd1 Hin) in Hl. discriminate.
  - rewrite (DictMore.lookup_delete_all k _ s1 Hnin) in Hl.
    apply DictFacts.lookup_in in Hl.
    destruct (In_nth_error _ _ Hl) as [i Hi].
    exists i. split; [exact Hi|].
    apply CacheFacts.is_expired_false.
    destruct (Cache.is_expired ttl_hours (clock i) (Cache.timestamp e))
      eqn:E; [|reflexivity].
    exfalso. apply Hnin.
    now apply (CacheFacts.in_expired_keys ttl_hours clock 0 s1 i k e Hi).
Qed.

Lemma cache_set_purges_witness :
  let s := [("a", {| Cache.data := 1%nat; Cache.timestamp := 0 |})] in
  let clock : nat -> Q := fun _ => 100001 in
  Dict.lookup "b" (Cache.set 24 100000 clock "b" 2%nat s)
    = Some {| Cache.data := 2%nat; Cache.timestamp := 100000 |} /\
  Dict.lookup "a" (Cache.set 24 100000 clock "b" 2%nat s) = None /\
  exists i : nat,
    nth_error
      (Dict.assign "b" {| Cache.data := 2%nat; Cache.timestamp := 100000 |} s)
      i
      = Some ("b", {| Cache.data := 2%nat; Cache.timestamp := 100000 |}) /\
    clock i - 100000 <= inject_Z (24 * 3600).
Proof.
  intros s clock. split; [reflexivity|]. split; [reflexivity|].
  apply (cache_set_purges nat 24 100000 clock "b" 2%nat s "b"
           {| Cache.data := 2%nat; Cache.timestamp := 100000 |}).
  - repeat constructor. intros [].
  - reflexivity.
Defined.

(** X21.  A timer that has been started is ended once: [end_timer] returns
    the time between the two readings of the clock and records one metric
    with it; ended again, the operation gives 0.0 and nothing is recorded. *)
Theorem timer_ends_once :
  forall (t0 t1 t2 : Q) (op : string) (s : PerformanceLogger.state),
    NoDup (Dict.keys (PerformanceLogger.start_times s)) ->
    let started := PerformanceLogger.start_timer t0 op s in
    let ended := snd (PerformanceLogger.end_timer t1 t2 op started) in
    fst (PerformanceLogger.end_timer t1 t2 op started) = t1 - t0 /\
    PerformanceLogger.metrics ended
    = (PerformanceLogger.metrics s
       ++ [{| PerformanceLogger.operation := op;
              PerformanceLogger.duration := t1 - t0;
              PerformanceLogger.recorded_at := t2 |}])%list /\
    forall t3 t4,
      PerformanceLogger.end_timer t3 t4 op ended = (0.0, ended).
Proof.
  intros t0 t1 t2 op s Hnd started ended.
  unfold ended, started, PerformanceLogger.end_timer,
    PerformanceLogger.start_timer.
  cbn [PerformanceLogger.start_times PerformanceLogger.metrics].
  rewrite DictFacts.lookup_assign_same. cbn [fst snd].
  split; [reflexivity|]. split; [reflexivity|].
  intros t3 t4.
  cbn [PerformanceLogger.start_times PerformanceLogger.metrics].
  rewrite DictFacts.lookup_delete_same; [reflexivity|].
  now apply DictFacts.nodup_assign.
Qed.

Lemma timer_ends_once_witness :
  fst (PerformanceLogger.end_timer 12 13 "analysis"
         (PerformanceLogger.start_timer 10 "analysis" PerformanceLogger.init))
  = 12 - 10.
Proof.
  apply (timer_ends_once 10 12 13 "analysis" PerformanceLogger.init).
  constructor.
Defined.

(** ** The rewriting step and the validator, again *)

(** X22.  [_improve_prompt] never shortens a prompt: the improved prompt has
    as many words as the prompt at least, and 15 at least. *)
Theorem improve_prompt_grows :
  forall (prompt : string) (weaknesses : list string),
    (PyStr.word_count prompt
     <= PyStr.word_count (improve_prompt prompt weaknesses))%nat /\
    (15 <= PyStr.word_count (improve_prompt prompt weaknesses))%nat.
Proof.
  intros prompt weaknesses.
  destruct (ImproveFacts.improve_prompt_saturated prompt weaknesses)
    as [H15 _].
  split; [|exact H15].
  destruct (Nat.ltb_spec (PyStr.word_count prompt) 15) as [Hlt|Hge];
    [lia|].
  unfold improve_prompt.
  destruct (Nat.ltb_spec (PyStr.word_count prompt) 15) as [Hlt|_]; [lia|].
  destruct (negb (contains "format" (lower prompt)));
    destruct (negb (any_present ["words"; "length"; "brief"; "detailed"]
                      (lower prompt)));
    try apply Nat.le_refl;
    try apply PyStrFacts.word_count_app_l.
  eapply Nat.le_trans; apply PyStrFacts.word_count_app_l.
Qed.

(** X23.  What the validator accepts: a response that it accepts is a
    mapping with the four top-level keys, its scores are a mapping with the
    six score keys in which every score, unwrapped when it is a list of one
    element, is a number between 1 and 10, and its confidence is a number
    between 0 and 1.  The validator leaves the response with its scores
    unwrapped and nothing else changed. *)
Theorem validator_accepts_only :
  forall raw validated : pyval,
    validate_ai_response raw = Returns (true, validated) ->
    exists (items scores : list (string * pyval)) (confidence : pyval),
      raw = PDict items /\
      ValidatorSpec.has_keys required_keys raw /\
      Py.lookup "scores" items = Some (PDict scores) /\
      ValidatorSpec.has_keys score_keys (PDict scores) /\
      Forall (fun item =>
                ValidatorSpec.number_within 1 10 (unwrap_single (snd item)))
        scores /\
      Py.lookup "confidence" items = Some confidence /\
      ValidatorSpec.number_within 0 1 confidence /\
      validated =
        PDict
          (set_item "scores"
             (PDict (List.map ValidatorSpec.unwrap_item scores)) items).
Proof.
  intros raw validated H.
  destruct (ValidatorFacts.validate_true_inv _ _ H)
    as (items & scores & analysis & conf & -> & Hreq & Hsc & Hsk & Han & Hak
        & HF & Hconf & Hn & Hr & ->).
  exists items, scores, conf.
  split; [reflexivity|].
  split; [now apply ValidatorFacts.all_in_dict|].
  split; [exact Hsc|].
  split; [now apply ValidatorFacts.all_in_dict|].
  split.
  { eapply Forall_impl; [|exact HF].
    intros item Hv. now apply ValidatorFacts.number_within_iff. }
  split; [exact Hconf|].
  split; [|reflexivity].
  apply ValidatorFacts.number_within_iff. now rewrite Hn, Hr.
Qed.

Lemma validator_accepts_only_witness :
  exists (items scores : list (string * pyval)) (confidence : pyval),
    wrapped_score_response = PDict items /\
    ValidatorSpec.has_keys required_keys wrapped_score_response /\
    Py.lookup "scores" items = Some (PDict scores) /\
    ValidatorSpec.has_keys score_keys (PDict scores) /\
    Forall (fun item =>
              ValidatorSpec.number_within 1 10 (unwrap_single (snd item)))
      scores /\
    Py.lookup "confidence" items = Some confidence /\
    ValidatorSpec.number_within 0 1 confidence /\
    unwrapped_score_response =
      PDict
        (set_item "scores"
           (PDict (List.map ValidatorSpec.unwrap_item scores)) items).
Proof.
  apply (validator_accepts_only wrapped_score_response). reflexivity.
Defined.

(** X24.  The validator accepts every response that is as C3 describes it,
    and leaves it with its scores unwrapped. *)
Theorem validator_accepts_well_formed :
  forall raw : pyval,
    ValidatorSpec.well_formed raw ->
    exists items scores : list (string * pyval),
      raw = PDict items /\
      Py.lookup "scores" items = Some (PDict scores) /\
      validate_ai_response raw =
        Returns
          (true,
           PDict
             (set_item "scores"
                (PDict (List.map ValidatorSpec.unwrap_item scores)) items)).
Proof.
  intros raw (items & scores & analysis & conf & -> & Hreq & Hsc & Hsk & Han
              & Hak & HF & Hconf & Hc).
  apply ValidatorFacts.number_within_iff in Hc.
  apply andb_true_iff in Hc as [Hc1 Hc2].
  exists items, scores. split; [reflexivity|]. split; [exact Hsc|].
  apply (ValidatorFacts.validate_true_intro items scores analysis conf);
    try assumption; try (now apply ValidatorFacts.has_keys_all_in).
  eapply Forall_impl; [|exact HF].
  intros item H. now apply ValidatorFacts.number_within_iff.
Qed.

Lemma validator_accepts_well_formed_witness :
  validate_ai_response wrapped_score_response
  = Returns (true, unwrapped_score_response).
Proof.
  destruct (validator_accepts_well_formed wrapped_score_response)
    as (items & scores & E & Hsc & H).
  - do 4 eexists. split; [reflexivity|].
    split; [eexists; split; [reflexivity|]; repeat constructor; discriminate|].
    split; [reflexivity|].
    split; [eexists; split; [reflexivity|]; repeat constructor; discriminate|].
    split; [reflexivity|].
    split; [eexists; split; [reflexivity|]; repeat constructor; discriminate|].
    split.
    { repeat constructor; eexists; (split; [reflexivity|]);
        split; vm_compute; discriminate. }
    split; [reflexivity|].
    eexists. split; [reflexivity|]. split; vm_compute; discriminate.
  - injection E as <-. cbn in Hsc. injection Hsc as <-. exact H.
Defined.

(** X25.  On a response that is a mapping in which the scores and the
    analysis, when they are there, are mappings, the validator raises
    nothing: it returns its verdict. *)
Theorem validator_total_on_mappings :
  forall items : list (string * pyval),
    (forall v, Py.lookup "scores" items = Some v -> is_mapping v) ->
    (forall v, Py.lookup "analysis" items = Some v -> is_mapping v) ->
    exists (verdict : bool) (left : pyval),
      validate_ai_response (PDict items) = Returns (verdict, left).
Proof.
  intros items Hsc Han. unfold validate_ai_response.
  assert (Hall : forall keys d, exists b, Py.all_in keys (PDict d) = Returns b).
  { intros keys d. induction keys as [|k keys [b IH]];
      [eexists; reflexivity|].
    cbn [Py.all_in Py.contains_key bind].
    destruct (Py.lookup k d); [exists b; exact IH | eexists; reflexivity]. }
  destruct (Hall required_keys items) as [b1 ->]. cbn [bind].
  destruct b1; cbn [negb]; [|do 2 eexists; reflexivity].
  cbn [Py.get bind].
  assert (Es : exists scores,
             match Py.lookup "scores" items with
             | Some v => v
             | None => PDict []
             end = PDict scores).
  { destruct (Py.lookup "scores" items) as [v|];
      [apply Hsc; reflexivity | eexists; reflexivity]. }
  destruct Es as [scores ->].
  destruct (Hall score_keys scores) as [b2 ->]. cbn [bind].
  destruct b2; cbn [negb]; [|do 2 eexists; reflexivity].
  assert (Ea : exists analysis,
             match Py.lookup "analysis" items with
             | Some v => v
             | None => PDict []
             end = PDict analysis).
  { destruct (Py.lookup "analysis" items) as [v|];
      [apply Han; reflexivity | eexists; reflexivity]. }
  destruct Ea as [analysis ->].
  destruct (Hall analysis_keys analysis) as [b3 ->]. cbn [bind].
  destruct b3; cbn [negb]; [|do 2 eexists; reflexivity].
  cbn [Py.items bind].
  destruct (check_scores scores) as [ok scores'].
  destruct ok; cbn [negb]; [|do 2 eexists; reflexivity].
  cbn [with_scores Py.get bind].
  match goal with
  | |- context [negb ?c] => destruct c
  end; do 2 eexists; reflexivity.
Qed.

Lemma validator_total_on_mappings_witness :
  exists (verdict : bool) (left : pyval),
    validate_ai_response (PDict [("scores", PDict [])])
    = Returns (verdict, left).
Proof.
  apply validator_total_on_mappings.
  - intros v [= <-]. eexists. reflexivity.
  - intros v H. discriminate H.
Defined.
